(** * firmcatalog-prod-metrics: the event consumer and the reports worker

  A shallow embedding of [src/events-consumer.ts] (the queue consumer that
  folds a batch of events into per-(company, day) aggregates and upserts
  them into D1) and of [src/reports-worker.ts] (the GET endpoints that read
  the statistics back, and the legacy [POST /track] endpoint), with the
  host dispatch of [src/router.ts] and, of [src/metrics-worker.ts], the
  HTTP handler and the dates of the metrics query, followed by the
  properties proved about them.  The [OPTIONS] branches of the two workers
  and the GraphQL call and KV write of the scheduled run are not part of
  the embedding.

  Conventions of the embedding.
  - JS numbers that hold counts, ids and millisecond time values are
    integers and are modelled as [Z]: a batch array has fewer than 2^32
    elements and every time value that passes [TimeClip] is below 2^53,
    where double arithmetic on integers is exact.
  - JS strings are modelled as [string]; the strings the code slices
    (ISO timestamps, URL paths) are ASCII, where one character is one
    UTF-16 code unit.
  - [console.log] / [console.warn] calls have no effect on the result and
    are left out.
  - An object used as a dictionary ([aggregates]) is an association list in
    insertion order: every key the consumer builds contains a colon, so it
    is never an array index and [Object.keys] lists keys in the order they
    were first written. *)

From Stdlib Require Import ZArith List String Ascii Bool Lia.
From Stdlib Require Import Permutation Sorted DecimalString DecimalZ DecimalPos.
Import ListNotations.

Local Open Scope Z_scope.
Local Open Scope list_scope.

(** ** JavaScript values and string primitives *)

Module Js.

(** A JS number: the three non-finite values and the integers.  A finite
    number that is not an integer has no value here, so what the code does
    with one is not covered by this development: a [days] parameter such
    as 1.5, which the reports worker keeps and builds a range from, and an
    entity id such as 1.5. *)
Inductive number : Type :=
| NaN
| Infinity
| NegInfinity
| Int (z : Z).

(** The scalar values a JSON message body can carry in a field;
    [VUndefined] is a missing field. *)
Inductive value : Type :=
| VUndefined
| VNull
| VBool (b : bool)
| VNumber (n : number)
| VString (s : string).

(** ToBoolean. *)
Definition truthy (v : value) : bool :=
  match v with
  | VUndefined | VNull => false
  | VBool b => b
  | VNumber NaN => false
  | VNumber (Int z) => negb (z =? 0)
  | VNumber _ => true
  | VString s => negb (String.eqb s "")
  end.

(** Number::toString for an integer (plain decimal digits, a leading
    minus sign for negatives). *)
Definition integer_to_string (z : Z) : string :=
  NilZero.string_of_int (Z.to_int z).

(** Number::toString. *)
Definition number_to_string (n : number) : string :=
  match n with
  | NaN => "NaN"
  | Infinity => "Infinity"
  | NegInfinity => "-Infinity"
  | Int z => integer_to_string z
  end.

(** ToString, as a template literal applies it to an interpolated value. *)
Definition to_string (v : value) : string :=
  match v with
  | VUndefined => "undefined"
  | VNull => "null"
  | VBool true => "true"
  | VBool false => "false"
  | VNumber n => number_to_string n
  | VString s => s
  end.

(** [Number.isFinite]. *)
Definition isFinite (n : number) : bool :=
  match n with
  | Int _ => true
  | _ => false
  end.

(** [n > 0]. *)
Definition positive (n : number) : bool :=
  match n with
  | Infinity => true
  | Int z => 0 <? z
  | _ => false
  end.

(** [s.slice(0, n)]: the first [n] characters, or all of [s] when it is
    shorter. *)
Fixpoint slice_to (n : nat) (s : string) : string :=
  match n, s with
  | O, _ => EmptyString
  | S _, EmptyString => EmptyString
  | S n', String c s' => String c (slice_to n' s')
  end.

(** [s.slice(n)]: [s] without its first [n] characters. *)
Fixpoint slice_from (n : nat) (s : string) : string :=
  match n, s with
  | O, _ => s
  | S _, EmptyString => EmptyString
  | S n', String _ s' => slice_from n' s'
  end.

(** [s.startsWith(p)]. *)
Definition startsWith (p s : string) : bool := String.prefix p s.

(** [s.replace(pat, rep)] with a string pattern: the first occurrence of
    [pat] is replaced. *)
Fixpoint replace (pat rep s : string) : string :=
  if String.prefix pat s then (rep ++ slice_from (String.length pat) s)%string
  else match s with
       | EmptyString => EmptyString
       | String c s' => String c (replace pat rep s')
       end.

(** The white space [trim] strips, among ASCII characters: TAB, LF, VT, FF,
    CR and SP. *)
Definition is_white_space (c : ascii) : bool :=
  let n := N_of_ascii c in
  ((9 <=? n) && (n <=? 13) || (n =? 32))%N.

Fixpoint trimStart (s : string) : string :=
  match s with
  | EmptyString => EmptyString
  | String c s' => if is_white_space c then trimStart s' else s
  end.

Fixpoint trimEnd (s : string) : string :=
  match s with
  | EmptyString => EmptyString
  | String c s' =>
      let r := trimEnd s' in
      if is_white_space c && String.eqb r "" then EmptyString
      else String c r
  end.

(** [s.trim()]. *)
Definition trim (s : string) : string := trimEnd (trimStart s).

(** *** [decodeURIComponent] *)

(** The value of a hexadecimal digit. *)
Definition hex_digit (c : ascii) : option N :=
  let n := N_of_ascii c in
  (if (48 <=? n) && (n <=? 57) then Some (n - 48)
   else if (65 <=? n) && (n <=? 70) then Some (n - 55)
   else if (97 <=? n) && (n <=? 102) then Some (n - 87)
   else None)%N.

(** A pathname cut into literal characters and [%XX] escapes. *)
Inductive uri_token : Type :=
| Literal (c : ascii)
| Escape (octet : N).

(** Every [%] must start an escape of two hexadecimal digits; [None] is the
    URIError thrown otherwise. *)
Fixpoint uri_tokens (s : string) : option (list uri_token) :=
  match s with
  | EmptyString => Some []
  | String "%" (String h (String l rest)) =>
      match hex_digit h, hex_digit l, uri_tokens rest with
      | Some x, Some y, Some ts => Some (Escape (16 * x + y)%N :: ts)
      | _, _, _ => None
      end
  | String "%" _ => None
  | String c rest =>
      match uri_tokens rest with
      | Some ts => Some (Literal c :: ts)
      | None => None
      end
  end.

Definition continuation (b : N) : bool := ((128 <=? b) && (b <=? 191))%N.

(** The octets are the UTF-8 encoding of one code point (no overlong form,
    no surrogate, nothing above U+10FFFF). *)
Definition utf8_valid (octets : list N) : bool :=
  match octets with
  | [b0; b1] => ((194 <=? b0) && (b0 <=? 223))%N && continuation b1
  | [b0; b1; b2] =>
      ((if b0 =? 224 then (160 <=? b1) && (b1 <=? 191)
        else if b0 =? 237 then (128 <=? b1) && (b1 <=? 159)
        else (225 <=? b0) && (b0 <=? 239) && continuation b1)%N)
      && continuation b2
  | [b0; b1; b2; b3] =>
      ((if b0 =? 240 then (144 <=? b1) && (b1 <=? 191)
        else if b0 =? 244 then (128 <=? b1) && (b1 <=? 143)
        else (241 <=? b0) && (b0 <=? 243) && continuation b1)%N)
      && continuation b2 && continuation b3
  | _ => false
  end.

Definition chars (octets : list N) (tail : string) : string :=
  fold_right (fun b acc => String (ascii_of_N b) acc) tail octets.

(** The escapes are decoded left to right: an octet below 0x80 is one
    character, a lead octet announces one to three continuation escapes that
    must follow at once and form valid UTF-8.  The decoded text is kept in
    UTF-8. *)
Fixpoint uri_decode (ts : list uri_token) : option string :=
  match ts with
  | [] => Some EmptyString
  | Literal c :: rest => option_map (String c) (uri_decode rest)
  | Escape b0 :: rest =>
      if (b0 <? 128)%N then
        option_map (String (ascii_of_N b0)) (uri_decode rest)
      else if (b0 <? 192)%N then None
      else if (b0 <? 224)%N then
        match rest with
        | Escape b1 :: rest' =>
            if utf8_valid [b0; b1]
            then option_map (chars [b0; b1]) (uri_decode rest')
            else None
        | _ => None
        end
      else if (b0 <? 240)%N then
        match rest with
        | Escape b1 :: Escape b2 :: rest' =>
            if utf8_valid [b0; b1; b2]
            then option_map (chars [b0; b1; b2]) (uri_decode rest')
            else None
        | _ => None
        end
      else if (b0 <? 248)%N then
        match rest with
        | Escape b1 :: Escape b2 :: Escape b3 :: rest' =>
            if utf8_valid [b0; b1; b2; b3]
            then option_map (chars [b0; b1; b2; b3]) (uri_decode rest')
            else None
        | _ => None
        end
      else None
  end.

(** What a rejected promise or an uncaught throw carries. *)
Inductive exn : Type :=
| DbError (message : string)
| RangeError
| URIError.

(** [decodeURIComponent(s)]. *)
Definition decodeURIComponent (s : string) : exn + string :=
  match uri_tokens s with
  | Some ts =>
      match uri_decode ts with
      | Some r => inr r
      | None => inl URIError
      end
  | None => inl URIError
  end.

(** *** Dates *)

Definition msPerDay : Z := 86400000.

(** Day(t) and TimeWithinDay(t). *)
Definition Day (t : Z) : Z := t / msPerDay.
Definition TimeWithinDay (t : Z) : Z := t mod msPerDay.

(** The time value of a Date object; [None] is NaN, an invalid Date. *)
Definition Date : Type := option Z.

(** TimeClip. *)
Definition TimeClip (t : Z) : Date :=
  if Z.abs t <=? 8640000000000000 then Some t else None.

(** The date of a day number in the proleptic Gregorian calendar, as
    (year, month from 1, day of the month); day 0 is 1970-01-01. *)
Definition civil_from_days (day : Z) : Z * Z * Z :=
  let z := day + 719468 in
  let era := z / 146097 in
  let doe := z mod 146097 in
  let yoe := (doe - doe / 1460 + doe / 36524 - doe / 146096) / 365 in
  let doy := doe - (365 * yoe + yoe / 4 - yoe / 100) in
  let mp := (5 * doy + 2) / 153 in
  let d := doy - (153 * mp + 2) / 5 + 1 in
  let m := if mp <? 10 then mp + 3 else mp - 9 in
  let y := yoe + era * 400 in
  (if m <=? 2 then y + 1 else y, m, d).

Fixpoint zeros (n : nat) : string :=
  match n with
  | O => EmptyString
  | S n' => String "0" (zeros n')
  end.

(** A non-negative integer in decimal, left-padded with zeros. *)
Definition pad (width : nat) (z : Z) : string :=
  let s := integer_to_string z in
  (zeros (width - String.length s) ++ s)%string.

(** The year of an ISO string: four digits from 0 to 9999, otherwise a sign
    and six digits. *)
Definition iso_year (y : Z) : string :=
  if (0 <=? y) && (y <=? 9999) then pad 4 y
  else if y <? 0 then String "-" (pad 6 (Z.abs y))
  else String "+" (pad 6 y).

(** [d.toISOString()]: throws a RangeError on an invalid Date. *)
Definition toISOString (d : Date) : exn + string :=
  match d with
  | None => inl RangeError
  | Some t =>
      let '(y, m, dd) := civil_from_days (Day t) in
      let ms := TimeWithinDay t in
      let hh := ms / 3600000 in
      let mm := ms / 60000 mod 60 in
      let ss := ms / 1000 mod 60 in
      let sss := ms mod 1000 in
      inr (iso_year y ++ "-" ++ pad 2 m ++ "-" ++ pad 2 dd ++ "T"
           ++ pad 2 hh ++ ":" ++ pad 2 mm ++ ":" ++ pad 2 ss ++ "."
           ++ pad 3 sss ++ "Z")%string
  end.

End Js.

(** ** The D1 database *)

Module D1.

(** A row of [companies]. *)
Record CompanyRow : Type := {
  id : Z;
  slug : string;
  name : string;
  city_name : option string;
  city_slug : option string;
  country_code : option string;
  primary_category_slug : option string;
  plan_type : option string
}.

(** A row of [company_daily_stats]; a counter column may hold NULL
    ([None]).  SQLite columns are dynamically typed, so [company_id] holds
    whatever value the consumer bound. *)
Record StatsRow : Type := {
  company_id : Js.value;
  date : string;
  views_profile : option Z;
  impressions_search : option Z;
  impressions_map : option Z;
  clicks_phone : option Z;
  clicks_site : option Z;
  clicks_email : option Z;
  clicks_directions : option Z;
  leads_form : option Z
}.

(** The database binding [env.DB].  [pending] is the fate of the write
    statements still to be run: [Some e] makes the next [run()] throw [e],
    [None] (or an exhausted list) lets it commit.  Read statements are
    modelled as answered by the store. *)
Record t : Type := {
  companies : list CompanyRow;
  company_daily_stats : list StatsRow;
  pending : list (option string)
}.

(** SQL [a + b]: NULL when either side is NULL. *)
Definition sql_add (a b : option Z) : option Z :=
  match a, b with
  | Some x, Some y => Some (x + y)
  | _, _ => None
  end.

(** Two bound values are the same stored value; conversions between
    SQLite storage classes are not modelled. *)
Definition value_eqb (a b : Js.value) : bool :=
  match a, b with
  | Js.VUndefined, Js.VUndefined => true
  | Js.VNull, Js.VNull => true
  | Js.VBool x, Js.VBool y => Bool.eqb x y
  | Js.VNumber Js.NaN, Js.VNumber Js.NaN => true
  | Js.VNumber Js.Infinity, Js.VNumber Js.Infinity => true
  | Js.VNumber Js.NegInfinity, Js.VNumber Js.NegInfinity => true
  | Js.VNumber (Js.Int x), Js.VNumber (Js.Int y) => x =? y
  | Js.VString x, Js.VString y => String.eqb x y
  | _, _ => false
  end.

(** The conflict target of the upsert: the unique index on
    [(company_id, date)]. *)
Definition same_key (r e : StatsRow) : bool :=
  value_eqb (company_id r) (company_id e) && String.eqb (date r) (date e).

(** [DO UPDATE SET c = c + excluded.c] for the eight counters. *)
Definition merge (r e : StatsRow) : StatsRow := {|
  company_id := company_id r;
  date := date r;
  views_profile := sql_add (views_profile r) (views_profile e);
  impressions_search := sql_add (impressions_search r) (impressions_search e);
  impressions_map := sql_add (impressions_map r) (impressions_map e);
  clicks_phone := sql_add (clicks_phone r) (clicks_phone e);
  clicks_site := sql_add (clicks_site r) (clicks_site e);
  clicks_email := sql_add (clicks_email r) (clicks_email e);
  clicks_directions := sql_add (clicks_directions r) (clicks_directions e);
  leads_form := sql_add (leads_form r) (leads_form e)
|}.

(** [INSERT ... ON CONFLICT(company_id, date) DO UPDATE SET ...] on the
    table: the row with the key of [e] absorbs [e], or [e] is added. *)
Fixpoint upsert (rows : list StatsRow) (e : StatsRow) : list StatsRow :=
  match rows with
  | [] => [e]
  | r :: rest =>
      if same_key r e then merge r e :: rest else r :: upsert rest e
  end.

(** [prepare(sql).bind(...).run()] of the upsert statement: the next
    pending fate decides whether it throws or commits. *)
Definition run_upsert (db : t) (e : StatsRow) : t * (Js.exn + unit) :=
  match pending db with
  | Some err :: rest =>
      ({| companies := companies db;
          company_daily_stats := company_daily_stats db;
          pending := rest |},
       inl (Js.DbError err))
  | _ =>
      ({| companies := companies db;
          company_daily_stats := upsert (company_daily_stats db) e;
          pending := tl (pending db) |},
       inr tt)
  end.

End D1.

(** ** [src/events-consumer.ts] *)

Module EventsConsumer.

(** [QueueEvent], the body of a queue message.  Its declaration is not
    part of the sources; the fields are the ones the consumer reads.
    [companyId] and [type] are kept as raw values because the consumer
    tests them ([!e.companyId], the [switch]); [createdAt] is a string
    when present. *)
Module QueueEvent.
Record t : Type := {
  companyId : Js.value;
  type : Js.value;
  createdAt : option string
}.
End QueueEvent.

(** A message of the batch: its body and the handle [ack()] acts on. *)
Record Message : Type := {
  id : string;
  body : QueueEvent.t
}.

(** [batch.messages] may be missing ([batch.messages || []]). *)
Record MessageBatch : Type := {
  messages : option (list Message)
}.

(** The closed enumeration behind the [switch]. *)
Inductive EventType : Type :=
| PROFILE_VIEW
| SEARCH_IMPRESSION
| MAP_IMPRESSION
| CLICK_PHONE
| CLICK_SITE
| CLICK_EMAIL
| CLICK_DIRECTIONS
| FORM_SUBMIT.

(** Which [case] of the [switch] a value selects ([===] against the case
    labels, top to bottom); [None] is the [default] branch. *)
Definition classify (v : Js.value) : option EventType :=
  match v with
  | Js.VString s =>
      if String.eqb s "PROFILE_VIEW" then Some PROFILE_VIEW
      else if String.eqb s "SEARCH_IMPRESSION" then Some SEARCH_IMPRESSION
      else if String.eqb s "MAP_IMPRESSION" then Some MAP_IMPRESSION
      else if String.eqb s "CLICK_PHONE" then Some CLICK_PHONE
      else if String.eqb s "CLICK_SITE" then Some CLICK_SITE
      else if String.eqb s "CLICK_EMAIL" then Some CLICK_EMAIL
      else if String.eqb s "CLICK_DIRECTIONS" then Some CLICK_DIRECTIONS
      else if String.eqb s "FORM_SUBMIT" then Some FORM_SUBMIT
      else None
  | _ => None
  end.

(** A value of the [aggregates] dictionary. *)
Record Aggregate : Type := {
  companyId : Js.value;
  date : string;
  views_profile : Z;
  impressions_search : Z;
  impressions_map : Z;
  clicks_phone : Z;
  clicks_site : Z;
  clicks_email : Z;
  clicks_directions : Z;
  leads_form : Z
}.

(** The object literal stored under a new key. *)
Definition fresh (companyId : Js.value) (date : string) : Aggregate := {|
  companyId := companyId;
  date := date;
  views_profile := 0;
  impressions_search := 0;
  impressions_map := 0;
  clicks_phone := 0;
  clicks_site := 0;
  clicks_email := 0;
  clicks_directions := 0;
  leads_form := 0
|}.

(** The body of the [case] selected: one field is incremented. *)
Definition increment (t : EventType) (a : Aggregate) : Aggregate :=
  match a with
  | Build_Aggregate c d vp is_ im cp cs ce cd lf =>
      match t with
      | PROFILE_VIEW => Build_Aggregate c d (vp + 1) is_ im cp cs ce cd lf
      | SEARCH_IMPRESSION => Build_Aggregate c d vp (is_ + 1) im cp cs ce cd lf
      | MAP_IMPRESSION => Build_Aggregate c d vp is_ (im + 1) cp cs ce cd lf
      | CLICK_PHONE => Build_Aggregate c d vp is_ im (cp + 1) cs ce cd lf
      | CLICK_SITE => Build_Aggregate c d vp is_ im cp (cs + 1) ce cd lf
      | CLICK_EMAIL => Build_Aggregate c d vp is_ im cp cs (ce + 1) cd lf
      | CLICK_DIRECTIONS => Build_Aggregate c d vp is_ im cp cs ce (cd + 1) lf
      | FORM_SUBMIT => Build_Aggregate c d vp is_ im cp cs ce cd (lf + 1)
      end
  end.

(** The whole [switch (e.type)]: the [default] branch only logs. *)
Definition count_event (ty : Js.value) (a : Aggregate) : Aggregate :=
  match classify ty with
  | Some t => increment t a
  | None => a
  end.

(** The field of an aggregate that an event type counts into. *)
Definition counter (t : EventType) (a : Aggregate) : Z :=
  match t with
  | PROFILE_VIEW => views_profile a
  | SEARCH_IMPRESSION => impressions_search a
  | MAP_IMPRESSION => impressions_map a
  | CLICK_PHONE => clicks_phone a
  | CLICK_SITE => clicks_site a
  | CLICK_EMAIL => clicks_email a
  | CLICK_DIRECTIONS => clicks_directions a
  | FORM_SUBMIT => leads_form a
  end.

(** The [aggregates] dictionary, own keys in insertion order. *)
Definition Aggregates : Type := list (string * Aggregate).

(** [aggregates[key]]. *)
Fixpoint get (key : string) (aggs : Aggregates) : option Aggregate :=
  match aggs with
  | [] => None
  | (k, a) :: rest => if String.eqb k key then Some a else get key rest
  end.

(** The object under [key] is mutated in place by [f]. *)
Fixpoint mutate (key : string) (f : Aggregate -> Aggregate)
         (aggs : Aggregates) : Aggregates :=
  match aggs with
  | [] => []
  | (k, a) :: rest =>
      if String.eqb k key then (k, f a) :: rest
      else (k, a) :: mutate key f rest
  end.

(** [if (!aggregates[key]) aggregates[key] = {...}]: an object is always
    truthy, so the test is whether the key is there; a new key goes last. *)
Definition ensure (key : string) (companyId : Js.value) (date : string)
           (aggs : Aggregates) : Aggregates :=
  match get key aggs with
  | Some _ => aggs
  | None => aggs ++ [(key, fresh companyId date)]
  end.

(** [`${e.companyId}:${date}`]. *)
Definition make_key (companyId : Js.value) (date : string) : string :=
  (Js.to_string companyId ++ ":" ++ date)%string.

(** The guard [!e.companyId || !e.createdAt] passed: the timestamp of an
    event that is processed further, [None] for one that is skipped. *)
Definition admitted (e : QueueEvent.t) : option string :=
  if Js.truthy (QueueEvent.companyId e) then
    match QueueEvent.createdAt e with
    | Some c => if String.eqb c "" then None else Some c
    | None => None
    end
  else None.

(** One iteration of [for (const msg of messages)]. *)
Definition step (aggs : Aggregates) (msg : Message) : Aggregates :=
  let e := body msg in
  match admitted e with
  | None => aggs
  | Some createdAt =>
      let date := Js.slice_to 10 createdAt in
      let key := make_key (QueueEvent.companyId e) date in
      let aggs := ensure key (QueueEvent.companyId e) date aggs in
      mutate key (count_event (QueueEvent.type e)) aggs
  end.

(** The first loop of [queue], started from the dictionary [aggs]. *)
Definition aggregate_from (aggs : Aggregates) (msgs : list Message)
  : Aggregates :=
  fold_left step msgs aggs.

(** The first loop of [queue]: [aggregates] after all messages. *)
Definition aggregate (msgs : list Message) : Aggregates :=
  aggregate_from [] msgs.

(** The ten values bound to the statement for one aggregate. *)
Definition bind (a : Aggregate) : D1.StatsRow := {|
  D1.company_id := companyId a;
  D1.date := date a;
  D1.views_profile := Some (views_profile a);
  D1.impressions_search := Some (impressions_search a);
  D1.impressions_map := Some (impressions_map a);
  D1.clicks_phone := Some (clicks_phone a);
  D1.clicks_site := Some (clicks_site a);
  D1.clicks_email := Some (clicks_email a);
  D1.clicks_directions := Some (clicks_directions a);
  D1.leads_form := Some (leads_form a)
|}.

(** What [queue] does to its environment, in order. *)
Inductive Effect : Type :=
| Upserted (a : Aggregate)
| Acked (message_id : string).

(** [for (const key of Object.keys(aggregates))] with the awaited
    [run()]: the first statement that throws ends the loop. *)
Fixpoint write_all (db : D1.t) (aggs : Aggregates)
  : D1.t * list Effect * (Js.exn + unit) :=
  match aggs with
  | [] => (db, [], inr tt)
  | (_, a) :: rest =>
      match D1.run_upsert db (bind a) with
      | (db', inl err) => (db', [], inl err)
      | (db', inr _) =>
          let '(db'', effects, r) := write_all db' rest in
          (db'', Upserted a :: effects, r)
      end
  end.

(** The settled state of one [queue] invocation. *)
Record Outcome : Type := {
  db_after : D1.t;
  effects : list Effect;
  settled : Js.exn + unit
}.

(** [queue(batch, env)]: aggregate, write every aggregate, then ack every
    message; the [catch] rethrows, so a failed write rejects the promise
    before any [ack()]. *)
Definition queue (batch : MessageBatch) (db : D1.t) : Outcome :=
  let messages :=
    match messages batch with Some l => l | None => [] end in
  let aggregates := aggregate messages in
  match write_all db aggregates with
  | (db', effects, inr _) =>
      {| db_after := db';
         effects := effects ++ map (fun msg => Acked (id msg)) messages;
         settled := inr tt |}
  | (db', effects, inl err) =>
      {| db_after := db'; effects := effects; settled := inl err |}
  end.

(** The messages acknowledged in a run. *)
Definition acked (effects : list Effect) : list string :=
  flat_map (fun e => match e with Acked i => [i] | Upserted _ => [] end)
           effects.

(** The aggregates written in a run. *)
Definition upserted (effects : list Effect) : list Aggregate :=
  flat_map (fun e => match e with Upserted a => [a] | Acked _ => [] end)
           effects.

End EventsConsumer.

(** ** [src/reports-worker.ts] *)

Module ReportsWorker.

Record CompanyReportTotals : Type := {
  views_profile : Z;
  impressions_search : Z;
  impressions_map : Z;
  clicks_phone : Z;
  clicks_site : Z;
  clicks_email : Z;
  clicks_directions : Z;
  leads_form : Z
}.

Record CompanyMeta : Type := {
  id : Z;
  slug : string;
  name : string;
  city_name : option string;
  city_slug : option string;
  country_code : option string;
  primary_category_slug : option string;
  plan_type : option string
}.

Record Range : Type := {
  from : string;
  to : string;
  days : Js.number
}.

(** An element of [daily], of type [{ date: string } & CompanyReportTotals]:
    the date and the eight counters of one stored day. *)
Record DailyItem : Type := {
  date : string;
  counts : CompanyReportTotals
}.

Record Last30Days : Type := {
  totals : CompanyReportTotals;
  daily : list DailyItem
}.

Record CompanyReport : Type := {
  company : CompanyMeta;
  range : Range;
  last_30_days : Last30Days
}.

Record SummaryItem : Type := {
  item_company : CompanyMeta;
  item_totals : CompanyReportTotals
}.

Record SummaryResponse : Type := {
  summary_range : Range;
  items : list SummaryItem
}.

(** The JSON bodies the GET endpoints answer with. *)
Inductive Body : Type :=
| ErrorBody (error : string)
| ReportBody (report : CompanyReport)
| SummaryBody (summary : SummaryResponse).

Record Response : Type := {
  status : Z;
  body : Body
}.

(** [jsonResponse(body, { status })]; the status is 200 when not given. *)
Definition jsonResponse (body : Body) (status : option Z) : Response :=
  {| status := match status with Some s => s | None => 200 end;
     body := body |}.

Definition emptyTotals : CompanyReportTotals := {|
  views_profile := 0;
  impressions_search := 0;
  impressions_map := 0;
  clicks_phone := 0;
  clicks_site := 0;
  clicks_email := 0;
  clicks_directions := 0;
  leads_form := 0
|}.

(** The eight [totals.c += item.c] of the loop body. *)
Definition add_totals (t c : CompanyReportTotals) : CompanyReportTotals := {|
  views_profile := views_profile t + views_profile c;
  impressions_search := impressions_search t + impressions_search c;
  impressions_map := impressions_map t + impressions_map c;
  clicks_phone := clicks_phone t + clicks_phone c;
  clicks_site := clicks_site t + clicks_site c;
  clicks_email := clicks_email t + clicks_email c;
  clicks_directions := clicks_directions t + clicks_directions c;
  leads_form := leads_form t + leads_form c
|}.

(** [Number(v ?? 0)] on a column value. *)
Definition number_or_zero (v : option Z) : Z :=
  match v with
  | Some z => z
  | None => 0
  end.

(** *** SQL read statements *)

Section OrderBy.
Context {A : Type} (leb : A -> A -> bool).

Fixpoint insert_row (x : A) (l : list A) : list A :=
  match l with
  | [] => [x]
  | y :: l' => if leb x y then x :: l else y :: insert_row x l'
  end.

(** [ORDER BY]: rows that compare equal keep the order of the scan. *)
Definition order_by (l : list A) : list A := fold_right insert_row [] l.
End OrderBy.

(** [WHERE slug = ?] followed by [first()]. *)
Definition company_by_slug (db : D1.t) (s : string) : option D1.CompanyRow :=
  find (fun c => String.eqb (D1.slug c) s) (D1.companies db).

(** [date >= ? AND date <= ?], comparing text bytewise. *)
Definition in_range (fromStr toStr : string) (r : D1.StatsRow) : bool :=
  String.leb fromStr (D1.date r) && String.leb (D1.date r) toStr.

(** The statistics statement of [/company/:slug]:
    [WHERE company_id = ? AND date >= ? AND date <= ? ORDER BY date ASC]. *)
Definition select_stats (db : D1.t) (companyId : Z) (fromStr toStr : string)
  : list D1.StatsRow :=
  order_by (fun a b => String.leb (D1.date a) (D1.date b))
    (filter (fun r => D1.value_eqb (D1.company_id r)
                        (Js.VNumber (Js.Int companyId))
                      && in_range fromStr toStr r)
       (D1.company_daily_stats db)).

(** A result row of the [/summary] statement. *)
Record SummaryRow : Type := {
  row_company : D1.CompanyRow;
  row_views_profile : option Z;
  row_impressions_search : option Z;
  row_impressions_map : option Z;
  row_clicks_phone : option Z;
  row_clicks_site : option Z;
  row_clicks_email : option Z;
  row_clicks_directions : option Z;
  row_leads_form : option Z
}.

(** The rows of [s] that satisfy [ON s.company_id = c.id AND s.date >= ?
    AND s.date <= ?] for the company [c], joined to [c]; a company without
    a matching row is kept once, with the columns of [s] NULL. *)
Definition join_company (db : D1.t) (fromStr toStr : string)
           (c : D1.CompanyRow) : list (D1.CompanyRow * option D1.StatsRow) :=
  match filter (fun r => D1.value_eqb (D1.company_id r)
                           (Js.VNumber (Js.Int (D1.id c)))
                         && in_range fromStr toStr r)
          (D1.company_daily_stats db) with
  | [] => [(c, None)]
  | matching => map (fun r => (c, Some r)) matching
  end.

(** [companies c LEFT JOIN company_daily_stats s ON ...]. *)
Definition left_join (db : D1.t) (fromStr toStr : string)
  : list (D1.CompanyRow * option D1.StatsRow) :=
  flat_map (join_company db fromStr toStr) (D1.companies db).

Definition option_string_eqb (a b : option string) : bool :=
  match a, b with
  | Some x, Some y => String.eqb x y
  | None, None => true
  | _, _ => false
  end.

(** Two joined rows fall in the same group: the eight [GROUP BY] columns
    agree (NULLs group together). *)
Definition same_group (a b : D1.CompanyRow) : bool :=
  (D1.id a =? D1.id b)
  && String.eqb (D1.slug a) (D1.slug b)
  && String.eqb (D1.name a) (D1.name b)
  && option_string_eqb (D1.city_name a) (D1.city_name b)
  && option_string_eqb (D1.city_slug a) (D1.city_slug b)
  && option_string_eqb (D1.country_code a) (D1.country_code b)
  && option_string_eqb (D1.primary_category_slug a) (D1.primary_category_slug b)
  && option_string_eqb (D1.plan_type a) (D1.plan_type b).

(** The groups, in the order their first row is met. *)
Fixpoint group_keys (rows : list D1.CompanyRow) : list D1.CompanyRow :=
  match rows with
  | [] => []
  | c :: rest =>
      c :: filter (fun d => negb (same_group c d)) (group_keys rest)
  end.

(** [SUM(col)] over a group: NULL values are skipped, and the sum of no
    value is NULL. *)
Fixpoint sql_sum (values : list (option Z)) : option Z :=
  match values with
  | [] => None
  | None :: rest => sql_sum rest
  | Some v :: rest =>
      match sql_sum rest with
      | Some s => Some (v + s)
      | None => Some v
      end
  end.

(** [COALESCE(x, 0)]. *)
Definition coalesce_zero (x : option Z) : option Z :=
  match x with
  | Some v => Some v
  | None => Some 0
  end.

(** SQL [a <= b] as [ORDER BY] ranks values: NULL sorts first. *)
Definition sql_leb (a b : option Z) : bool :=
  match a, b with
  | None, _ => true
  | Some _, None => false
  | Some x, Some y => x <=? y
  end.

(** A column of [s] in a joined row. *)
Definition joined_column (col : D1.StatsRow -> option Z)
           (r : option D1.StatsRow) : option Z :=
  match r with
  | Some s => col s
  | None => None
  end.

Definition summary_row (joined : list (D1.CompanyRow * option D1.StatsRow))
           (c : D1.CompanyRow) : SummaryRow :=
  let group := map snd (filter (fun p => same_group c (fst p)) joined) in
  let total col := coalesce_zero (sql_sum (map (joined_column col) group)) in
  {| row_company := c;
     row_views_profile := total D1.views_profile;
     row_impressions_search := total D1.impressions_search;
     row_impressions_map := total D1.impressions_map;
     row_clicks_phone := total D1.clicks_phone;
     row_clicks_site := total D1.clicks_site;
     row_clicks_email := total D1.clicks_email;
     row_clicks_directions := total D1.clicks_directions;
     row_leads_form := total D1.leads_form |}.

(** The statement of [/summary]: join, group, sum and
    [ORDER BY views_profile DESC] (the name is the alias of the summed
    column). *)
Definition select_summary (db : D1.t) (fromStr toStr : string)
  : list SummaryRow :=
  let joined := left_join db fromStr toStr in
  order_by (fun a b => sql_leb (row_views_profile b) (row_views_profile a))
    (map (summary_row joined) (group_keys (map fst joined))).

(** *** The GET handler *)

(** A GET request: [url.pathname] and [url.searchParams.get("days")]. *)
Record Request : Type := {
  pathname : string;
  days_param : option string
}.

(** The normalised [routePath]. *)
Definition route_path (pathname : string) : string :=
  let routePath :=
    if Js.startsWith "/api/reports" pathname then
      let rest := Js.slice_from (String.length "/api/reports") pathname in
      if String.eqb rest "" then "/"%string else rest
    else pathname in
  if negb (Js.startsWith "/" routePath) then String "/" routePath
  else routePath.

Definition company_meta (c : D1.CompanyRow) : CompanyMeta := {|
  id := D1.id c;
  slug := D1.slug c;
  name := D1.name c;
  city_name := D1.city_name c;
  city_slug := D1.city_slug c;
  country_code := D1.country_code c;
  primary_category_slug := D1.primary_category_slug c;
  plan_type := D1.plan_type c
|}.

(** The [item] built from a statistics row. *)
Definition daily_item (row : D1.StatsRow) : DailyItem := {|
  date := D1.date row;
  counts := {|
    views_profile := number_or_zero (D1.views_profile row);
    impressions_search := number_or_zero (D1.impressions_search row);
    impressions_map := number_or_zero (D1.impressions_map row);
    clicks_phone := number_or_zero (D1.clicks_phone row);
    clicks_site := number_or_zero (D1.clicks_site row);
    clicks_email := number_or_zero (D1.clicks_email row);
    clicks_directions := number_or_zero (D1.clicks_directions row);
    leads_form := number_or_zero (D1.leads_form row)
  |}
|}.

(** One iteration of [for (const row of rows)]: the item is pushed on
    [daily] and added to [totals]. *)
Definition accumulate (acc : Last30Days) (row : D1.StatsRow) : Last30Days :=
  let item := daily_item row in
  {| totals := add_totals (totals acc) (counts item);
     daily := daily acc ++ [item] |}.

(** [totals] and [daily] after the loop over the statistics rows. *)
Definition last30 (rows : list D1.StatsRow) : Last30Days :=
  fold_left accumulate rows {| totals := emptyTotals; daily := [] |}.

(** The element of [items] built from a row of the summary statement. *)
Definition summary_item (row : SummaryRow) : SummaryItem := {|
  item_company := company_meta (row_company row);
  item_totals := {|
    views_profile := number_or_zero (row_views_profile row);
    impressions_search := number_or_zero (row_impressions_search row);
    impressions_map := number_or_zero (row_impressions_map row);
    clicks_phone := number_or_zero (row_clicks_phone row);
    clicks_site := number_or_zero (row_clicks_site row);
    clicks_email := number_or_zero (row_clicks_email row);
    clicks_directions := number_or_zero (row_clicks_directions row);
    leads_form := number_or_zero (row_leads_form row)
  |}
|}.

(** [Number.isFinite(daysParam) && daysParam > 0 ? daysParam : 30]. *)
Definition resolve_days (daysParam : Js.number) : Js.number :=
  if Js.isFinite daysParam && Js.positive daysParam then daysParam
  else Js.Int 30.

(** [toDate]: UTC midnight of the day of [now].  [Date.UTC] of the UTC
    year, month and date of a time value is the start of its day. *)
Definition to_date (now : Z) : Js.Date :=
  Js.TimeClip (Js.Day now * Js.msPerDay).

(** [fromDate]: [new Date(toDate.getTime() - (days - 1) * 24 * 60 * 60 *
    1000)].  An invalid [toDate] or a non-finite [days] makes the argument
    NaN or infinite, which is an invalid Date as well; an integer [days] too
    large for the product to be exact in double arithmetic leaves it far
    outside the range of a Date either way. *)
Definition from_date (toDate : Js.Date) (days : Js.number) : Js.Date :=
  match toDate, days with
  | Some t, Js.Int d => Js.TimeClip (t - (d - 1) * 24 * 60 * 60 * 1000)
  | _, _ => None
  end.

(** [fromStr], [toStr] and the range descriptor; [toISOString] throws on an
    invalid Date. *)
Definition compute_range (now : Z) (days : Js.number) : Js.exn + Range :=
  let toDate := to_date now in
  let fromDate := from_date toDate days in
  match Js.toISOString fromDate with
  | inl e => inl e
  | inr fromIso =>
      match Js.toISOString toDate with
      | inl e => inl e
      | inr toIso =>
          inr {| from := Js.slice_to 10 fromIso;
                 to := Js.slice_to 10 toIso;
                 days := days |}
      end
  end.

(** The [/company/:slug] branch once the company row is found. *)
Definition company_report (db : D1.t) (r : Range) (companyRow : D1.CompanyRow)
  : CompanyReport :=
  let rows := select_stats db (D1.id companyRow) (from r) (to r) in
  {| company := company_meta companyRow;
     range := r;
     last_30_days := last30 rows |}.

(** The [/summary] branch. *)
Definition summary (db : D1.t) (r : Range) : SummaryResponse :=
  {| summary_range := r;
     items := map summary_item (select_summary db (from r) (to r)) |}.

Section Fetch.

(** The built-in [Number] applied to a string, for the strings it maps to a
    number of the model (not a number, an infinity or an integer); a
    parameter that reads as a finite fraction is not covered. *)
Variable Number : string -> Js.number.

(** [Number(searchParams.get("days") || "30")]. *)
Definition days_number (param : option string) : Js.number :=
  Number (match param with
          | Some s => if String.eqb s "" then "30"%string else s
          | None => "30"%string
          end).

(** What [fetch] does with a GET request (a GET request passes the
    [OPTIONS] and [POST /track] tests and the 405 test), at time [now]. *)
Definition fetch_get (request : Request) (now : Z) (db : D1.t)
  : Js.exn + Response :=
  let routePath := route_path (pathname request) in
  let days := resolve_days (days_number (days_param request)) in
  match compute_range now days with
  | inl e => inl e
  | inr r =>
      if Js.startsWith "/company/" routePath then
        match Js.decodeURIComponent
                (Js.trim (Js.replace "/company/" "" routePath)) with
        | inl e => inl e
        | inr slug =>
            if String.eqb slug "" then
              inr (jsonResponse (ErrorBody "Invalid company slug") (Some 400))
            else
              match company_by_slug db slug with
              | None =>
                  inr (jsonResponse (ErrorBody "Company not found") (Some 404))
              | Some companyRow =>
                  inr (jsonResponse
                         (ReportBody (company_report db r companyRow)) None)
              end
        end
      else if String.eqb routePath "/summary" then
        inr (jsonResponse (SummaryBody (summary db r)) None)
      else inr (jsonResponse (ErrorBody "Not found") (Some 404))
  end.

End Fetch.

End ReportsWorker.

(** ** [src/reports-worker.ts]: the legacy [POST /track] endpoint *)

Module Track.

(** The values of [columnMap]: the eight counter columns. *)
Inductive Column : Type :=
| col_views_profile
| col_impressions_search
| col_impressions_map
| col_clicks_phone
| col_clicks_site
| col_clicks_email
| col_clicks_directions
| col_leads_form.

(** What [columnMap[type]] evaluates to.  [columnMap] is an object literal,
    so besides its eight own keys it answers for the names it inherits
    from [Object.prototype] (with a function, or the prototype itself for
    [__proto__]); any other name is [undefined]. *)
Inductive Property : Type :=
| Own (c : Column)
| Inherited
| Undefined.

Definition object_prototype_names : list string :=
  ["constructor"; "__proto__"; "hasOwnProperty"; "isPrototypeOf";
   "propertyIsEnumerable"; "toLocaleString"; "toString"; "valueOf";
   "__defineGetter__"; "__defineSetter__"; "__lookupGetter__";
   "__lookupSetter__"]%string.

(** [columnMap[key]]. *)
Definition columnMap (key : string) : Property :=
  if String.eqb key "view_profile" then Own col_views_profile
  else if String.eqb key "impression_search" then Own col_impressions_search
  else if String.eqb key "impression_map" then Own col_impressions_map
  else if String.eqb key "click_phone" then Own col_clicks_phone
  else if String.eqb key "click_site" then Own col_clicks_site
  else if String.eqb key "click_email" then Own col_clicks_email
  else if String.eqb key "click_directions" then Own col_clicks_directions
  else if String.eqb key "lead_form" then Own col_leads_form
  else if existsb (String.eqb key) object_prototype_names then Inherited
  else Undefined.

(** The parsed request body, when it is a JSON object: its [slug] and
    [type] members, [VUndefined] for a missing one.  Members that are
    themselves objects or arrays are outside the model. *)
Record TrackBody : Type := {
  slug : Js.value;
  type : Js.value
}.

(** What the handler can throw inside its [try]. *)
Inductive thrown : Type :=
| TypeError
| SqlError
| Raised (e : Js.exn).

(** The white space of [String.prototype.trim], in UTF-8: TAB, LF, VT, FF,
    CR, SP, U+00A0, U+1680, U+2000 to U+200A, U+2028, U+2029, U+202F,
    U+205F, U+3000 and U+FEFF. *)
Definition white_space_3 (a b c : N) : bool :=
  ((a =? 225) && (b =? 154) && (c =? 128)
   || (a =? 226) && (b =? 128)
      && ((128 <=? c) && (c <=? 138) || (c =? 168) || (c =? 169)
          || (c =? 175))
   || (a =? 226) && (b =? 129) && (c =? 159)
   || (a =? 227) && (b =? 128) && (c =? 128)
   || (a =? 239) && (b =? 187) && (c =? 191))%N.

Definition white_space_1 (a : N) : bool :=
  ((9 <=? a) && (a <=? 13) || (a =? 32))%N.

(** White space is dropped from the front of a list of octets; with
    [backwards] the list is a reversed string and the octets of a character
    come last first. *)
Fixpoint drop_white_space (backwards : bool) (l : list N) : list N :=
  match l with
  | a :: rest =>
      if white_space_1 a then drop_white_space backwards rest
      else
        match rest with
        | b :: rest2 =>
            if (if backwards then (b =? 194) && (a =? 160)
                else (a =? 194) && (b =? 160))%N
            then drop_white_space backwards rest2
            else
              match rest2 with
              | c :: rest3 =>
                  if (if backwards then white_space_3 c b a
                      else white_space_3 a b c)
                  then drop_white_space backwards rest3
                  else l
              | [] => l
              end
        | [] => l
        end
  | [] => []
  end.

Definition octets (s : string) : list N :=
  map N_of_ascii (list_ascii_of_string s).

Definition of_octets (l : list N) : string :=
  string_of_list_ascii (map ascii_of_N l).

(** [s.trim()] on any string. *)
Definition trim (s : string) : string :=
  of_octets
    (rev (drop_white_space true (rev (drop_white_space false (octets s))))).

(** [body?.slug?.trim()]: [undefined] without a body or a [slug]; a [slug]
    that is a number or a boolean has no [trim] method and the call throws
    a TypeError. *)
Definition trimmed_slug (payload : option TrackBody) : thrown + Js.value :=
  match payload with
  | None => inr Js.VUndefined
  | Some p =>
      match slug p with
      | Js.VUndefined | Js.VNull => inr Js.VUndefined
      | Js.VString s => inr (Js.VString (trim s))
      | Js.VBool _ | Js.VNumber _ => inl TypeError
      end
  end.

(** [body?.type]. *)
Definition body_type (payload : option TrackBody) : Js.value :=
  match payload with
  | None => Js.VUndefined
  | Some p => type p
  end.

(** The JSON bodies of the endpoint. *)
Inductive Answer : Type :=
| OkTrue
| Error (error : string).

Record Reply : Type := {
  status : Z;
  answer : Answer
}.

Definition column_of (c : Column) (r : D1.StatsRow) : option Z :=
  match c with
  | col_views_profile => D1.views_profile r
  | col_impressions_search => D1.impressions_search r
  | col_impressions_map => D1.impressions_map r
  | col_clicks_phone => D1.clicks_phone r
  | col_clicks_site => D1.clicks_site r
  | col_clicks_email => D1.clicks_email r
  | col_clicks_directions => D1.clicks_directions r
  | col_leads_form => D1.leads_form r
  end.

(** The row with one column replaced. *)
Definition set_column (c : Column) (v : option Z) (r : D1.StatsRow)
  : D1.StatsRow :=
  match r with
  | D1.Build_StatsRow i d vp is_ im cp cs ce cd lf =>
      match c with
      | col_views_profile => D1.Build_StatsRow i d v is_ im cp cs ce cd lf
      | col_impressions_search => D1.Build_StatsRow i d vp v im cp cs ce cd lf
      | col_impressions_map => D1.Build_StatsRow i d vp is_ v cp cs ce cd lf
      | col_clicks_phone => D1.Build_StatsRow i d vp is_ im v cs ce cd lf
      | col_clicks_site => D1.Build_StatsRow i d vp is_ im cp v ce cd lf
      | col_clicks_email => D1.Build_StatsRow i d vp is_ im cp cs v cd lf
      | col_clicks_directions => D1.Build_StatsRow i d vp is_ im cp cs ce v lf
      | col_leads_form => D1.Build_StatsRow i d vp is_ im cp cs ce cd v
      end
  end.

Section Schema.

(** The value a counter column takes when an [INSERT] does not name it: the
    column default of the table, which the sources do not declare. *)
Variable counter_default : option Z.

(** The row [INSERT INTO company_daily_stats (company_id, date, column)
    VALUES (?, ?, 1)] inserts. *)
Definition inserted_row (companyId : Js.value) (dateStr : string)
           (c : Column) : D1.StatsRow :=
  set_column c (Some 1)
    {| D1.company_id := companyId;
       D1.date := dateStr;
       D1.views_profile := counter_default;
       D1.impressions_search := counter_default;
       D1.impressions_map := counter_default;
       D1.clicks_phone := counter_default;
       D1.clicks_site := counter_default;
       D1.clicks_email := counter_default;
       D1.clicks_directions := counter_default;
       D1.leads_form := counter_default |}.

(** [DO UPDATE SET column = column + 1]. *)
Definition bump (c : Column) (r : D1.StatsRow) : D1.StatsRow :=
  set_column c (D1.sql_add (column_of c r) (Some 1)) r.

(** The statement on the table: the row of the key gets one more in the
    column, or the new row is added. *)
Fixpoint increment (rows : list D1.StatsRow) (companyId : Js.value)
         (dateStr : string) (c : Column) : list D1.StatsRow :=
  match rows with
  | [] => [inserted_row companyId dateStr c]
  | r :: rest =>
      if D1.same_key r (inserted_row companyId dateStr c)
      then bump c r :: rest
      else r :: increment rest companyId dateStr c
  end.

(** [prepare(...).bind(companyId, dateStr).run()]: as for the upsert of the
    consumer, the next pending fate decides whether the statement throws or
    commits. *)
Definition run_increment (db : D1.t) (companyId : Js.value)
           (dateStr : string) (c : Column) : D1.t * (Js.exn + unit) :=
  match D1.pending db with
  | Some err :: rest =>
      ({| D1.companies := D1.companies db;
          D1.company_daily_stats := D1.company_daily_stats db;
          D1.pending := rest |},
       inl (Js.DbError err))
  | _ =>
      ({| D1.companies := D1.companies db;
          D1.company_daily_stats :=
            increment (D1.company_daily_stats db) companyId dateStr c;
          D1.pending := tl (D1.pending db) |},
       inr tt)
  end.

(** The body of the [try] of [POST /track], for the parsed body [payload]
    ([None] when the request body is not a JSON object) at time [now]. *)
Definition track_try (payload : option TrackBody) (now : Z) (db : D1.t)
  : D1.t * (thrown + Reply) :=
  match trimmed_slug payload with
  | inl t => (db, inl t)
  | inr slug =>
      let type := body_type payload in
      if negb (Js.truthy slug) || negb (Js.truthy type) then
        (db, inr {| status := 400; answer := Error "Missing slug or type" |})
      else
        match columnMap (Js.to_string type) with
        | Undefined =>
            (db, inr {| status := 400; answer := Error "Unknown event type" |})
        | column =>
            match ReportsWorker.company_by_slug db (Js.to_string slug) with
            | None =>
                (db, inr {| status := 404;
                            answer := Error "Company not found" |})
            | Some companyRow =>
                let companyId := Js.VNumber (Js.Int (D1.id companyRow)) in
                match Js.toISOString (Some now) with
                | inl e => (db, inl (Raised e))
                | inr iso =>
                    let dateStr := Js.slice_to 10 iso in
                    match column with
                    | Own c =>
                        match run_increment db companyId dateStr c with
                        | (db', inl e) => (db', inl (Raised e))
                        | (db', inr _) =>
                            (db', inr {| status := 200; answer := OkTrue |})
                        end
                    | _ => (db, inl SqlError)
                    end
                end
            end
        end
  end.

(** What [fetch] does with a [POST] request to [/track]: the [catch]
    answers 500 for anything thrown. *)
Definition fetch_track (payload : option TrackBody) (now : Z) (db : D1.t)
  : D1.t * Reply :=
  match track_try payload now db with
  | (db', inr reply) => (db', reply)
  | (db', inl _) =>
      (db', {| status := 500; answer := Error "Internal error" |})
  end.

End Schema.

End Track.


(** ** [src/metrics-worker.ts] *)

Module MetricsWorker.

Definition METRICS_KEY : string := "firmlocator:homepage-metrics".

(** The KV namespace [env.METRICS_TOTAL]: the text stored under each
    key. *)
Definition KV : Type := list (string * string).

(** [env.METRICS_TOTAL.get(key, "text")]; [None] is null. *)
Fixpoint kv_get (key : string) (kv : KV) : option string :=
  match kv with
  | [] => None
  | (k, v) :: rest => if String.eqb k key then Some v else kv_get key rest
  end.

(** [s.endsWith(suffix)]. *)
Definition endsWith (suffix s : string) : bool :=
  (String.length suffix <=? String.length s)%nat
  && String.eqb
       (Js.slice_from (String.length s - String.length suffix) s) suffix.

(** The body of a response: the JSON of an error object, or a text. *)
Inductive Body : Type :=
| ErrorBody (error : string)
| Text (text : string).

(** A response; [json] tells whether the content type and the CORS headers
    are set. *)
Record Response : Type := {
  status : Z;
  body : Body;
  json : bool
}.

(** [jsonResponse(body, { status })]. *)
Definition jsonResponse (body : Body) (status : Z) : Response :=
  {| status := status; body := body; json := true |}.

(** The two dates of the query of [fetchZoneMetrics] at time [now]:
    [from] and [to]. *)
Definition query_dates (now : Z) : Js.exn + (string * string) :=
  let fromDate := Js.TimeClip (now - 30 * 24 * 60 * 60 * 1000) in
  match Js.toISOString (Some now) with
  | inl e => inl e
  | inr toIso =>
      match Js.toISOString fromDate with
      | inl e => inl e
      | inr fromIso => inr (Js.slice_to 10 fromIso, Js.slice_to 10 toIso)
      end
  end.

(** What [fetch] does with a request of a method other than [OPTIONS]. *)
Definition fetch (path : string) (kv : KV) : Response :=
  if String.eqb path "/latest" || endsWith "/metrics/latest" path then
    match kv_get METRICS_KEY kv with
    | None => jsonResponse (ErrorBody "metrics not ready yet") 503
    | Some raw =>
        if String.eqb raw "" then
          jsonResponse (ErrorBody "metrics not ready yet") 503
        else {| status := 200; body := Text raw; json := true |}
    end
  else if String.eqb path "/health" || endsWith "/metrics/health" path then
    {| status := 200; body := Text "ok"; json := false |}
  else {| status := 404; body := Text "Not found"; json := false |}.

End MetricsWorker.

(** ** [src/router.ts] *)

Module Router.

(** The response of the worker the request is handed to, or the 404 of the
    router itself. *)
Inductive Response : Type :=
| OfMetrics (r : MetricsWorker.Response)
| OfReports (r : Js.exn + ReportsWorker.Response)
| NotFound.

(** [queue]: the batch is handed to the events consumer. *)
Definition queue (batch : EventsConsumer.MessageBatch) (db : D1.t)
  : EventsConsumer.Outcome :=
  EventsConsumer.queue batch db.

Section Fetch.

Variable Number : string -> Js.number.

(** What [fetch] does with a GET request to [hostname]. *)
Definition fetch_get (hostname : string) (request : ReportsWorker.Request)
           (now : Z) (db : D1.t) (kv : MetricsWorker.KV) : Response :=
  if String.eqb hostname "metrics.firmlocator.com" then
    OfMetrics (MetricsWorker.fetch (ReportsWorker.pathname request) kv)
  else if String.eqb hostname "reports.firmlocator.com" then
    OfReports (ReportsWorker.fetch_get Number request now db)
  else if String.eqb hostname "api.firmlocator.com"
          && Js.startsWith "/api/reports/" (ReportsWorker.pathname request)
  then OfReports (ReportsWorker.fetch_get Number request now db)
  else NotFound.

End Fetch.

End Router.



(** ** Vocabulary of the statements about the consumer *)

Module ConsumerSpec.
Import EventsConsumer.

(** The dictionary key an event is filed under; [None] for an event the
    guard skips. *)
Definition event_key (msg : Message) : option string :=
  match admitted (body msg) with
  | Some createdAt =>
      Some (make_key (QueueEvent.companyId (body msg))
              (Js.slice_to 10 createdAt))
  | None => None
  end.

(** The event is filed under [key]. *)
Definition keyed (key : string) (msg : Message) : bool :=
  match event_key msg with
  | Some k => String.eqb k key
  | None => false
  end.

(** The (entityId, day) pair of an event whose [companyId] is a number, as
    its declared type says. *)
Definition event_group (msg : Message) : option (Js.number * string) :=
  match QueueEvent.companyId (body msg), admitted (body msg) with
  | Js.VNumber n, Some createdAt => Some (n, Js.slice_to 10 createdAt)
  | _, _ => None
  end.

Definition number_eqb (a b : Js.number) : bool :=
  match a, b with
  | Js.NaN, Js.NaN => true
  | Js.Infinity, Js.Infinity => true
  | Js.NegInfinity, Js.NegInfinity => true
  | Js.Int x, Js.Int y => x =? y
  | _, _ => false
  end.

(** The event belongs to the pair [(n, day)]. *)
Definition grouped (n : Js.number) (day : string) (msg : Message) : bool :=
  match event_group msg with
  | Some (m, d) => number_eqb m n && String.eqb d day
  | None => false
  end.

(** [companyId] respects its declared type: a number, or a value the guard
    rejects. *)
Definition typed (msg : Message) : bool :=
  match QueueEvent.companyId (body msg) with
  | Js.VNumber _ => true
  | v => negb (Js.truthy v)
  end.

Definition event_type_eqb (a b : EventType) : bool :=
  match a, b with
  | PROFILE_VIEW, PROFILE_VIEW
  | SEARCH_IMPRESSION, SEARCH_IMPRESSION
  | MAP_IMPRESSION, MAP_IMPRESSION
  | CLICK_PHONE, CLICK_PHONE
  | CLICK_SITE, CLICK_SITE
  | CLICK_EMAIL, CLICK_EMAIL
  | CLICK_DIRECTIONS, CLICK_DIRECTIONS
  | FORM_SUBMIT, FORM_SUBMIT => true
  | _, _ => false
  end.

(** The event has type [t]. *)
Definition typed_as (t : EventType) (msg : Message) : bool :=
  match classify (QueueEvent.type (body msg)) with
  | Some t' => event_type_eqb t' t
  | None => false
  end.

(** A valid event: both required fields present and a recognized type. *)
Definition valid (msg : Message) : bool :=
  match admitted (body msg), classify (QueueEvent.type (body msg)) with
  | Some _, Some _ => true
  | _, _ => false
  end.

(** The event passes the required-field guard. *)
Definition passes_guard (msg : Message) : bool :=
  match admitted (body msg) with
  | Some _ => true
  | None => false
  end.

(** How many valid events of type [t] the batch files under [key]. *)
Definition tally (key : string) (t : EventType) (msgs : list Message) : Z :=
  Z.of_nat
    (List.length
       (filter (fun m => valid m && keyed key m && typed_as t m) msgs)).

(** All eight counters are zero. *)
Definition all_zero (a : Aggregate) : Prop :=
  forall t, counter t a = 0.

(** What the loop does to the entry under one key. *)
Definition local_step (key : string) (entry : option Aggregate)
           (msg : Message) : option Aggregate :=
  match admitted (body msg) with
  | None => entry
  | Some createdAt =>
      let cid := QueueEvent.companyId (body msg) in
      let date := Js.slice_to 10 createdAt in
      if String.eqb (make_key cid date) key then
        Some (count_event (QueueEvent.type (body msg))
                (match entry with
                 | Some a => a
                 | None => fresh cid date
                 end))
      else entry
  end.

Definition commits (fate : option string) : bool :=
  match fate with
  | None => true
  | Some _ => false
  end.

(** The next [n] write statements all commit. *)
Definition writes_commit (db : D1.t) (n : nat) : bool :=
  forallb commits (firstn n (D1.pending db)).

(** The messages of a batch, as [queue] reads them. *)
Definition messages_of (batch : MessageBatch) : list Message :=
  match messages batch with
  | Some l => l
  | None => []
  end.

(** The day an event counts for; [None] for an event the guard skips. *)
Definition event_day (msg : Message) : option string :=
  option_map (Js.slice_to 10) (admitted (body msg)).

(** A valid event of entity [cid], day [day] and type [t]. *)
Definition uniform (cid : Js.value) (day : string) (t : EventType)
           (msg : Message) : Prop :=
  QueueEvent.companyId (body msg) = cid
  /\ event_day msg = Some day
  /\ classify (QueueEvent.type (body msg)) = Some t.

(** Every character of [s] satisfies [p]. *)
Fixpoint forall_chars (p : ascii -> bool) (s : string) : bool :=
  match s with
  | EmptyString => true
  | String c s' => p c && forall_chars p s'
  end.

Definition not_colon (c : ascii) : bool := negb (Ascii.eqb c ":").

(** A decimal digit or the minus sign. *)
Definition sign_or_digit (c : ascii) : bool :=
  let n := N_of_ascii c in
  ((n =? 45) || (48 <=? n) && (n <=? 57))%N.

(** The same message with [companyId] missing from its body. *)
Definition without_company_id (msg : Message) : Message :=
  {| id := id msg;
     body := {| QueueEvent.companyId := Js.VUndefined;
                QueueEvent.type := QueueEvent.type (body msg);
                QueueEvent.createdAt := QueueEvent.createdAt (body msg) |} |}.

(** The deltas, in the order [Object.keys] lists them. *)
Definition deltas (msgs : list Message) : list Aggregate :=
  map snd (aggregate msgs).

(** The value of a counter in an entry that may not exist yet. *)
Definition base (t : EventType) (entry : option Aggregate) : Z :=
  match entry with
  | Some a => counter t a
  | None => 0
  end.

(** The table after the aggregates [aggs] have been upserted in order. *)
Definition table_after (rows : list D1.StatsRow) (aggs : list Aggregate)
  : list D1.StatsRow :=
  fold_left D1.upsert (map bind aggs) rows.

(** *** Events of unrecognized type, in the words of the specification *)

(** The names of the eight recognized event types. *)
Definition recognized_names : list string :=
  ["PROFILE_VIEW"; "SEARCH_IMPRESSION"; "MAP_IMPRESSION"; "CLICK_PHONE";
   "CLICK_SITE"; "CLICK_EMAIL"; "CLICK_DIRECTIONS"; "FORM_SUBMIT"]%string.

(** The type of the event is none of the eight names. *)
Definition unrecognized (msg : Message) : bool :=
  match QueueEvent.type (body msg) with
  | Js.VString s => negb (existsb (String.eqb s) recognized_names)
  | _ => true
  end.

(** Both required fields are present: an entity id that is not falsy and a
    timestamp that is not empty. *)
Definition has_required_fields (msg : Message) : bool :=
  Js.truthy (QueueEvent.companyId (body msg))
  && match QueueEvent.createdAt (body msg) with
     | Some c => negb (String.eqb c "")
     | None => false
     end.

(** The eight counters of the delta are zero. *)
Definition zero_counters (a : Aggregate) : Prop :=
  views_profile a = 0
  /\ impressions_search a = 0
  /\ impressions_map a = 0
  /\ clicks_phone a = 0
  /\ clicks_site a = 0
  /\ clicks_email a = 0
  /\ clicks_directions a = 0
  /\ leads_form a = 0.

(** The row of an (entity, day) pair whose eight counters are zero. *)
Definition zero_row (cid : Js.value) (day : string) : D1.StatsRow :=
  {| D1.company_id := cid;
     D1.date := day;
     D1.views_profile := Some 0;
     D1.impressions_search := Some 0;
     D1.impressions_map := Some 0;
     D1.clicks_phone := Some 0;
     D1.clicks_site := Some 0;
     D1.clicks_email := Some 0;
     D1.clicks_directions := Some 0;
     D1.leads_form := Some 0 |}.

(** The table holds no row of the (entity, day) pair. *)
Definition no_row (rows : list D1.StatsRow) (cid : Js.value) (day : string)
  : Prop :=
  forall r, In r rows -> ~ (D1.company_id r = cid /\ D1.date r = day).

End ConsumerSpec.

(** ** Vocabulary of the statements about the reports *)

Module ReportSpec.
Import ReportsWorker.

(** The sum of one counter over a list of counter records. *)
Definition column_sum (col : CompanyReportTotals -> Z)
           (l : list CompanyReportTotals) : Z :=
  fold_right (fun c acc => col c + acc) 0 l.

(** The component-wise sum of a list of counter records. *)
Definition sum_totals (l : list CompanyReportTotals) : CompanyReportTotals := {|
  views_profile := column_sum views_profile l;
  impressions_search := column_sum impressions_search l;
  impressions_map := column_sum impressions_map l;
  clicks_phone := column_sum clicks_phone l;
  clicks_site := column_sum clicks_site l;
  clicks_email := column_sum clicks_email l;
  clicks_directions := column_sum clicks_directions l;
  leads_form := column_sum leads_form l
|}.

(** The rows the table stores for a company between two days, bounds
    included, in the order of the table. *)
Definition stored_rows (db : D1.t) (companyId : Z) (fromStr toStr : string)
  : list D1.StatsRow :=
  filter (fun r => D1.value_eqb (D1.company_id r)
                     (Js.VNumber (Js.Int companyId))
                   && in_range fromStr toStr r)
    (D1.company_daily_stats db).

(** The first item is of the same day as the second or of an earlier one. *)
Definition not_later (a b : DailyItem) : Prop :=
  String.leb (date a) (date b) = true.

(** The first item has at least as many profile views as the second. *)
Definition not_fewer_views (a b : SummaryItem) : Prop :=
  views_profile (item_totals b) <= views_profile (item_totals a).

(** The sum of a nullable column, NULL counting as zero. *)
Definition nullable_sum (values : list (option Z)) : Z :=
  fold_right (fun v acc => number_or_zero v + acc) 0 values.

(** A comparison is total. *)
Definition total {A : Type} (leb : A -> A -> bool) : Prop :=
  forall a b, leb a b = false -> leb b a = true.

(** [days] is a positive finite number. *)
Definition positive_finite (n : Js.number) : bool :=
  Js.isFinite n && Js.positive n.

(** The latest time value a Date can hold. *)
Definition max_time : Z := 8640000000000000.

(** *** The stored rows, in the words of the specification *)

(** The eight counters of a stored row; a counter the store holds no value
    for counts as zero. *)
Definition row_counts (r : D1.StatsRow) : CompanyReportTotals := {|
  views_profile :=
    match D1.views_profile r with Some v => v | None => 0 end;
  impressions_search :=
    match D1.impressions_search r with Some v => v | None => 0 end;
  impressions_map :=
    match D1.impressions_map r with Some v => v | None => 0 end;
  clicks_phone :=
    match D1.clicks_phone r with Some v => v | None => 0 end;
  clicks_site :=
    match D1.clicks_site r with Some v => v | None => 0 end;
  clicks_email :=
    match D1.clicks_email r with Some v => v | None => 0 end;
  clicks_directions :=
    match D1.clicks_directions r with Some v => v | None => 0 end;
  leads_form :=
    match D1.leads_form r with Some v => v | None => 0 end
|}.

(** The daily item of a stored row: its day and its counters. *)
Definition row_item (r : D1.StatsRow) : DailyItem :=
  {| date := D1.date r; counts := row_counts r |}.

(** The row belongs to the entity [companyId]. *)
Definition row_of (companyId : Z) (r : D1.StatsRow) : bool :=
  match D1.company_id r with
  | Js.VNumber (Js.Int z) => z =? companyId
  | _ => false
  end.

(** The day lies between the two days of the range, bounds included; days
    are compared as texts. *)
Definition day_within (fromStr toStr day : string) : bool :=
  String.leb fromStr day && String.leb day toStr.

(** The rows of the table that belong to the entity and whose day lies in
    the range, in the order of the table. *)
Definition rows_in_range (db : D1.t) (companyId : Z)
           (fromStr toStr : string) : list D1.StatsRow :=
  filter (fun r => row_of companyId r
                   && day_within fromStr toStr (D1.date r))
    (D1.company_daily_stats db).

(** Eight totals of zero. *)
Definition zero_totals : CompanyReportTotals := {|
  views_profile := 0;
  impressions_search := 0;
  impressions_map := 0;
  clicks_phone := 0;
  clicks_site := 0;
  clicks_email := 0;
  clicks_directions := 0;
  leads_form := 0
|}.

(** The metadata are those of the entity [c], field by field. *)
Definition describes (c : D1.CompanyRow) (m : CompanyMeta) : Prop :=
  id m = D1.id c
  /\ slug m = D1.slug c
  /\ name m = D1.name c
  /\ city_name m = D1.city_name c
  /\ city_slug m = D1.city_slug c
  /\ country_code m = D1.country_code c
  /\ primary_category_slug m = D1.primary_category_slug c
  /\ plan_type m = D1.plan_type c.

End ReportSpec.


(** ** Vocabulary of the statements about deliveries and the table *)

Module DeliverySpec.
Import EventsConsumer ConsumerSpec.

(** The events an aggregate has counted. *)
Definition total (a : Aggregate) : Z :=
  views_profile a + impressions_search a + impressions_map a
  + clicks_phone a + clicks_site a + clicks_email a + clicks_directions a
  + leads_form a.

(** The events a dictionary has counted. *)
Definition grand_total (aggs : Aggregates) : Z :=
  fold_right (fun p acc => total (snd p) + acc) 0 aggs.

(** The number of valid events of a batch. *)
Definition count_valid (msgs : list Message) : Z :=
  Z.of_nat (List.length (filter valid msgs)).

(** The keys met so far, each once, in the order they were first met. *)
Definition note_key (keys : list string) (msg : Message) : list string :=
  match event_key msg with
  | Some k => if existsb (String.eqb k) keys then keys else keys ++ [k]
  | None => keys
  end.

(** The keys of the events of a batch that pass the guard, in the order of
    their first occurrence. *)
Definition first_keys (msgs : list Message) : list string :=
  fold_left note_key msgs [].

(** The columns of the unique index of [company_daily_stats]. *)
Definition row_key (r : D1.StatsRow) : Js.value * string :=
  (D1.company_id r, D1.date r).

(** The table respects its unique index: no two rows under one key. *)
Definition unique_keys (rows : list D1.StatsRow) : Prop :=
  NoDup (map row_key rows).

(** The row the table holds under the key of [probe]. *)
Definition find_row (rows : list D1.StatsRow) (probe : D1.StatsRow)
  : option D1.StatsRow :=
  find (fun r => D1.same_key r probe) rows.

(** The delta of a batch made of this one event; [None] when the guard
    skips the event. *)
Definition unit_delta (msg : Message) : option Aggregate :=
  match admitted (body msg) with
  | Some createdAt =>
      Some (count_event (QueueEvent.type (body msg))
              (fresh (QueueEvent.companyId (body msg))
                 (Js.slice_to 10 createdAt)))
  | None => None
  end.

(** The table after the event has been upserted on its own. *)
Definition apply_event (rows : list D1.StatsRow) (msg : Message)
  : list D1.StatsRow :=
  match unit_delta msg with
  | Some a => D1.upsert rows (bind a)
  | None => rows
  end.

(** The entries of a dictionary are filed under the key of their own
    [companyId] and [date]. *)
Definition well_keyed (aggs : Aggregates) : Prop :=
  Forall (fun p => fst p = make_key (companyId (snd p)) (date (snd p))) aggs.

(** The [companyId] of every entry is a number. *)
Definition numeric_ids (aggs : Aggregates) : Prop :=
  Forall (fun p => exists n, companyId (snd p) = Js.VNumber n) aggs.

End DeliverySpec.


(** ** Vocabulary of the statements about [POST /track] *)

Module TrackSpec.
Import Track.

(** The key of [columnMap] that selects a column. *)
Definition type_name (c : Column) : string :=
  match c with
  | col_views_profile => "view_profile"
  | col_impressions_search => "impression_search"
  | col_impressions_map => "impression_map"
  | col_clicks_phone => "click_phone"
  | col_clicks_site => "click_site"
  | col_clicks_email => "click_email"
  | col_clicks_directions => "click_directions"
  | col_leads_form => "lead_form"
  end.

(** The event type of the consumer that counts into the same column. *)
Definition event_type_of (c : Column) : EventsConsumer.EventType :=
  match c with
  | col_views_profile => EventsConsumer.PROFILE_VIEW
  | col_impressions_search => EventsConsumer.SEARCH_IMPRESSION
  | col_impressions_map => EventsConsumer.MAP_IMPRESSION
  | col_clicks_phone => EventsConsumer.CLICK_PHONE
  | col_clicks_site => EventsConsumer.CLICK_SITE
  | col_clicks_email => EventsConsumer.CLICK_EMAIL
  | col_clicks_directions => EventsConsumer.CLICK_DIRECTIONS
  | col_leads_form => EventsConsumer.FORM_SUBMIT
  end.

Definition column_eqb (a b : Column) : bool :=
  match a, b with
  | col_views_profile, col_views_profile
  | col_impressions_search, col_impressions_search
  | col_impressions_map, col_impressions_map
  | col_clicks_phone, col_clicks_phone
  | col_clicks_site, col_clicks_site
  | col_clicks_email, col_clicks_email
  | col_clicks_directions, col_clicks_directions
  | col_leads_form, col_leads_form => true
  | _, _ => false
  end.

(** The UTC day of a time value, as [toISOString().slice(0, 10)] writes
    it. *)
Definition date_of (now : Z) : string :=
  match Js.toISOString (Some now) with
  | inr iso => Js.slice_to 10 iso
  | inl _ => EmptyString
  end.

(** A probe for the row of a company on a day. *)
Definition row_probe (companyId : Z) (dateStr : string) : D1.StatsRow :=
  {| D1.company_id := Js.VNumber (Js.Int companyId);
     D1.date := dateStr;
     D1.views_profile := None;
     D1.impressions_search := None;
     D1.impressions_map := None;
     D1.clicks_phone := None;
     D1.clicks_site := None;
     D1.clicks_email := None;
     D1.clicks_directions := None;
     D1.leads_form := None |}.

(** The [case] label of an event type of the consumer. *)
Definition consumer_label (t : EventsConsumer.EventType) : string :=
  match t with
  | EventsConsumer.PROFILE_VIEW => "PROFILE_VIEW"
  | EventsConsumer.SEARCH_IMPRESSION => "SEARCH_IMPRESSION"
  | EventsConsumer.MAP_IMPRESSION => "MAP_IMPRESSION"
  | EventsConsumer.CLICK_PHONE => "CLICK_PHONE"
  | EventsConsumer.CLICK_SITE => "CLICK_SITE"
  | EventsConsumer.CLICK_EMAIL => "CLICK_EMAIL"
  | EventsConsumer.CLICK_DIRECTIONS => "CLICK_DIRECTIONS"
  | EventsConsumer.FORM_SUBMIT => "FORM_SUBMIT"
  end.

(** The ISO string of a time value. *)
Definition iso_of (now : Z) : string :=
  match Js.toISOString (Some now) with
  | inr iso => iso
  | inl _ => EmptyString
  end.

(** The queue message that reports, for the consumer, the event a
    [POST /track] of column [c] for company [companyId] at [now] counts. *)
Definition queued_event (companyId : Z) (c : Column) (now : Z)
  : EventsConsumer.Message :=
  {| EventsConsumer.id := EmptyString;
     EventsConsumer.body :=
       {| EventsConsumer.QueueEvent.companyId :=
            Js.VNumber (Js.Int companyId);
          EventsConsumer.QueueEvent.type :=
            Js.VString (consumer_label (event_type_of c));
          EventsConsumer.QueueEvent.createdAt := Some (iso_of now) |} |}.


End TrackSpec.


(** ** Vocabulary of the statements that join ingestion and reports *)

Module PipelineSpec.
Import ReportsWorker.

(** The total of the report for a column. *)
Definition totals_of (c : Track.Column) (t : CompanyReportTotals) : Z :=
  match c with
  | Track.col_views_profile => views_profile t
  | Track.col_impressions_search => impressions_search t
  | Track.col_impressions_map => impressions_map t
  | Track.col_clicks_phone => clicks_phone t
  | Track.col_clicks_site => clicks_site t
  | Track.col_clicks_email => clicks_email t
  | Track.col_clicks_directions => clicks_directions t
  | Track.col_leads_form => leads_form t
  end.

(** No row of the table holds NULL in the column. *)
Definition no_nulls (c : Track.Column) (rows : list D1.StatsRow) : Prop :=
  Forall (fun r => Track.column_of c r <> None) rows.

(** The row is one the report of the company reads for the range. *)
Definition in_report (companyId : Z) (fromStr toStr : string)
           (r : D1.StatsRow) : bool :=
  D1.value_eqb (D1.company_id r) (Js.VNumber (Js.Int companyId))
  && in_range fromStr toStr r.

(** What the deltas of a batch hold in a column for the company, over the
    days of the range. *)
Definition delta_total (c : Track.Column) (companyId : Z)
           (fromStr toStr : string) (ds : list EventsConsumer.Aggregate)
  : Z :=
  fold_right
    (fun a acc =>
       (if in_report companyId fromStr toStr (EventsConsumer.bind a)
        then EventsConsumer.counter (TrackSpec.event_type_of c) a
        else 0) + acc)
    0 ds.

(** The total of a column in the report of a company. *)
Definition report_total (c : Track.Column) (db : D1.t) (r : Range)
           (companyRow : D1.CompanyRow) : Z :=
  totals_of c (totals (last_30_days (company_report db r companyRow))).

End PipelineSpec.


(** ** Vocabulary of the statements on dates *)

Module CalendarSpec.

(** Comparison of dates as (year, month, day). *)
Definition lex3 (a b : Z * Z * Z) : comparison :=
  let '(y1, m1, d1) := a in
  let '(y2, m2, d2) := b in
  match y1 ?= y2 with
  | Eq => match m1 ?= m2 with
          | Eq => d1 ?= d2
          | c => c
          end
  | c => c
  end.

(** The steps of [civil_from_days] on a day of an era. *)
Definition year_of_era (doe : Z) : Z :=
  (doe - doe / 1460 + doe / 36524 - doe / 146096) / 365.

Definition day_of_year (doe : Z) : Z :=
  let yoe := year_of_era doe in
  doe - (365 * yoe + yoe / 4 - yoe / 100).

Definition month_index (doy : Z) : Z := (5 * doy + 2) / 153.

Definition day_of_month (doy : Z) : Z :=
  doy - (153 * month_index doy + 2) / 5 + 1.

Definition civil_of (era doe : Z) : Z * Z * Z :=
  let yoe := year_of_era doe in
  let doy := day_of_year doe in
  let mp := month_index doy in
  let m := if mp <? 10 then mp + 3 else mp - 9 in
  let y := yoe + era * 400 in
  (if m <=? 2 then y + 1 else y, m, day_of_month doy).

(** The day numbers of 0000-01-01 and 9999-12-31. *)
Definition first_day : Z := -719528.
Definition last_day : Z := 2932896.

(** The [n] numbers from [from] on, padded to [width], have that width and
    increase as strings, from above [prev]. *)
Fixpoint increasing (width : nat) (prev : string) (from : Z) (n : nat)
  : bool :=
  match n with
  | O => true
  | S n' =>
      let s := Js.pad width from in
      Nat.eqb (String.length s) width
      && match String.compare prev s with
         | Lt => true
         | _ => false
         end
      && increasing width s (from + 1) n'
  end.

(** The date part of an ISO string. *)
Definition date_string (ymd : Z * Z * Z) : string :=
  let '(y, m, d) := ymd in
  (Js.pad 4 y ++ "-" ++ Js.pad 2 m ++ "-" ++ Js.pad 2 d)%string.

End CalendarSpec.


(** ** Vocabulary of the statements about routes *)

Module RouteSpec.

(** A character a path segment carries as itself: not [%] and not white
    space. *)
Definition plain_char (c : ascii) : bool :=
  negb (Ascii.eqb c "%") && negb (Js.is_white_space c).

Definition plain (s : string) : bool :=
  ConsumerSpec.forall_chars plain_char s.

(** A GET request for the report of a slug. *)
Definition company_request (prefix slug : string) (days : option string)
  : ReportsWorker.Request :=
  {| ReportsWorker.pathname := (prefix ++ "/company/" ++ slug)%string;
     ReportsWorker.days_param := days |}.

End RouteSpec.


(** ** Sample batches and stores *)

Module Samples.
Import EventsConsumer.

Definition event (i : string) (companyId : Js.value) (type : string)
           (createdAt : string) : Message :=
  {| id := i;
     body := {| QueueEvent.companyId := companyId;
                QueueEvent.type := Js.VString type;
                QueueEvent.createdAt := Some createdAt |} |}.

Definition company (z : Z) : Js.value := Js.VNumber (Js.Int z).

(** Three profile views of company 7 on one day. *)
Definition three_views : list Message :=
  [event "m1" (company 7) "PROFILE_VIEW" "2024-05-01T08:00:00.000Z";
   event "m2" (company 7) "PROFILE_VIEW" "2024-05-01T12:30:00.000Z";
   event "m3" (company 7) "PROFILE_VIEW" "2024-05-01T23:59:59.999Z"].

(** Three valid events interleaved with an event without [companyId] and
    an event of an unrecognized type on a day of its own. *)
Definition interleaved : list Message :=
  [event "m1" (company 7) "PROFILE_VIEW" "2024-05-01T08:00:00.000Z";
   event "m2" Js.VUndefined "PROFILE_VIEW" "2024-05-01T09:00:00.000Z";
   event "m3" (company 7) "CLICK_PHONE" "2024-05-01T10:00:00.000Z";
   event "m4" (company 7) "page_view" "2024-05-02T11:00:00.000Z";
   event "m5" (company 8) "FORM_SUBMIT" "2024-05-01T12:00:00.000Z"].

(** Events of unrecognized types only. *)
Definition unrecognized : list Message :=
  [event "m1" (company 7) "page_view" "2024-05-01T08:00:00.000Z";
   event "m2" (company 8) "scroll" "2024-05-01T09:00:00.000Z";
   event "m3" (company 7) "hover" "2024-05-01T10:00:00.000Z"].

(** A click of the entity whose id is the text 7, on the day of
    [three_views]. *)
Definition text_id_click : Message :=
  event "m4" (Js.VString "7") "CLICK_PHONE" "2024-05-01T09:00:00.000Z".

(** An event whose [companyId] is the number 0. *)
Definition zero_id : Message :=
  event "m0" (company 0) "PROFILE_VIEW" "2024-05-01T08:00:00.000Z".

(** Events of two other (company, day) pairs. *)
Definition others : list Message :=
  [event "n1" (company 8) "CLICK_SITE" "2024-05-01T08:00:00.000Z";
   event "n2" (company 7) "CLICK_SITE" "2024-05-02T08:00:00.000Z"].

(** An empty store whose write statements meet the given fates. *)
Definition empty_db (fates : list (option string)) : D1.t :=
  {| D1.companies := []; D1.company_daily_stats := []; D1.pending := fates |}.

(** Three deltas: companies 7, 8 and 9 on one day. *)
Definition three_deltas : list Message :=
  [event "m1" (company 7) "PROFILE_VIEW" "2024-05-01T08:00:00.000Z";
   event "m2" (company 8) "PROFILE_VIEW" "2024-05-01T09:00:00.000Z";
   event "m3" (company 9) "PROFILE_VIEW" "2024-05-01T10:00:00.000Z"].

(** [Number] on the strings the examples pass: decimal digits with an
    optional minus sign give their value, the empty string is 0,
    ["Infinity"] is infinite, and a string that is not a numeric literal is
    NaN.  It stands for the built-in on those strings only. *)
Definition Number_on_digits (s : string) : Js.number :=
  if String.eqb s "" then Js.Int 0
  else if String.eqb s "Infinity" then Js.Infinity
  else match NilZero.int_of_string s with
       | Some d => Js.Int (Z.of_int d)
       | None => Js.NaN
       end.

(** A GET request to the reports worker. *)
Definition get_request (path : string) (days : option string)
  : ReportsWorker.Request :=
  {| ReportsWorker.pathname := path; ReportsWorker.days_param := days |}.

(** 2026-11-02T23:00:00.123Z. *)
Definition now : Z := 1793660400123.

Definition listing (i : Z) (s : string) : D1.CompanyRow :=
  {| D1.id := i; D1.slug := s; D1.name := s;
     D1.city_name := None; D1.city_slug := None; D1.country_code := None;
     D1.primary_category_slug := None; D1.plan_type := None |}.

(** A row with the given profile views; the other counters hold one zero,
    one NULL and small counts. *)
Definition day_row (i : Z) (d : string) (views : Z) : D1.StatsRow :=
  {| D1.company_id := company i; D1.date := d;
     D1.views_profile := Some views;
     D1.impressions_search := Some 0;
     D1.impressions_map := None;
     D1.clicks_phone := Some 1;
     D1.clicks_site := Some 0;
     D1.clicks_email := Some 0;
     D1.clicks_directions := Some 0;
     D1.leads_form := Some 2 |}.

(** Companies a, b and c; c has no row, a has one row in the last five
    days and one before them. *)
Definition listings_db : D1.t :=
  {| D1.companies := [listing 1 "a"; listing 2 "b"; listing 3 "c"];
     D1.company_daily_stats :=
       [day_row 1 "2026-10-28" 6;
        day_row 2 "2026-11-02" 20;
        day_row 1 "2026-10-31" 10;
        day_row 2 "2026-10-29" 10];
     D1.pending := [] |}.


End Samples.

(** ** Sample requests to [POST /track] *)

Module TrackSamples.

(** A profile view of company a, its slug wrapped in spaces. *)
Definition view_of_a : Track.TrackBody :=
  {| Track.slug := Js.VString " a "; Track.type := Js.VString "view_profile" |}.

(** A body whose type is a name every object inherits. *)
Definition constructor_of_a : Track.TrackBody :=
  {| Track.slug := Js.VString "a"; Track.type := Js.VString "constructor" |}.

(** A body with a type of the consumer. *)
Definition consumer_type_of_a : Track.TrackBody :=
  {| Track.slug := Js.VString "a"; Track.type := Js.VString "PROFILE_VIEW" |}.

(** The first company of the sample store. *)
Definition company_a : D1.CompanyRow := Samples.listing 1 "a".

End TrackSamples.


(** * Properties of the consumer *)

Module ConsumerFacts.
Import EventsConsumer ConsumerSpec.

(** ** The dictionary *)

Lemma get_mutate (key k : string) (f : Aggregate -> Aggregate)
      (aggs : Aggregates) :
  get k (mutate key f aggs)
  = if String.eqb key k then option_map f (get k aggs) else get k aggs.
Proof.
  induction aggs as [|[k0 a] rest IH]; simpl.
  - now destruct (String.eqb key k).
  - destruct (String.eqb k0 key) eqn:E0; simpl.
    + apply String.eqb_eq in E0; subst k0.
      destruct (String.eqb key k); reflexivity.
    + destruct (String.eqb k0 k) eqn:E1.
      * apply String.eqb_eq in E1; subst k0.
        rewrite String.eqb_sym in E0. now rewrite E0.
      * exact IH.
Qed.

Lemma get_snoc (k key : string) (a : Aggregate) (aggs : Aggregates) :
  get k (aggs ++ [(key, a)])
  = match get k aggs with
    | Some x => Some x
    | None => if String.eqb key k then Some a else None
    end.
Proof.
  induction aggs as [|[k0 a0] rest IH]; simpl.
  - reflexivity.
  - destruct (String.eqb k0 k); [reflexivity | exact IH].
Qed.

Lemma get_ensure (k key : string) (c : Js.value) (d : string)
      (aggs : Aggregates) :
  get k (ensure key c d aggs)
  = match get k aggs with
    | Some x => Some x
    | None => if String.eqb key k then Some (fresh c d) else None
    end.
Proof.
  unfold ensure. destruct (get key aggs) eqn:G.
  - destruct (get k aggs) eqn:Gk; [reflexivity|].
    destruct (String.eqb key k) eqn:E; [|reflexivity].
    apply String.eqb_eq in E; subst. congruence.
  - apply get_snoc.
Qed.

(** The entry under a key after one iteration only depends on the entry
    before it and on the message. *)
Lemma get_step (k : string) (aggs : Aggregates) (msg : Message) :
  get k (step aggs msg) = local_step k (get k aggs) msg.
Proof.
  unfold step, local_step.
  destruct (admitted (body msg)) as [c|]; [|reflexivity].
  rewrite get_mutate, get_ensure.
  destruct (String.eqb _ k); destruct (get k aggs); reflexivity.
Qed.

Lemma get_aggregate_from (k : string) (msgs : list Message) :
  forall aggs,
    get k (aggregate_from aggs msgs)
    = fold_left (local_step k) msgs (get k aggs).
Proof.
  unfold aggregate_from.
  induction msgs as [|m rest IH]; intros aggs; simpl.
  - reflexivity.
  - rewrite IH, get_step. reflexivity.
Qed.

Lemma local_step_unkeyed (k : string) (entry : option Aggregate)
      (msg : Message) :
  keyed k msg = false -> local_step k entry msg = entry.
Proof.
  unfold keyed, event_key, local_step.
  destruct (admitted (body msg)); [|reflexivity].
  now intros ->.
Qed.

Lemma fold_local_step_filter (k : string) (msgs : list Message) :
  forall entry,
    fold_left (local_step k) msgs entry
    = fold_left (local_step k) (filter (keyed k) msgs) entry.
Proof.
  induction msgs as [|m rest IH]; intros entry; simpl.
  - reflexivity.
  - destruct (keyed k m) eqn:K; simpl.
    + apply IH.
    + rewrite local_step_unkeyed by exact K. apply IH.
Qed.

(** The delta under a key is the one computed from the events filed under
    that key alone. *)
Lemma get_aggregate_filter (k : string) (msgs : list Message) :
  get k (aggregate msgs) = get k (aggregate (filter (keyed k) msgs)).
Proof.
  unfold aggregate.
  rewrite !get_aggregate_from, fold_local_step_filter.
  reflexivity.
Qed.

(** ** Counters *)


Lemma counter_increment (t t' : EventType) (a : Aggregate) :
  counter t' (increment t a)
  = if event_type_eqb t t' then counter t' a + 1 else counter t' a.
Proof. destruct a, t, t'; reflexivity. Qed.

Lemma companyId_increment (t : EventType) (a : Aggregate) :
  companyId (increment t a) = companyId a.
Proof. destruct a, t; reflexivity. Qed.

Lemma date_increment (t : EventType) (a : Aggregate) :
  date (increment t a) = date a.
Proof. destruct a, t; reflexivity. Qed.

Lemma counter_fresh (t : EventType) (c : Js.value) (d : string) :
  counter t (fresh c d) = 0.
Proof. destruct t; reflexivity. Qed.

Lemma counter_count_event (t : EventType) (ty : Js.value) (a : Aggregate) :
  counter t (count_event ty a)
  = match classify ty with
    | Some t' => if event_type_eqb t' t then counter t a + 1 else counter t a
    | None => counter t a
    end.
Proof.
  unfold count_event.
  destruct (classify ty); [apply counter_increment | reflexivity].
Qed.

(** ** A batch of one entity, one day, one type *)


Lemma step_uniform_absent (cid : Js.value) (day : string) (t : EventType)
      (msg : Message) :
  uniform cid day t msg ->
  step [] msg = [(make_key cid day, increment t (fresh cid day))].
Proof.
  intros (Hc & Hd & Ht). unfold step, event_day in *.
  destruct (admitted (body msg)) as [c|]; [|discriminate].
  assert (Hd' : Js.slice_to 10 c = day) by (cbn [option_map] in Hd; congruence).
  cbv zeta. rewrite Hc, Hd'.
  unfold ensure. cbn [get app mutate]. rewrite String.eqb_refl.
  unfold count_event. now rewrite Ht.
Qed.



(** ** Keys of numeric company ids *)

Lemma forall_chars_weaken (p q : ascii -> bool) (s : string) :
  (forall c, p c = true -> q c = true) ->
  forall_chars p s = true -> forall_chars q s = true.
Proof.
  intros Hpq. induction s as [|c s IH]; cbn [forall_chars]; [easy|].
  rewrite !andb_true_iff. intros [Hc Hs]. split; auto.
Qed.

Lemma sign_or_digit_not_colon (c : ascii) :
  sign_or_digit c = true -> not_colon c = true.
Proof.
  unfold sign_or_digit, not_colon.
  destruct (Ascii.eqb_spec c ":") as [->|]; [discriminate|reflexivity].
Qed.

Lemma string_of_uint_chars (d : Decimal.uint) :
  forall_chars sign_or_digit (NilEmpty.string_of_uint d) = true.
Proof. induction d; cbn [NilEmpty.string_of_uint forall_chars]; auto. Qed.

Lemma integer_to_string_chars (z : Z) :
  forall_chars sign_or_digit (Js.integer_to_string z) = true.
Proof.
  unfold Js.integer_to_string, NilZero.string_of_int, NilZero.string_of_uint.
  destruct (Z.to_int z) as [d|d]; destruct d;
    solve [reflexivity | apply (string_of_uint_chars (_ _))
           | cbn [forall_chars]; apply (string_of_uint_chars (_ _))].
Qed.

Lemma integer_to_string_inj (x y : Z) :
  Js.integer_to_string x = Js.integer_to_string y -> x = y.
Proof.
  unfold Js.integer_to_string. intros E.
  apply to_int_inj.
  assert (N : forall z, Z.to_int z <> Decimal.Pos Decimal.Nil
                        /\ Z.to_int z <> Decimal.Neg Decimal.Nil).
  { intros [|p|p]; cbn [Z.to_int]; split; try discriminate;
      intros [= H]; now apply Unsigned.to_uint_nonnil in H. }
  assert (S : Some (Z.to_int x) = Some (Z.to_int y)).
  { rewrite <- (NilZero.isi (Z.to_int x)) by apply N.
    rewrite <- (NilZero.isi (Z.to_int y)) by apply N.
    now rewrite E. }
  congruence.
Qed.

Lemma number_to_string_chars (n : Js.number) :
  forall_chars not_colon (Js.number_to_string n) = true.
Proof.
  destruct n; try reflexivity.
  apply (forall_chars_weaken sign_or_digit); [apply sign_or_digit_not_colon|].
  apply integer_to_string_chars.
Qed.

Lemma number_to_string_inj (m n : Js.number) :
  Js.number_to_string m = Js.number_to_string n -> m = n.
Proof.
  destruct m, n; cbn [Js.number_to_string]; intros E;
    try reflexivity; try discriminate;
    try (f_equal; now apply integer_to_string_inj);
    exfalso;
    match type of E with
    | context [Js.integer_to_string ?z] =>
        pose proof (integer_to_string_chars z) as D;
        (rewrite <- E in D || rewrite E in D); discriminate D
    end.
Qed.

Lemma append_colon_inj (s1 s2 d1 d2 : string) :
  forall_chars not_colon s1 = true ->
  forall_chars not_colon s2 = true ->
  (s1 ++ ":" ++ d1)%string = (s2 ++ ":" ++ d2)%string ->
  s1 = s2 /\ d1 = d2.
Proof.
  revert s2. induction s1 as [|c1 s1 IH]; intros [|c2 s2];
    cbn [forall_chars String.append]; intros H1 H2 E.
  - injection E as E. now split.
  - injection E as Ec E. subst c2. discriminate H2.
  - injection E as Ec E. subst c1. discriminate H1.
  - injection E as Ec E. subst c2.
    apply andb_true_iff in H1 as [_ H1]. apply andb_true_iff in H2 as [_ H2].
    destruct (IH s2 H1 H2 E) as [-> ->]. now split.
Qed.

Lemma make_key_number_inj (m n : Js.number) (d1 d2 : string) :
  make_key (Js.VNumber m) d1 = make_key (Js.VNumber n) d2 ->
  m = n /\ d1 = d2.
Proof.
  unfold make_key. cbn [Js.to_string]. intros E.
  apply append_colon_inj in E; try apply number_to_string_chars.
  destruct E as [E ->]. split; [now apply number_to_string_inj|reflexivity].
Qed.

Lemma number_eqb_eq (m n : Js.number) : number_eqb m n = true <-> m = n.
Proof.
  destruct m, n; cbn [number_eqb]; split; try congruence; try easy.
  - intros E. apply Z.eqb_eq in E. now subst.
  - intros [= ->]. apply Z.eqb_refl.
Qed.

(** Every key contains a colon: it is neither an array index nor the name
    of a property inherited from [Object.prototype], so [aggregates[key]]
    only ever finds entries the loop stored, and [Object.keys] lists them
    in insertion order. *)
Lemma make_key_has_colon (companyId : Js.value) (date : string) :
  forall_chars not_colon (make_key companyId date) = false.
Proof.
  unfold make_key.
  induction (Js.to_string companyId) as [|c s IH].
  - reflexivity.
  - change (forall_chars not_colon (String c (s ++ ":" ++ date))%string
            = false).
    cbn [forall_chars]. rewrite IH. apply andb_false_r.
Qed.


(** For an event whose [companyId] has its declared type, being filed
    under the key of [(n, day)] is belonging to that pair. *)
Lemma grouped_keyed (n : Js.number) (day : string) (msg : Message) :
  typed msg = true ->
  grouped n day msg = keyed (make_key (Js.VNumber n) day) msg.
Proof.
  unfold typed, grouped, keyed, event_group, event_key, admitted.
  destruct (QueueEvent.companyId (body msg)) as [| |b|m|s] eqn:C; intros T;
    try (apply negb_true_iff in T; rewrite T; reflexivity).
  destruct (Js.truthy (Js.VNumber m)); [|reflexivity].
  destruct (QueueEvent.createdAt (body msg)) as [c|]; [|reflexivity].
  destruct (String.eqb c ""); [reflexivity|].
  destruct (String.eqb_spec (make_key (Js.VNumber m) (Js.slice_to 10 c))
              (make_key (Js.VNumber n) day)) as [E|NE].
  - apply make_key_number_inj in E as [Em Ed].
    apply andb_true_iff. split.
    + now apply number_eqb_eq.
    + now apply String.eqb_eq.
  - apply andb_false_iff.
    destruct (number_eqb m n) eqn:Em; [right|now left].
    apply number_eqb_eq in Em. subst m.
    apply String.eqb_neq. intros Ed. apply NE. now rewrite Ed.
Qed.

(** C8.  For events whose [companyId] is a number, as declared, the delta
    under the key of an (entityId, day) pair, the day being the first ten
    characters of [createdAt], is the same in any two batches that contain
    the same events of that pair: events of other pairs never affect it. *)
Theorem groups_are_isolated (n : Js.number) (day : string)
        (batch1 batch2 : list Message) :
  Forall (fun m => typed m = true) batch1 ->
  Forall (fun m => typed m = true) batch2 ->
  filter (grouped n day) batch1 = filter (grouped n day) batch2 ->
  get (make_key (Js.VNumber n) day) (aggregate batch1)
  = get (make_key (Js.VNumber n) day) (aggregate batch2).
Proof.
  intros T1 T2 E.
  rewrite (get_aggregate_filter _ batch1), (get_aggregate_filter _ batch2).
  rewrite <- (filter_ext_in (grouped n day) _ batch1),
          <- (filter_ext_in (grouped n day) _ batch2).
  - now rewrite E.
  - intros m Hm. apply grouped_keyed.
    rewrite Forall_forall in T2. now apply T2.
  - intros m Hm. apply grouped_keyed.
    rewrite Forall_forall in T1. now apply T1.
Qed.

(** ** Events the guard skips *)

Lemma step_rejected (aggs : Aggregates) (msg : Message) :
  admitted (body msg) = None -> step aggs msg = aggs.
Proof. unfold step. now intros ->. Qed.

Lemma aggregate_from_app (l1 l2 : list Message) (aggs : Aggregates) :
  aggregate_from aggs (l1 ++ l2)
  = aggregate_from (aggregate_from aggs l1) l2.
Proof. apply fold_left_app. Qed.

Lemma aggregate_from_cons (m : Message) (l : list Message)
      (aggs : Aggregates) :
  aggregate_from aggs (m :: l) = aggregate_from (step aggs m) l.
Proof. reflexivity. Qed.

Lemma aggregate_from_guard (msgs : list Message) :
  forall aggs,
    aggregate_from aggs msgs = aggregate_from aggs (filter passes_guard msgs).
Proof.
  unfold aggregate_from.
  induction msgs as [|m rest IH]; intros aggs; cbn [fold_left filter].
  - reflexivity.
  - unfold passes_guard at 1.
    destruct (admitted (body m)) eqn:A; cbn [fold_left].
    + apply IH.
    + rewrite step_rejected by exact A. apply IH.
Qed.

Lemma falsy_not_admitted (e : QueueEvent.t) :
  Js.truthy (QueueEvent.companyId e) = false -> admitted e = None.
Proof. unfold admitted. now intros ->. Qed.

(** C10.  An event whose [companyId] is present but falsy (the number 0 or
    the empty string) is dropped exactly as if [companyId] were missing: the
    iteration leaves the dictionary as it is, as it does for the same event
    without [companyId]; the event is filed under no key, and the deltas of
    a batch are those of the batch without it. *)
Theorem falsy_company_id_dropped (msg : Message) (pre post : list Message) :
  QueueEvent.companyId (body msg) = Js.VNumber (Js.Int 0)
  \/ QueueEvent.companyId (body msg) = Js.VString "" ->
  (forall aggs, step aggs msg = aggs)
  /\ (forall aggs, step aggs msg = step aggs (without_company_id msg))
  /\ event_key msg = None
  /\ aggregate (pre ++ msg :: post) = aggregate (pre ++ post).
Proof.
  intros H.
  assert (A : admitted (body msg) = None).
  { apply falsy_not_admitted. destruct H as [-> | ->]; reflexivity. }
  assert (S : forall aggs, step aggs msg = aggs)
    by (intros; now apply step_rejected).
  repeat split.
  - exact S.
  - intros aggs. rewrite S. symmetry. now apply step_rejected.
  - unfold event_key. now rewrite A.
  - unfold aggregate. rewrite !aggregate_from_app, aggregate_from_cons.
    now rewrite S.
Qed.

(** ** What the counters count *)

Lemma keyed_typed_valid (k : string) (t : EventType) (m : Message) :
  valid m && keyed k m && typed_as t m = keyed k m && typed_as t m.
Proof.
  unfold valid, keyed, event_key, typed_as.
  destruct (admitted (body m)); [|reflexivity].
  destruct (classify (QueueEvent.type (body m))); cbn [andb];
    [reflexivity | now rewrite andb_false_r].
Qed.

Lemma tally_cons (k : string) (t : EventType) (m : Message)
      (rest : list Message) :
  tally k t (m :: rest)
  = (if keyed k m && typed_as t m then 1 else 0) + tally k t rest.
Proof.
  unfold tally. cbn [filter]. rewrite keyed_typed_valid.
  destruct (keyed k m && typed_as t m); cbn [List.length]; lia.
Qed.

Lemma base_local_step (k : string) (t : EventType)
      (entry : option Aggregate) (m : Message) :
  base t (local_step k entry m)
  = base t entry + (if keyed k m && typed_as t m then 1 else 0).
Proof.
  unfold local_step, keyed, event_key, typed_as.
  destruct (admitted (body m)) as [c|]; [|cbn [andb]; lia].
  cbv zeta.
  destruct (String.eqb _ k); cbn [andb base]; [|lia].
  rewrite counter_count_event.
  assert (B : counter t match entry with
                        | Some a => a
                        | None => fresh (QueueEvent.companyId (body m))
                                    (Js.slice_to 10 c)
                        end = base t entry).
  { destruct entry; [reflexivity | apply counter_fresh]. }
  rewrite B.
  destruct (classify (QueueEvent.type (body m))) as [t'|]; [|lia].
  destruct (event_type_eqb t' t); lia.
Qed.

Lemma base_fold_local_step (k : string) (t : EventType)
      (msgs : list Message) :
  forall entry,
    base t (fold_left (local_step k) msgs entry)
    = base t entry + tally k t msgs.
Proof.
  induction msgs as [|m rest IH]; intros entry.
  - unfold tally. cbn. lia.
  - cbn [fold_left]. rewrite IH, base_local_step, tally_cons. lia.
Qed.

(** Each counter of a delta is the number of valid events of its type
    filed under the key of the delta. *)
Lemma counter_tally (k : string) (t : EventType) (msgs : list Message)
      (a : Aggregate) :
  get k (aggregate msgs) = Some a -> counter t a = tally k t msgs.
Proof.
  unfold aggregate. rewrite get_aggregate_from. cbn [get].
  intros E. pose proof (base_fold_local_step k t msgs None) as B.
  rewrite E in B. exact B.
Qed.

Lemma local_step_none (k : string) (entry : option Aggregate)
      (m : Message) :
  local_step k entry m = None <-> entry = None /\ keyed k m = false.
Proof.
  unfold local_step, keyed, event_key.
  destruct (admitted (body m)); cbv zeta.
  - destruct (String.eqb _ k); split; intros H;
      try discriminate H; try (now destruct H); now split.
  - split; [now intros -> | now intros [-> _]].
Qed.

Lemma fold_local_step_none (k : string) (msgs : list Message) :
  forall entry,
    fold_left (local_step k) msgs entry = None
    <-> entry = None /\ existsb (keyed k) msgs = false.
Proof.
  induction msgs as [|m rest IH]; intros entry; cbn [fold_left existsb].
  - now split; [intros -> | intros [-> _]].
  - rewrite IH, local_step_none, orb_false_iff. tauto.
Qed.

(** A delta exists under exactly the keys of the events that pass the
    guard. *)
Lemma get_aggregate_none (k : string) (msgs : list Message) :
  get k (aggregate msgs) = None <-> existsb (keyed k) msgs = false.
Proof.
  unfold aggregate. rewrite get_aggregate_from, fold_local_step_none.
  cbn [get]. tauto.
Qed.

(** ** Writing and acknowledging *)

Lemma acked_upserts_acks (l : list Aggregate) (ids : list string) :
  acked (map Upserted l ++ map Acked ids) = ids.
Proof.
  unfold acked. rewrite flat_map_app.
  assert (U : flat_map (fun e => match e with
                                 | Acked i => [i]
                                 | Upserted _ => []
                                 end) (map Upserted l) = []).
  { induction l as [|a l IH]; [reflexivity | exact IH]. }
  rewrite U. cbn [app].
  induction ids as [|i ids IH]; [reflexivity|].
  cbn [map flat_map app]. now rewrite IH.
Qed.

Lemma upserted_upserts_acks (l : list Aggregate) (ids : list string) :
  upserted (map Upserted l ++ map Acked ids) = l.
Proof.
  unfold upserted. rewrite flat_map_app.
  assert (A : flat_map (fun e => match e with
                                 | Upserted a => [a]
                                 | Acked _ => []
                                 end) (map Acked ids) = []).
  { induction ids as [|i ids IH]; [reflexivity | exact IH]. }
  rewrite A, app_nil_r.
  induction l as [|a l IH]; [reflexivity|].
  cbn [map flat_map app]. now rewrite IH.
Qed.

Lemma writes_commit_step (db : D1.t) (n : nat) :
  writes_commit db (S n) = true ->
  (D1.pending db = [] \/ exists rest, D1.pending db = None :: rest)
  /\ forallb commits (firstn n (tl (D1.pending db))) = true.
Proof.
  unfold writes_commit. destruct (D1.pending db) as [|[e|] rest];
    cbn [firstn forallb commits andb tl].
  - intros _. split; [now left | now destruct n].
  - discriminate.
  - intros H. split; [right; now exists rest | exact H].
Qed.

(** When the next statements all commit, every aggregate is written, in
    the order of the keys. *)
Lemma write_all_commits (aggs : Aggregates) :
  forall db,
    writes_commit db (List.length aggs) = true ->
    write_all db aggs
    = ({| D1.companies := D1.companies db;
          D1.company_daily_stats :=
            table_after (D1.company_daily_stats db) (map snd aggs);
          D1.pending := skipn (List.length aggs) (D1.pending db) |},
       map Upserted (map snd aggs),
       inr tt).
Proof.
  induction aggs as [|[k a] rest IH]; intros db W.
  - destruct db. reflexivity.
  - cbn [List.length] in W. apply writes_commit_step in W as [P W].
    cbn [write_all]. unfold D1.run_upsert.
    destruct P as [P | [p P]]; rewrite P in *; cbn [tl] in *.
    + rewrite IH by (unfold writes_commit; now destruct (List.length rest)).
      cbn [D1.companies D1.company_daily_stats D1.pending map snd
           List.length skipn].
      unfold table_after. cbn [map fold_left].
      now destruct (List.length rest).
    + rewrite IH by exact W.
      cbn [D1.companies D1.company_daily_stats D1.pending map snd
           List.length skipn].
      reflexivity.
Qed.

(** Otherwise the first statement that fails ends the loop: the aggregates
    before it are written, the others are not attempted. *)
Lemma write_all_fails (aggs : Aggregates) :
  forall db,
    writes_commit db (List.length aggs) = false ->
    exists i err,
      (i < List.length aggs)%nat
      /\ nth_error (D1.pending db) i = Some (Some err)
      /\ forallb commits (firstn i (D1.pending db)) = true
      /\ write_all db aggs
         = ({| D1.companies := D1.companies db;
               D1.company_daily_stats :=
                 table_after (D1.company_daily_stats db)
                   (firstn i (map snd aggs));
               D1.pending := skipn (S i) (D1.pending db) |},
            map Upserted (firstn i (map snd aggs)),
            inl (Js.DbError err)).
Proof.
  induction aggs as [|[k a] rest IH]; intros db W.
  - discriminate W.
  - unfold writes_commit in W. cbn [List.length] in W.
    cbn [write_all]. unfold D1.run_upsert.
    destruct (D1.pending db) as [|[e|] p] eqn:P;
      cbn [firstn forallb commits andb] in W.
    + discriminate W.
    + exists 0%nat, e. repeat split; try reflexivity.
      cbn [List.length]. lia.
    + destruct (IH {| D1.companies := D1.companies db;
                      D1.company_daily_stats :=
                        D1.upsert (D1.company_daily_stats db) (bind a);
                      D1.pending := p |} W)
        as (i & err & Hi & Hn & Hf & E).
      cbn [tl]. rewrite E.
      exists (S i), err. repeat split.
      * cbn [List.length]. lia.
      * exact Hn.
      * exact Hf.
Qed.

Lemma firstn_short_neq {A : Type} (i : nat) (l : list A) :
  (i < List.length l)%nat -> firstn i l <> l.
Proof.
  intros H E. apply (f_equal (@List.length A)) in E.
  rewrite length_firstn in E. lia.
Qed.

(** C2.  When every upsert of the batch commits, [queue] writes every
    delta, then acknowledges every message, and resolves.  When one fails,
    it has written only the deltas before the failing one, acknowledges no
    message at all, and rejects with the error of the store.  So every
    message is acknowledged if and only if every delta was written. *)
Theorem ack_all_or_nothing (batch : MessageBatch) (db : D1.t) :
  let msgs := messages_of batch in
  let r := queue batch db in
  (if writes_commit db (List.length (deltas msgs))
   then settled r = inr tt
        /\ upserted (effects r) = deltas msgs
        /\ acked (effects r) = map id msgs
   else exists i err,
        (i < List.length (deltas msgs))%nat
        /\ nth_error (D1.pending db) i = Some (Some err)
        /\ settled r = inl (Js.DbError err)
        /\ upserted (effects r) = firstn i (deltas msgs)
        /\ acked (effects r) = [])
  /\ (upserted (effects r) = deltas msgs
      <-> acked (effects r) = map id msgs).
Proof.
  intros msgs r. subst r. unfold queue, deltas. fold (messages_of batch).
  fold msgs. rewrite length_map.
  destruct (writes_commit db (List.length (aggregate msgs))) eqn:W.
  - rewrite (write_all_commits _ _ W). cbn [settled effects].
    rewrite <- (map_map id Acked msgs).
    rewrite acked_upserts_acks, upserted_upserts_acks.
    repeat split; reflexivity.
  - destruct (write_all_fails _ _ W) as (i & err & Hi & Hn & _ & E).
    rewrite E. cbn [settled effects].
    pose proof (upserted_upserts_acks (firstn i (map snd (aggregate msgs))) [])
      as U.
    pose proof (acked_upserts_acks (firstn i (map snd (aggregate msgs))) [])
      as A.
    cbn [map] in U, A. rewrite app_nil_r in U, A. rewrite U, A.
    split.
    + exists i, err. repeat split; assumption.
    + split; intros H.
      * exfalso. revert H. apply firstn_short_neq. now rewrite length_map.
      * exfalso. destruct msgs as [|m ms]; [|discriminate H].
        cbn in Hi. lia.
Qed.

(** ** The rows a run leaves in the table *)

Lemma value_eqb_refl (v : Js.value) : D1.value_eqb v v = true.
Proof.
  destruct v as [| |b|[| | |z]|s]; cbn [D1.value_eqb]; try reflexivity.
  - now destruct b.
  - apply Z.eqb_refl.
  - apply String.eqb_refl.
Qed.

Lemma same_key_refl (e : D1.StatsRow) : D1.same_key e e = true.
Proof.
  unfold D1.same_key. now rewrite value_eqb_refl, String.eqb_refl.
Qed.

Lemma same_key_merge (r e x : D1.StatsRow) :
  D1.same_key (D1.merge r e) x = D1.same_key r x.
Proof. reflexivity. Qed.

Lemma upsert_adds (rows : list D1.StatsRow) (e : D1.StatsRow) :
  exists r, In r (D1.upsert rows e) /\ D1.same_key r e = true.
Proof.
  induction rows as [|r0 rows IH]; cbn [D1.upsert].
  - exists e. split; [now left | apply same_key_refl].
  - destruct (D1.same_key r0 e) eqn:K.
    + exists (D1.merge r0 e). split; [now left|].
      now rewrite same_key_merge.
    + destruct IH as (r & Hin & Hk). exists r. split; [now right | exact Hk].
Qed.

Lemma upsert_keeps (rows : list D1.StatsRow) (e x : D1.StatsRow) :
  (exists r, In r rows /\ D1.same_key r x = true) ->
  exists r, In r (D1.upsert rows e) /\ D1.same_key r x = true.
Proof.
  induction rows as [|r0 rows IH]; intros (r & Hin & Hk).
  - destruct Hin.
  - cbn [D1.upsert]. destruct (D1.same_key r0 e) eqn:K.
    + destruct Hin as [<- | Hin].
      * exists (D1.merge r0 e). split; [now left|].
        now rewrite same_key_merge.
      * exists r. split; [now right | exact Hk].
    + destruct Hin as [<- | Hin].
      * exists r0. split; [now left | exact Hk].
      * destruct IH as (r' & Hin' & Hk'); [now exists r|].
        exists r'. split; [now right | exact Hk'].
Qed.

Lemma table_after_keeps (aggs : list Aggregate) :
  forall rows x,
    (exists r, In r rows /\ D1.same_key r x = true) ->
    exists r, In r (table_after rows aggs) /\ D1.same_key r x = true.
Proof.
  unfold table_after.
  induction aggs as [|a rest IH]; intros rows x H; cbn [map fold_left].
  - exact H.
  - apply IH. now apply upsert_keeps.
Qed.

(** Every aggregate written leaves a row under its conflict key. *)
Lemma table_after_stored (aggs : list Aggregate) :
  forall rows a,
    In a aggs ->
    exists r, In r (table_after rows aggs) /\ D1.same_key r (bind a) = true.
Proof.
  induction aggs as [|a0 rest IH]; intros rows a Hin.
  - destruct Hin.
  - destruct Hin as [<- | Hin].
    + unfold table_after. cbn [map fold_left].
      apply (table_after_keeps rest). apply upsert_adds.
    + unfold table_after. cbn [map fold_left]. now apply IH.
Qed.

Lemma get_In (k : string) (a : Aggregate) (aggs : Aggregates) :
  get k aggs = Some a -> In a (map snd aggs).
Proof.
  induction aggs as [|[k0 a0] rest IH]; cbn [get map snd].
  - discriminate.
  - destruct (String.eqb k0 k).
    + intros [= ->]. now left.
    + intros H. right. now apply IH.
Qed.

(** A run whose statements all commit. *)
Lemma queue_commits (batch : MessageBatch) (db : D1.t) :
  writes_commit db (List.length (deltas (messages_of batch))) = true ->
  settled (queue batch db) = inr tt
  /\ upserted (effects (queue batch db)) = deltas (messages_of batch)
  /\ acked (effects (queue batch db)) = map id (messages_of batch)
  /\ D1.company_daily_stats (db_after (queue batch db))
     = table_after (D1.company_daily_stats db) (deltas (messages_of batch)).
Proof.
  unfold queue, deltas. fold (messages_of batch). rewrite length_map.
  intros W. rewrite (write_all_commits _ _ W).
  cbn [settled effects db_after D1.company_daily_stats].
  rewrite <- (map_map id Acked (messages_of batch)).
  rewrite acked_upserts_acks, upserted_upserts_acks.
  repeat split; reflexivity.
Qed.

Lemma tally_no_valid (k : string) (t : EventType) (msgs : list Message) :
  Forall (fun m => valid m = false) msgs -> tally k t msgs = 0.
Proof.
  unfold tally. induction 1 as [|m rest Hm _ IH]; [reflexivity|].
  cbn [filter]. rewrite Hm. exact IH.
Qed.

Lemma existsb_keyed (k : string) (m : Message) (msgs : list Message) :
  In m msgs -> event_key m = Some k -> existsb (keyed k) msgs = true.
Proof.
  intros Hin Hk. apply existsb_exists. exists m. split; [exact Hin|].
  unfold keyed. rewrite Hk. apply String.eqb_refl.
Qed.



(** ** The statements on sample batches *)


Lemma groups_are_isolated_witness :
  Forall (fun m => typed m = true) (Samples.others ++ Samples.three_views)
  /\ Forall (fun m => typed m = true) Samples.three_views
  /\ filter (grouped (Js.Int 7) "2024-05-01")
       (Samples.others ++ Samples.three_views)
     = filter (grouped (Js.Int 7) "2024-05-01") Samples.three_views
  /\ get (make_key (Js.VNumber (Js.Int 7)) "2024-05-01")
         (aggregate (Samples.others ++ Samples.three_views))
     = get (make_key (Js.VNumber (Js.Int 7)) "2024-05-01")
         (aggregate Samples.three_views).
Proof.
  assert (T1 : Forall (fun m => typed m = true)
                 (Samples.others ++ Samples.three_views))
    by (repeat constructor).
  assert (T2 : Forall (fun m => typed m = true) Samples.three_views)
    by (repeat constructor).
  assert (F : filter (grouped (Js.Int 7) "2024-05-01")
                (Samples.others ++ Samples.three_views)
              = filter (grouped (Js.Int 7) "2024-05-01") Samples.three_views)
    by reflexivity.
  split; [exact T1|]. split; [exact T2|]. split; [exact F|].
  exact (groups_are_isolated (Js.Int 7) "2024-05-01" _ _ T1 T2 F).
Defined.

(** C8, as stated for every batch, fails when an entity id is not of the
    declared type: the entity whose id is the text 7 is not the entity
    whose id is the number 7, the two batches hold the same events of the
    pair (7, 2024-05-01), and yet the click of the other entity is counted
    in the delta of that pair, because both ids give the key text
    7:2024-05-01. *)
Lemma text_id_shares_delta :
  QueueEvent.companyId (body Samples.text_id_click)
  <> Js.VNumber (Js.Int 7)
  /\ filter (grouped (Js.Int 7) "2024-05-01")
       (Samples.three_views ++ [Samples.text_id_click])
     = filter (grouped (Js.Int 7) "2024-05-01") Samples.three_views
  /\ option_map clicks_phone
       (get (make_key (Js.VNumber (Js.Int 7)) "2024-05-01")
          (aggregate Samples.three_views))
     = Some 0
  /\ option_map clicks_phone
       (get (make_key (Js.VNumber (Js.Int 7)) "2024-05-01")
          (aggregate (Samples.three_views ++ [Samples.text_id_click])))
     = Some 1
  /\ get (make_key (Js.VNumber (Js.Int 7)) "2024-05-01")
         (aggregate (Samples.three_views ++ [Samples.text_id_click]))
     <> get (make_key (Js.VNumber (Js.Int 7)) "2024-05-01")
          (aggregate Samples.three_views).
Proof.
  split; [discriminate|]. split; [reflexivity|].
  split; [reflexivity|]. split; [reflexivity|].
  intros E. apply (f_equal (option_map clicks_phone)) in E.
  vm_compute in E. discriminate E.
Qed.

Lemma falsy_company_id_dropped_witness :
  (QueueEvent.companyId (body Samples.zero_id) = Js.VNumber (Js.Int 0)
   \/ QueueEvent.companyId (body Samples.zero_id) = Js.VString "")
  /\ aggregate (Samples.others ++ Samples.zero_id :: Samples.three_views)
     = aggregate (Samples.others ++ Samples.three_views).
Proof.
  assert (H : QueueEvent.companyId (body Samples.zero_id)
              = Js.VNumber (Js.Int 0)
              \/ QueueEvent.companyId (body Samples.zero_id) = Js.VString "")
    by (left; reflexivity).
  split; [exact H|].
  exact (proj2 (proj2 (proj2
           (falsy_company_id_dropped Samples.zero_id Samples.others
              Samples.three_views H)))).
Defined.





(** The second of three writes fails: the first delta is in the table, no
    message is acknowledged, and the run rejects with the store's error. *)
Example second_write_fails :
  let r := queue {| messages := Some Samples.three_deltas |}
             (Samples.empty_db [None; Some "D1_ERROR"%string]) in
  settled r = inl (Js.DbError "D1_ERROR")
  /\ effects r
     = [Upserted (increment PROFILE_VIEW
                    (fresh (Samples.company 7) "2024-05-01"))]
  /\ acked (effects r) = []
  /\ List.length (D1.company_daily_stats (db_after r)) = 1%nat.
Proof. repeat split. Qed.

End ConsumerFacts.

(** * Properties of the reports worker *)

Module ReportFacts.
Import ReportsWorker ReportSpec.

(** ** [ORDER BY] *)

Section OrderByFacts.
Context {A : Type} (leb : A -> A -> bool).

Lemma insert_row_perm (x : A) (l : list A) :
  Permutation (insert_row leb x l) (x :: l).
Proof.
  induction l as [|y l IH]; cbn [insert_row].
  - reflexivity.
  - destruct (leb x y); [reflexivity|].
    rewrite IH. apply perm_swap.
Qed.

Lemma order_by_perm (l : list A) : Permutation (order_by leb l) l.
Proof.
  induction l as [|x l IH]; cbn [order_by fold_right].
  - reflexivity.
  - fold (order_by leb l). rewrite insert_row_perm. now constructor.
Qed.

Hypothesis leb_total : total leb.

Lemma insert_row_hd (x y : A) (l : list A) :
  leb y x = true ->
  HdRel (fun a b => leb a b = true) y l ->
  HdRel (fun a b => leb a b = true) y (insert_row leb x l).
Proof.
  intros Hyx Hl. destruct l as [|z l]; cbn [insert_row].
  - now constructor.
  - destruct (leb x z); constructor; [exact Hyx|].
    now apply HdRel_inv in Hl.
Qed.

Lemma insert_row_sorted (x : A) (l : list A) :
  Sorted (fun a b => leb a b = true) l ->
  Sorted (fun a b => leb a b = true) (insert_row leb x l).
Proof.
  induction 1 as [|y l Hs IH Hd]; cbn [insert_row].
  - repeat constructor.
  - destruct (leb x y) eqn:E.
    + constructor; [now constructor | now constructor].
    + constructor; [exact IH|].
      apply insert_row_hd; [now apply leb_total | exact Hd].
Qed.

Lemma order_by_sorted (l : list A) :
  Sorted (fun a b => leb a b = true) (order_by leb l).
Proof.
  induction l as [|x l IH]; cbn [order_by fold_right].
  - constructor.
  - now apply insert_row_sorted.
Qed.

End OrderByFacts.

Lemma insert_row_ext {A : Type} (f g : A -> A -> bool) (x : A) (l : list A) :
  (forall y, In y l -> f x y = g x y) ->
  insert_row f x l = insert_row g x l.
Proof.
  induction l as [|y l IH]; intros H; cbn [insert_row]; [reflexivity|].
  rewrite (H y) by now left.
  destruct (g x y); [reflexivity|].
  f_equal. apply IH. intros z Hz. apply H. now right.
Qed.

Lemma order_by_ext {A : Type} (f g : A -> A -> bool) (l : list A) :
  (forall x y, In x l -> In y l -> f x y = g x y) ->
  order_by f l = order_by g l.
Proof.
  induction l as [|x l IH]; intros H; cbn [order_by fold_right]; [reflexivity|].
  fold (order_by f l). fold (order_by g l).
  rewrite IH by (intros a b Ha Hb; apply H; now right).
  apply insert_row_ext. intros y Hy. apply H; [now left|].
  right. eapply Permutation_in; [apply order_by_perm | exact Hy].
Qed.

Lemma Sorted_map {A B : Type} (f : A -> B) (R : A -> A -> Prop)
      (S : B -> B -> Prop) (l : list A) :
  (forall a b, R a b -> S (f a) (f b)) ->
  Sorted R l -> Sorted S (map f l).
Proof.
  intros H. induction 1 as [|x l Hs IH Hd]; cbn [map]; constructor.
  - exact IH.
  - destruct Hd; cbn [map]; constructor. now apply H.
Qed.

(** ** The per-company report *)

Lemma totals_eq (a b : CompanyReportTotals) :
  views_profile a = views_profile b ->
  impressions_search a = impressions_search b ->
  impressions_map a = impressions_map b ->
  clicks_phone a = clicks_phone b ->
  clicks_site a = clicks_site b ->
  clicks_email a = clicks_email b ->
  clicks_directions a = clicks_directions b ->
  leads_form a = leads_form b ->
  a = b.
Proof. destruct a, b; cbn; intros; subst; reflexivity. Qed.

Lemma add_totals_sum (t c : CompanyReportTotals)
      (l : list CompanyReportTotals) :
  add_totals (add_totals t c) (sum_totals l)
  = add_totals t (sum_totals (c :: l)).
Proof.
  apply totals_eq; cbn [add_totals sum_totals
    views_profile impressions_search impressions_map clicks_phone clicks_site
    clicks_email clicks_directions leads_form];
    unfold column_sum; cbn [fold_right]; lia.
Qed.

Lemma add_totals_empty (t : CompanyReportTotals) :
  add_totals t (sum_totals []) = t.
Proof.
  apply totals_eq; cbn [add_totals sum_totals
    views_profile impressions_search impressions_map clicks_phone clicks_site
    clicks_email clicks_directions leads_form];
    unfold column_sum; cbn [fold_right]; lia.
Qed.

(** The loop invariant: [daily] has grown by the items of the rows seen,
    [totals] by their sum. *)
Lemma accumulate_rows (rows : list D1.StatsRow) :
  forall acc,
    fold_left accumulate rows acc
    = {| totals := add_totals (totals acc)
                     (sum_totals (map counts (map daily_item rows)));
         daily := daily acc ++ map daily_item rows |}.
Proof.
  induction rows as [|row rows IH]; intros acc; cbn [fold_left map].
  - rewrite add_totals_empty, app_nil_r. now destruct acc.
  - rewrite IH. unfold accumulate. cbn [totals daily].
    rewrite add_totals_sum, <- app_assoc. reflexivity.
Qed.

Lemma last30_rows (rows : list D1.StatsRow) :
  daily (last30 rows) = map daily_item rows
  /\ totals (last30 rows) = sum_totals (map counts (map daily_item rows)).
Proof.
  unfold last30. rewrite accumulate_rows. cbn [totals daily app]. split.
  - reflexivity.
  - apply totals_eq; cbn [add_totals emptyTotals
      views_profile impressions_search impressions_map clicks_phone
      clicks_site clicks_email clicks_directions leads_form]; lia.
Qed.

Lemma date_leb_total :
  total (fun a b : D1.StatsRow => String.leb (D1.date a) (D1.date b)).
Proof.
  intros a b H.
  destruct (String.leb_total (D1.date a) (D1.date b)) as [E|E];
    [congruence | exact E].
Qed.

(** The rows the statement selects and the items the loop builds are the
    rows and the items of the specification. *)
Lemma stored_rows_in_range (db : D1.t) (companyId : Z) (f t : string) :
  stored_rows db companyId f t = rows_in_range db companyId f t.
Proof.
  unfold stored_rows, rows_in_range. apply filter_ext. intros row.
  unfold row_of, in_range, day_within.
  destruct (D1.company_id row) as [| |b|[| | |z]|x]; reflexivity.
Qed.

Lemma daily_item_row (row : D1.StatsRow) : daily_item row = row_item row.
Proof. reflexivity. Qed.

Lemma row_of_company (companyId : Z) (row : D1.StatsRow) :
  row_of companyId row = true ->
  D1.company_id row = Js.VNumber (Js.Int companyId).
Proof.
  unfold row_of.
  destruct (D1.company_id row) as [| |b|[| | |z]|x]; try discriminate.
  intros E. apply Z.eqb_eq in E. now subst.
Qed.

(** The daily list and the totals in terms of the statement and of the
    loop. *)
Lemma report_daily_selected (db : D1.t) (r : Range)
      (companyRow : D1.CompanyRow) :
  let report := last_30_days (company_report db r companyRow) in
  let stored := stored_rows db (D1.id companyRow) (from r) (to r) in
  Permutation (daily report) (map daily_item stored)
  /\ Sorted not_later (daily report)
  /\ totals report = sum_totals (map counts (daily report)).
Proof.
  intros report stored. subst report.
  unfold company_report. cbn [last_30_days].
  destruct (last30_rows (select_stats db (D1.id companyRow) (from r) (to r)))
    as [D T].
  rewrite T, D.
  assert (P : Permutation
                (select_stats db (D1.id companyRow) (from r) (to r)) stored)
    by apply order_by_perm.
  split; [|split].
  - now apply Permutation_map.
  - apply (Sorted_map daily_item
             (fun a b => String.leb (D1.date a) (D1.date b) = true)).
    + intros a b H. exact H.
    + apply order_by_sorted, date_leb_total.
  - reflexivity.
Qed.

(** C3.  The daily list of a company report holds exactly the rows stored
    for the company whose day lies between the two days of the range, each
    row once, with the day and the eight counters of the row (zero for a
    counter without a value); it has no item without such a stored row, so
    it is empty when there is none; it runs from the earliest day to the
    latest; and the totals are the component-wise sum of that daily list,
    for all eight counters. *)
Theorem report_daily_and_totals (db : D1.t) (r : Range)
        (companyRow : D1.CompanyRow) :
  let report := last_30_days (company_report db r companyRow) in
  let stored := rows_in_range db (D1.id companyRow) (from r) (to r) in
  Permutation (daily report) (map row_item stored)
  /\ (forall item, In item (daily report) ->
        exists row,
          In row (D1.company_daily_stats db)
          /\ D1.company_id row = Js.VNumber (Js.Int (D1.id companyRow))
          /\ String.leb (from r) (D1.date row) = true
          /\ String.leb (D1.date row) (to r) = true
          /\ date item = D1.date row
          /\ counts item = row_counts row)
  /\ Sorted not_later (daily report)
  /\ totals report = sum_totals (map counts (daily report))
  /\ (stored = [] -> daily report = [] /\ totals report = zero_totals).
Proof.
  intros report stored.
  destruct (report_daily_selected db r companyRow) as (P & S & T).
  fold report in P, S, T.
  rewrite stored_rows_in_range in P. fold stored in P.
  assert (P' : Permutation (daily report) (map row_item stored)).
  { rewrite P. apply Permutation_refl. }
  split; [exact P'|]. split; [|split; [exact S|split; [exact T|]]].
  - intros item Hin. apply (Permutation_in _ P') in Hin.
    apply in_map_iff in Hin as (row & <- & Hrow).
    apply filter_In in Hrow as [Hrow Hc].
    apply andb_true_iff in Hc as [Hc Hd].
    apply andb_true_iff in Hd as [Hf Ht].
    exists row. repeat split; try assumption.
    now apply row_of_company.
  - intros E. rewrite E in P'. cbn [map] in P'.
    apply Permutation_sym, Permutation_nil in P'.
    split; [exact P'|]. rewrite T, P'. reflexivity.
Qed.

(** ** The summary *)

Lemma option_string_eqb_eq (a b : option string) :
  option_string_eqb a b = true <-> a = b.
Proof.
  destruct a as [x|], b as [y|]; cbn [option_string_eqb];
    try (split; [discriminate | discriminate]); try tauto.
  rewrite String.eqb_eq. split; congruence.
Qed.

Lemma same_group_eq (a b : D1.CompanyRow) : same_group a b = true <-> a = b.
Proof.
  unfold same_group. rewrite !andb_true_iff, Z.eqb_eq, !String.eqb_eq,
    !option_string_eqb_eq.
  destruct a, b; cbn. split.
  - intros [[[[[[[? ?] ?] ?] ?] ?] ?] ?]. subst. reflexivity.
  - intros [= -> -> -> -> -> -> -> ->]. repeat split.
Qed.

Lemma same_group_refl (c : D1.CompanyRow) : same_group c c = true.
Proof. now apply same_group_eq. Qed.

Lemma same_group_id (a b : D1.CompanyRow) :
  D1.id a <> D1.id b -> same_group a b = false.
Proof.
  intros H. destruct (same_group a b) eqn:E; [|reflexivity].
  apply same_group_eq in E. now subst.
Qed.

Lemma join_company_fst (db : D1.t) (f t : string) (c : D1.CompanyRow) :
  exists n, map fst (join_company db f t c) = repeat c (S n).
Proof.
  unfold join_company.
  destruct (filter _ _) as [|r0 ms].
  - now exists 0%nat.
  - exists (List.length ms). cbn [map fst repeat]. f_equal.
    induction ms as [|r ms IH]; cbn [map List.length repeat];
      [reflexivity | now rewrite IH].
Qed.

Lemma join_company_columns (db : D1.t) (f t : string) (c : D1.CompanyRow)
      (col : D1.StatsRow -> option Z) :
  nullable_sum (map (joined_column col) (map snd (join_company db f t c)))
  = nullable_sum (map col (stored_rows db (D1.id c) f t)).
Proof.
  unfold join_company, stored_rows.
  destruct (filter _ _) as [|r0 ms]; [reflexivity|].
  now rewrite !map_map.
Qed.

Lemma coalesce_sum (values : list (option Z)) :
  number_or_zero (coalesce_zero (sql_sum values)) = nullable_sum values.
Proof.
  induction values as [|[v|] rest IH]; cbn [sql_sum nullable_sum fold_right].
  - reflexivity.
  - fold (nullable_sum rest). rewrite <- IH.
    destruct (sql_sum rest); cbn [coalesce_zero number_or_zero]; lia.
  - fold (nullable_sum rest). rewrite <- IH. cbn [number_or_zero]. lia.
Qed.

Lemma filter_twice {A : Type} (p : A -> bool) (l : list A) :
  filter p (filter p l) = filter p l.
Proof.
  induction l as [|x l IH]; cbn [filter]; [reflexivity|].
  destruct (p x) eqn:E; cbn [filter]; [rewrite E; now f_equal | exact IH].
Qed.

Lemma group_keys_repeat (c : D1.CompanyRow) (n : nat)
      (tail : list D1.CompanyRow) :
  group_keys (repeat c (S n) ++ tail)
  = c :: filter (fun d => negb (same_group c d)) (group_keys tail).
Proof.
  induction n as [|n IH].
  - reflexivity.
  - change (repeat c (S (S n)) ++ tail) with (c :: (repeat c (S n) ++ tail)).
    cbn [group_keys]. rewrite IH. cbn [filter].
    rewrite same_group_refl. cbn [negb]. now rewrite filter_twice.
Qed.

Lemma filter_other_ids (c : D1.CompanyRow) (l : list D1.CompanyRow) :
  ~ In (D1.id c) (map D1.id l) ->
  filter (fun d => negb (same_group c d)) l = l.
Proof.
  induction l as [|d l IH]; intros H; cbn [filter]; [reflexivity|].
  rewrite same_group_id by (intros E; apply H; left; now rewrite E).
  cbn [negb]. f_equal. apply IH. intros Hin. apply H. now right.
Qed.

(** With distinct ids, the groups are the companies. *)
Lemma group_keys_join (db : D1.t) (f t : string) (l : list D1.CompanyRow) :
  NoDup (map D1.id l) ->
  group_keys (map fst (flat_map (join_company db f t) l)) = l.
Proof.
  induction l as [|c l IH]; intros N; [reflexivity|].
  cbn [flat_map map] in *. apply NoDup_cons_iff in N as [Hc N].
  rewrite map_app. destruct (join_company_fst db f t c) as [n ->].
  rewrite group_keys_repeat, IH by exact N.
  now rewrite filter_other_ids.
Qed.

Lemma filter_join_other (db : D1.t) (f t : string) (c d : D1.CompanyRow) :
  D1.id c <> D1.id d ->
  filter (fun p => same_group c (fst p)) (join_company db f t d) = [].
Proof.
  intros H. unfold join_company. fold (stored_rows db (D1.id d) f t).
  destruct (stored_rows db (D1.id d) f t) as [|r0 ms]; cbn [filter fst].
  - now rewrite same_group_id.
  - cbn [map filter fst]. rewrite same_group_id by exact H.
    induction ms as [|r ms IH]; cbn [map filter fst]; [reflexivity|].
    now rewrite same_group_id.
Qed.

Lemma filter_join_same (db : D1.t) (f t : string) (c : D1.CompanyRow) :
  filter (fun p => same_group c (fst p)) (join_company db f t c)
  = join_company db f t c.
Proof.
  unfold join_company. fold (stored_rows db (D1.id c) f t).
  destruct (stored_rows db (D1.id c) f t) as [|r0 ms]; cbn [filter fst].
  - now rewrite same_group_refl.
  - cbn [map filter fst]. rewrite same_group_refl. f_equal.
    induction ms as [|r ms IH]; cbn [map filter fst]; [reflexivity|].
    rewrite same_group_refl. now f_equal.
Qed.

(** With distinct ids, the group of a company is its own joined rows. *)
Lemma group_of_company (db : D1.t) (f t : string) (c : D1.CompanyRow)
      (l : list D1.CompanyRow) :
  NoDup (map D1.id l) ->
  In c l ->
  filter (fun p => same_group c (fst p)) (flat_map (join_company db f t) l)
  = join_company db f t c.
Proof.
  induction l as [|d l IH]; intros N Hin; [destruct Hin|].
  cbn [flat_map map] in *. apply NoDup_cons_iff in N as [Hd N].
  rewrite filter_app. destruct Hin as [-> | Hin].
  - rewrite filter_join_same.
    assert (R : filter (fun p => same_group c (fst p))
                  (flat_map (join_company db f t) l) = []).
    { clear IH N. induction l as [|e l IH]; [reflexivity|].
      cbn [flat_map map In] in *. rewrite filter_app, filter_join_other.
      - apply IH. tauto.
      - intros E. apply Hd. now left. }
    now rewrite R, app_nil_r.
  - rewrite filter_join_other, IH; auto.
    intros E. apply Hd. rewrite <- E. now apply in_map.
Qed.

Lemma nullable_sum_column (col : D1.StatsRow -> option Z)
      (f : CompanyReportTotals -> Z) (rows : list D1.StatsRow) :
  (forall r, f (counts (daily_item r)) = number_or_zero (col r)) ->
  nullable_sum (map col rows)
  = column_sum f (map counts (map daily_item rows)).
Proof.
  intros H. unfold nullable_sum, column_sum.
  induction rows as [|r rows IH]; cbn [map fold_right]; [reflexivity|].
  now rewrite IH, H.
Qed.

(** With distinct ids, the item of a company carries the sums of the rows
    stored for it in the range. *)
Lemma summary_item_of_company (db : D1.t) (f t : string)
      (c : D1.CompanyRow) :
  NoDup (map D1.id (D1.companies db)) ->
  In c (D1.companies db) ->
  summary_item (summary_row (left_join db f t) c)
  = {| item_company := company_meta c;
       item_totals :=
         sum_totals (map counts
                       (map daily_item (stored_rows db (D1.id c) f t))) |}.
Proof.
  intros N Hin. unfold summary_row, left_join.
  rewrite (group_of_company db f t c _ N Hin).
  unfold summary_item.
  cbn [row_company row_views_profile row_impressions_search
       row_impressions_map row_clicks_phone row_clicks_site row_clicks_email
       row_clicks_directions row_leads_form].
  f_equal.
  apply totals_eq;
    cbn [sum_totals views_profile impressions_search impressions_map
         clicks_phone clicks_site clicks_email clicks_directions leads_form];
    rewrite coalesce_sum, join_company_columns;
    now apply nullable_sum_column.
Qed.

Lemma summary_row_views (j : list (D1.CompanyRow * option D1.StatsRow))
      (c : D1.CompanyRow) :
  exists v, row_views_profile (summary_row j c) = Some v.
Proof.
  unfold summary_row. cbn [row_views_profile].
  destruct (sql_sum _) as [v|]; cbn [coalesce_zero]; eauto.
Qed.

Lemma views_leb_total :
  total (fun a b : SummaryRow =>
           number_or_zero (row_views_profile b)
           <=? number_or_zero (row_views_profile a)).
Proof. intros a b H. apply Z.leb_gt in H. apply Z.leb_le. lia. Qed.

(** The rows of the summary statement, with distinct ids: one per company,
    by decreasing sum of profile views. *)
Lemma select_summary_rows (db : D1.t) (f t : string) :
  NoDup (map D1.id (D1.companies db)) ->
  select_summary db f t
  = order_by (fun a b => number_or_zero (row_views_profile b)
                         <=? number_or_zero (row_views_profile a))
      (map (summary_row (left_join db f t)) (D1.companies db)).
Proof.
  intros N. unfold select_summary. cbv zeta.
  unfold left_join at 2. rewrite (group_keys_join db f t _ N).
  apply order_by_ext. intros a b Ha Hb.
  apply in_map_iff in Ha as (ca & <- & _).
  apply in_map_iff in Hb as (cb & <- & _).
  destruct (summary_row_views (left_join db f t) ca) as [va ->].
  destruct (summary_row_views (left_join db f t) cb) as [vb ->].
  reflexivity.
Qed.

(** The items of the summary in terms of the statement. *)
Lemma summary_items_selected (db : D1.t) (r : Range) :
  NoDup (map D1.id (D1.companies db)) ->
  let its := items (summary db r) in
  Permutation its
    (map (fun c => summary_item (summary_row (left_join db (from r) (to r)) c))
       (D1.companies db))
  /\ Sorted not_fewer_views its.
Proof.
  intros N its. subst its. unfold summary. cbn [items].
  rewrite (select_summary_rows db _ _ N).
  set (leb := fun a b : SummaryRow =>
                number_or_zero (row_views_profile b)
                <=? number_or_zero (row_views_profile a)).
  set (rows := map (summary_row (left_join db (from r) (to r)))
                 (D1.companies db)).
  assert (P : Permutation (order_by leb rows) rows) by apply order_by_perm.
  split.
  - rewrite (Permutation_map summary_item P). subst rows.
    rewrite map_map. apply Permutation_refl.
  - apply (Sorted_map summary_item (fun a b => leb a b = true)).
    + intros a b H. unfold not_fewer_views, summary_item.
      cbn [item_totals views_profile]. now apply Z.leb_le.
    + apply order_by_sorted, views_leb_total.
Qed.

(** The item of an entity, in the words of the specification. *)
Lemma summary_item_describes (db : D1.t) (f t : string)
      (c : D1.CompanyRow) :
  NoDup (map D1.id (D1.companies db)) ->
  In c (D1.companies db) ->
  let it := summary_item (summary_row (left_join db f t) c) in
  describes c (item_company it)
  /\ item_totals it
     = sum_totals (map row_counts (rows_in_range db (D1.id c) f t)).
Proof.
  intros N Hin it. subst it.
  rewrite (summary_item_of_company db f t c N Hin).
  cbn [item_company item_totals]. split.
  - repeat split.
  - rewrite stored_rows_in_range, map_map. reflexivity.
Qed.

(** C5.  With distinct company ids, the summary has exactly one item per
    entity: every entity has an item that carries its metadata and whose
    totals are the component-wise sum of the counters of its rows in the
    range (zero for a counter without a value), hence eight zeros for an
    entity without such a row; every item is the item of an entity; and
    the items come by decreasing profile views. *)
Theorem summary_items (db : D1.t) (r : Range) :
  NoDup (map D1.id (D1.companies db)) ->
  let its := items (summary db r) in
  Permutation (map (fun it => id (item_company it)) its)
    (map D1.id (D1.companies db))
  /\ (forall c, In c (D1.companies db) ->
        exists it,
          In it its
          /\ describes c (item_company it)
          /\ item_totals it
             = sum_totals
                 (map row_counts
                    (rows_in_range db (D1.id c) (from r) (to r)))
          /\ (rows_in_range db (D1.id c) (from r) (to r) = [] ->
              item_totals it = zero_totals))
  /\ (forall it, In it its ->
        exists c,
          In c (D1.companies db)
          /\ describes c (item_company it)
          /\ item_totals it
             = sum_totals
                 (map row_counts
                    (rows_in_range db (D1.id c) (from r) (to r))))
  /\ Sorted not_fewer_views its.
Proof.
  intros N its.
  destruct (summary_items_selected db r N) as [P S]. fold its in P, S.
  split; [|split; [|split; [|exact S]]].
  - rewrite (Permutation_map (fun it => id (item_company it)) P).
    rewrite map_map.
    erewrite map_ext_in; [apply Permutation_refl|].
    intros c Hc.
    destruct (summary_item_describes db (from r) (to r) c N Hc)
      as [(Hid & _) _].
    exact Hid.
  - intros c Hc.
    destruct (summary_item_describes db (from r) (to r) c N Hc) as [D T].
    eexists. split; [|split; [exact D|split; [exact T|]]].
    + apply (Permutation_in _ (Permutation_sym P)).
      apply in_map_iff. exists c. now split.
    + intros E. rewrite T, E. reflexivity.
  - intros it Hin. apply (Permutation_in _ P) in Hin.
    apply in_map_iff in Hin as (c & <- & Hc).
    destruct (summary_item_describes db (from r) (to r) c N Hc) as [D T].
    exists c. now repeat split.
Qed.

(** ** The [days] parameter and the date range *)

Lemma resolve_days_default (p : Js.number) :
  positive_finite p = false -> resolve_days p = Js.Int 30.
Proof. unfold positive_finite, resolve_days. now intros ->. Qed.

Lemma resolve_days_kept (p : Js.number) :
  positive_finite p = true -> resolve_days p = p.
Proof. unfold positive_finite, resolve_days. now intros ->. Qed.

(** A missing or empty parameter is read as ["30"]. *)
Lemma days_number_missing (Number : string -> Js.number)
      (param : option string) :
  param = None \/ param = Some ""%string ->
  days_number Number param = Number "30"%string.
Proof. intros [-> | ->]; reflexivity. Qed.

Lemma Day_midnight (now : Z) :
  0 <= now ->
  0 <= Js.Day now * Js.msPerDay <= now.
Proof.
  intros H. unfold Js.Day, Js.msPerDay.
  pose proof (Z.mul_div_le now 86400000 ltac:(lia)).
  pose proof (Z.div_pos now 86400000 H ltac:(lia)).
  lia.
Qed.

Lemma to_date_midnight (now : Z) :
  0 <= now <= max_time ->
  to_date now = Some (Js.Day now * Js.msPerDay).
Proof.
  intros H. unfold to_date, Js.TimeClip.
  pose proof (Day_midnight now (proj1 H)) as M. unfold max_time in H.
  destruct (Z.leb_spec (Z.abs (Js.Day now * Js.msPerDay)) 8640000000000000);
    [reflexivity | lia].
Qed.

Lemma toISOString_valid (t : Z) : exists s, Js.toISOString (Some t) = inr s.
Proof.
  unfold Js.toISOString. destruct (Js.civil_from_days (Js.Day t)) as [[y m] d].
  eauto.
Qed.

(** For an integer [days] that keeps the first day within the range of a
    Date, [fromDate] is midnight of the day [days - 1] days before today,
    [toDate] is midnight of today, and the range is built from the date
    parts of their ISO strings. *)
Lemma compute_range_days_earlier (now d : Z) :
  0 <= now <= max_time ->
  - 100000000 <= Js.Day now - (d - 1) <= 100000000 ->
  to_date now = Some (Js.Day now * Js.msPerDay)
  /\ from_date (to_date now) (Js.Int d)
     = Some ((Js.Day now - (d - 1)) * Js.msPerDay)
  /\ exists fromIso toIso,
       Js.toISOString (Some ((Js.Day now - (d - 1)) * Js.msPerDay))
       = inr fromIso
       /\ Js.toISOString (Some (Js.Day now * Js.msPerDay)) = inr toIso
       /\ compute_range now (Js.Int d)
          = inr {| from := Js.slice_to 10 fromIso;
                   to := Js.slice_to 10 toIso;
                   days := Js.Int d |}.
Proof.
  intros Hnow Hd.
  pose proof (to_date_midnight now Hnow) as T.
  assert (F : from_date (to_date now) (Js.Int d)
              = Some ((Js.Day now - (d - 1)) * Js.msPerDay)).
  { rewrite T. unfold from_date, Js.TimeClip, Js.msPerDay in *.
    replace (Js.Day now * 86400000 - (d - 1) * 24 * 60 * 60 * 1000)
      with ((Js.Day now - (d - 1)) * 86400000) by lia.
    destruct (Z.leb_spec (Z.abs ((Js.Day now - (d - 1)) * 86400000))
                8640000000000000); [reflexivity | lia]. }
  split; [exact T|]. split; [exact F|].
  destruct (toISOString_valid ((Js.Day now - (d - 1)) * Js.msPerDay))
    as [fromIso Ef].
  destruct (toISOString_valid (Js.Day now * Js.msPerDay)) as [toIso Et].
  exists fromIso, toIso. split; [exact Ef|]. split; [exact Et|].
  unfold compute_range. cbv zeta. now rewrite F, T, Ef, Et.
Qed.

(** An integer [days] that puts the first day before the earliest Date
    makes [fromDate] invalid, and [toISOString] throws. *)
Lemma compute_range_throws (now d : Z) :
  0 <= now <= max_time ->
  Js.Day now + 100000001 < d ->
  compute_range now (Js.Int d) = inl Js.RangeError.
Proof.
  intros Hnow Hd.
  pose proof (Day_midnight now (proj1 Hnow)) as M.
  unfold compute_range. cbv zeta. rewrite (to_date_midnight now Hnow).
  unfold from_date, Js.TimeClip, Js.msPerDay in *.
  destruct (Z.leb_spec
              (Z.abs (Js.Day now * 86400000 - (d - 1) * 24 * 60 * 60 * 1000))
              8640000000000000); [lia | reflexivity].
Qed.

(** C6, on the handler: a [days] parameter that is a positive finite
    integer beyond the range of a Date is kept as it is, the first day of
    the range cannot be represented, and the request ends in an uncaught
    RangeError instead of a response with a range. *)
Theorem large_days_throw (Number : string -> Js.number) (request : Request)
        (now : Z) (db : D1.t) (d : Z) :
  0 <= now <= max_time ->
  days_number Number (days_param request) = Js.Int d ->
  Js.Day now + 100000001 < d ->
  positive_finite (Js.Int d) = true
  /\ fetch_get Number request now db = inl Js.RangeError.
Proof.
  intros Hnow Hp Hd.
  pose proof (Day_midnight now (proj1 Hnow)) as M.
  assert (P : positive_finite (Js.Int d) = true).
  { unfold positive_finite. cbn [Js.isFinite Js.positive andb].
    apply Z.ltb_lt. unfold Js.msPerDay in M. lia. }
  split; [exact P|].
  unfold fetch_get. cbv zeta.
  rewrite Hp, (resolve_days_kept _ P), (compute_range_throws now d Hnow Hd).
  reflexivity.
Qed.

Lemma large_days_throw_witness :
  0 <= Samples.now <= max_time
  /\ days_number Samples.Number_on_digits
       (days_param (Samples.get_request "/api/reports/summary"
                      (Some "1000000000"%string)))
     = Js.Int 1000000000
  /\ Js.Day Samples.now + 100000001 < 1000000000
  /\ fetch_get Samples.Number_on_digits
       (Samples.get_request "/api/reports/summary" (Some "1000000000"%string))
       Samples.now Samples.listings_db
     = inl Js.RangeError.
Proof.
  assert (H1 : 0 <= Samples.now <= max_time)
    by (unfold Samples.now, max_time; lia).
  assert (H2 : days_number Samples.Number_on_digits
                 (days_param (Samples.get_request "/api/reports/summary"
                                (Some "1000000000"%string)))
               = Js.Int 1000000000) by reflexivity.
  assert (H3 : Js.Day Samples.now + 100000001 < 1000000000) by reflexivity.
  split; [exact H1|]. split; [exact H2|]. split; [exact H3|].
  exact (proj2 (large_days_throw Samples.Number_on_digits _ Samples.now
                  Samples.listings_db 1000000000 H1 H2 H3)).
Defined.

(** Every value that is not a positive finite number gives 30 days: NaN
    (a parameter that is not numeric), zero, the negatives, and both
    infinities. *)
Lemma resolve_days_defaults (p : Js.number) :
  p = Js.NaN \/ p = Js.Infinity \/ p = Js.NegInfinity
  \/ (exists z, p = Js.Int z /\ z <= 0) ->
  resolve_days p = Js.Int 30.
Proof.
  intros [-> | [-> | [-> | (z & -> & Hz)]]]; try reflexivity.
  apply resolve_days_default. unfold positive_finite.
  cbn [Js.isFinite Js.positive andb]. apply Z.ltb_ge. exact Hz.
Qed.

(** The range of the last five days, and a first day before year 0, whose
    ISO string starts with a sign and six digits and is cut in the month. *)
Example range_of_five_days :
  compute_range Samples.now (Js.Int 5)
  = inr {| from := "2026-10-29"; to := "2026-11-02"; days := Js.Int 5 |}.
Proof. reflexivity. Qed.

Example range_before_year_zero :
  compute_range Samples.now (Js.Int 800000)
  = inr {| from := "-000164-07"; to := "2026-11-02";
           days := Js.Int 800000 |}.
Proof. reflexivity. Qed.

(** ** Unknown companies *)

Lemma company_by_slug_none (db : D1.t) (s : string) :
  (forall c, In c (D1.companies db) -> D1.slug c <> s) ->
  company_by_slug db s = None.
Proof.
  intros H. unfold company_by_slug.
  destruct (find _ _) as [c|] eqn:F; [|reflexivity].
  apply find_some in F as [Hin E]. apply String.eqb_eq in E.
  now apply H in Hin.
Qed.

(** The company branch, once the range is built and the slug decoded. *)
Lemma fetch_company (Number : string -> Js.number) (request : Request)
      (now : Z) (db : D1.t) (r : Range) (s : string) :
  compute_range now (resolve_days (days_number Number (days_param request)))
  = inr r ->
  Js.startsWith "/company/" (route_path (pathname request)) = true ->
  Js.decodeURIComponent
    (Js.trim (Js.replace "/company/" "" (route_path (pathname request))))
  = inr s ->
  fetch_get Number request now db
  = if String.eqb s "" then
      inr (jsonResponse (ErrorBody "Invalid company slug") (Some 400))
    else match company_by_slug db s with
         | None =>
             inr (jsonResponse (ErrorBody "Company not found") (Some 404))
         | Some companyRow =>
             inr (jsonResponse (ReportBody (company_report db r companyRow))
                    None)
         end.
Proof.
  intros R P D. unfold fetch_get. cbv zeta. now rewrite R, P, D.
Qed.

(** The summary branch, once the range is built. *)
Lemma fetch_summary (Number : string -> Js.number) (request : Request)
      (now : Z) (db : D1.t) :
  route_path (pathname request) = "/summary"%string ->
  fetch_get Number request now db
  = match compute_range now
            (resolve_days (days_number Number (days_param request))) with
    | inl e => inl e
    | inr r => inr (jsonResponse (SummaryBody (summary db r)) None)
    end.
Proof.
  intros P. unfold fetch_get. cbv zeta. rewrite P.
  destruct (compute_range _ _); reflexivity.
Qed.

(** C7, as amended.  When the range is built and the path segment decodes
    to a slug that is not empty and is the slug of no company, the company
    endpoint answers 404 "Company not found".  The summary endpoint answers
    with status 200 and the summary whenever the range is built, and no
    response of it has status 404. *)
Theorem unknown_slug_not_found (Number : string -> Js.number)
        (request : Request) (now : Z) (db : D1.t) :
  (forall r s,
      compute_range now
        (resolve_days (days_number Number (days_param request))) = inr r ->
      Js.startsWith "/company/" (route_path (pathname request)) = true ->
      Js.decodeURIComponent
        (Js.trim (Js.replace "/company/" "" (route_path (pathname request))))
      = inr s ->
      s <> ""%string ->
      (forall c, In c (D1.companies db) -> D1.slug c <> s) ->
      fetch_get Number request now db
      = inr (jsonResponse (ErrorBody "Company not found") (Some 404)))
  /\ (route_path (pathname request) = "/summary"%string ->
      (forall r,
          compute_range now
            (resolve_days (days_number Number (days_param request)))
          = inr r ->
          fetch_get Number request now db
          = inr (jsonResponse (SummaryBody (summary db r)) None))
      /\ (forall response,
             fetch_get Number request now db = inr response ->
             status response = 200)).
Proof.
  split.
  - intros r s R P D Hs Hnone.
    rewrite (fetch_company Number request now db r s R P D).
    apply String.eqb_neq in Hs. rewrite Hs.
    now rewrite (company_by_slug_none db s Hnone).
  - intros P. rewrite (fetch_summary Number request now db P).
    split.
    + now intros r ->.
    + intros response.
      destruct (compute_range _ _); [discriminate|].
      now intros [= <-].
Qed.

Lemma unknown_slug_not_found_witness :
  fetch_get Samples.Number_on_digits
    (Samples.get_request "/api/reports/company/nonexistent-slug"
       (Some "30"%string))
    Samples.now Samples.listings_db
  = inr {| status := 404; body := ErrorBody "Company not found" |}
  /\ exists response,
       fetch_get Samples.Number_on_digits
         (Samples.get_request "/api/reports/summary" None)
         Samples.now Samples.listings_db = inr response
       /\ status response = 200.
Proof.
  split.
  - refine (proj1 (unknown_slug_not_found Samples.Number_on_digits
                     (Samples.get_request
                        "/api/reports/company/nonexistent-slug"
                        (Some "30"%string))
                     Samples.now Samples.listings_db)
              {| from := "2026-10-04"; to := "2026-11-02";
                 days := Js.Int 30 |}
              "nonexistent-slug"%string _ _ _ _ _);
      try reflexivity; try discriminate.
    intros c [<- | [<- | [<- | []]]]; discriminate.
  - destruct (proj2 (unknown_slug_not_found Samples.Number_on_digits
                       (Samples.get_request "/api/reports/summary" None)
                       Samples.now Samples.listings_db)
                eq_refl) as [S1 S2].
    eexists. split; [apply S1; reflexivity|]. reflexivity.
Defined.

(** C7, as stated, fails on the empty slug: in a store without companies
    every slug matches no entity, and the path [/company/] is answered 400
    "Invalid company slug", not 404. *)
Lemma empty_slug_is_invalid :
  (forall c, In c (D1.companies (Samples.empty_db [])) ->
             D1.slug c <> ""%string)
  /\ Js.decodeURIComponent
       (Js.trim (Js.replace "/company/" ""
                   (route_path "/api/reports/company/")))
     = inr ""%string
  /\ fetch_get Samples.Number_on_digits
       (Samples.get_request "/api/reports/company/" None)
       Samples.now (Samples.empty_db [])
     = inr {| status := 400; body := ErrorBody "Invalid company slug" |}
  /\ fetch_get Samples.Number_on_digits
       (Samples.get_request "/api/reports/company/" None)
       Samples.now (Samples.empty_db [])
     <> inr (jsonResponse (ErrorBody "Company not found") (Some 404)).
Proof.
  split; [intros c []|].
  split; [reflexivity|]. split; [reflexivity|]. discriminate.
Qed.

(** A path segment that is not a valid escape sequence makes
    [decodeURIComponent] throw before any lookup. *)
Example malformed_escape_throws :
  fetch_get Samples.Number_on_digits
    (Samples.get_request "/company/%" None) Samples.now Samples.listings_db
  = inl Js.URIError.
Proof. reflexivity. Qed.

(** ** The endpoints on the sample store *)

(** Five days, one stored row in them: the daily list has that one item
    and the totals are its counters. *)
Example report_with_gaps :
  exists report,
    fetch_get Samples.Number_on_digits
      (Samples.get_request "/api/reports/company/a" (Some "5"%string))
      Samples.now Samples.listings_db
    = inr {| status := 200; body := ReportBody report |}
    /\ map date (daily (last_30_days report)) = ["2026-10-31"%string]
    /\ views_profile (totals (last_30_days report)) = 10
    /\ totals (last_30_days report)
       = sum_totals (map counts (daily (last_30_days report))).
Proof. eexists. repeat split. Qed.

(** Companies a (10 views), b (30 views) and c (no row): b, a, c, and the
    totals of c are zero. *)
Example summary_ranking :
  exists s,
    fetch_get Samples.Number_on_digits
      (Samples.get_request "/api/reports/summary" (Some "5"%string))
      Samples.now Samples.listings_db
    = inr {| status := 200; body := SummaryBody s |}
    /\ map (fun it => slug (item_company it)) (items s)
       = ["b"; "a"; "c"]%string
    /\ map (fun it => views_profile (item_totals it)) (items s) = [30; 10; 0]
    /\ map item_totals (skipn 2 (items s)) = [emptyTotals].
Proof. eexists. repeat split. Qed.

Lemma summary_items_witness :
  NoDup (map D1.id (D1.companies Samples.listings_db))
  /\ Permutation
       (map (fun it => id (item_company it))
          (items (summary Samples.listings_db
                    {| from := "2026-10-29"; to := "2026-11-02";
                       days := Js.Int 5 |})))
       (map D1.id (D1.companies Samples.listings_db))
  /\ (exists it,
        In it (items (summary Samples.listings_db
                        {| from := "2026-10-29"; to := "2026-11-02";
                           days := Js.Int 5 |}))
        /\ describes (Samples.listing 3 "c") (item_company it)
        /\ item_totals it = zero_totals)
  /\ Sorted not_fewer_views
       (items (summary Samples.listings_db
                 {| from := "2026-10-29"; to := "2026-11-02";
                    days := Js.Int 5 |})).
Proof.
  assert (N : NoDup (map D1.id (D1.companies Samples.listings_db))).
  { cbn. repeat constructor; cbn; intuition discriminate. }
  split; [exact N|].
  pose proof (summary_items Samples.listings_db
                {| from := "2026-10-29"; to := "2026-11-02";
                   days := Js.Int 5 |} N) as (P & E & _ & S).
  split; [exact P|]. split; [|exact S].
  destruct (E (Samples.listing 3 "c")) as (it & Hin & D & _ & Hz).
  - right. right. now left.
  - exists it. split; [exact Hin|]. split; [exact D|]. now apply Hz.
Defined.

End ReportFacts.

(** * Further properties of the consumer and of the table *)

Module DeliveryFacts.
Import EventsConsumer ConsumerSpec DeliverySpec.

(** ** The keys of the dictionary *)

Lemma get_none_iff (k : string) (aggs : Aggregates) :
  get k aggs = None <-> ~ In k (map fst aggs).
Proof.
  induction aggs as [|[k0 a] rest IH]; cbn [get map fst In].
  - tauto.
  - destruct (String.eqb_spec k0 k) as [->|N].
    + split; [discriminate | tauto].
    + rewrite IH. tauto.
Qed.

Lemma map_fst_mutate (k : string) (f : Aggregate -> Aggregate)
      (aggs : Aggregates) :
  map fst (mutate k f aggs) = map fst aggs.
Proof.
  induction aggs as [|[k0 a] rest IH]; cbn [mutate map fst]; [reflexivity|].
  destruct (String.eqb k0 k); cbn [map fst]; [reflexivity | now rewrite IH].
Qed.

Lemma companyId_count_event (ty : Js.value) (a : Aggregate) :
  companyId (count_event ty a) = companyId a.
Proof.
  unfold count_event. destruct (classify ty); [|reflexivity].
  apply ConsumerFacts.companyId_increment.
Qed.

Lemma date_count_event (ty : Js.value) (a : Aggregate) :
  date (count_event ty a) = date a.
Proof.
  unfold count_event. destruct (classify ty); [|reflexivity].
  apply ConsumerFacts.date_increment.
Qed.

Lemma Forall_mutate (P : string * Aggregate -> Prop) (k : string)
      (f : Aggregate -> Aggregate) (aggs : Aggregates) :
  (forall k0 a, P (k0, a) -> P (k0, f a)) ->
  Forall P aggs -> Forall P (mutate k f aggs).
Proof.
  intros Hf. induction 1 as [|[k0 a] rest Hp Hrest IH]; cbn [mutate].
  - constructor.
  - destruct (String.eqb k0 k); constructor; auto.
Qed.

Lemma step_keys (aggs : Aggregates) (msg : Message) :
  map fst (step aggs msg) = note_key (map fst aggs) msg.
Proof.
  unfold step, note_key, event_key.
  destruct (admitted (body msg)) as [c|]; [|reflexivity].
  cbv zeta. rewrite map_fst_mutate. unfold ensure.
  set (k := make_key (QueueEvent.companyId (body msg)) (Js.slice_to 10 c)).
  destruct (get k aggs) as [a|] eqn:G.
  - assert (E : existsb (String.eqb k) (map fst aggs) = true).
    { apply existsb_exists. exists k. split; [|apply String.eqb_refl].
      destruct (in_dec string_dec k (map fst aggs)) as [I|I]; [exact I|].
      apply get_none_iff in I. congruence. }
    now rewrite E.
  - assert (E : existsb (String.eqb k) (map fst aggs) = false).
    { destruct (existsb _ _) eqn:X; [|reflexivity].
      apply existsb_exists in X as (x & Hx & Ex).
      apply String.eqb_eq in Ex. subst x.
      apply get_none_iff in G. contradiction. }
    rewrite E, map_app. reflexivity.
Qed.

(** X2.  [Object.keys(aggregates)] lists the keys of the events that pass
    the guard, each once, in the order of their first occurrence in the
    batch: this is the order in which the deltas are written. *)
Theorem keys_in_first_occurrence_order (msgs : list Message) :
  map fst (aggregate msgs) = first_keys msgs.
Proof.
  unfold aggregate, aggregate_from, first_keys.
  change (@nil string) with (map fst (@nil (string * Aggregate))).
  generalize (@nil (string * Aggregate)) as aggs.
  induction msgs as [|m rest IH]; intros aggs; cbn [fold_left].
  - reflexivity.
  - rewrite IH, step_keys. reflexivity.
Qed.

Lemma step_invariant (aggs : Aggregates) (msg : Message) :
  NoDup (map fst aggs) /\ well_keyed aggs ->
  NoDup (map fst (step aggs msg)) /\ well_keyed (step aggs msg).
Proof.
  intros [N W]. split.
  - rewrite step_keys. unfold note_key.
    destruct (event_key msg) as [k|]; [|exact N].
    destruct (existsb (String.eqb k) (map fst aggs)) eqn:E; [exact N|].
    apply NoDup_app; [exact N | repeat constructor; intros [] | ].
    intros x Hx [Ek | []]. subst x.
    assert (X : existsb (String.eqb k) (map fst aggs) = true).
    { apply existsb_exists. exists k. split; [exact Hx|].
      apply String.eqb_refl. }
    congruence.
  - unfold step. destruct (admitted (body msg)) as [c|]; [|exact W].
    cbv zeta. apply Forall_mutate.
    + intros k0 a H. cbn [fst snd] in *.
      now rewrite companyId_count_event, date_count_event.
    + unfold ensure. destruct (get _ aggs); [exact W|].
      apply Forall_app. split; [exact W|].
      constructor; [reflexivity | constructor].
Qed.

Lemma aggregate_invariant (msgs : list Message) :
  NoDup (map fst (aggregate msgs)) /\ well_keyed (aggregate msgs).
Proof.
  unfold aggregate, aggregate_from.
  assert (I : NoDup (map fst (@nil (string * Aggregate)))
              /\ well_keyed (@nil (string * Aggregate)))
    by (split; constructor).
  revert I. generalize (@nil (string * Aggregate)) as aggs.
  induction msgs as [|m rest IH]; intros aggs I; cbn [fold_left].
  - exact I.
  - apply IH. now apply step_invariant.
Qed.

Lemma deltas_distinct_rows (msgs : list Message) :
  NoDup (map (fun a => row_key (bind a)) (deltas msgs)).
Proof.
  destruct (aggregate_invariant msgs) as [N W].
  unfold deltas. rewrite map_map.
  assert (E : map fst (aggregate msgs)
              = map (fun k => make_key (fst k) (snd k))
                  (map (fun p => row_key (bind (snd p))) (aggregate msgs))).
  { rewrite map_map. apply map_ext_in. intros p Hp.
    unfold well_keyed in W. rewrite Forall_forall in W.
    exact (W p Hp). }
  rewrite E in N. exact (NoDup_map_inv _ _ N).
Qed.

(** X1.  The dictionary holds one delta per key, every delta is filed
    under the key of its own [companyId] and [date], and so no two deltas
    of a batch are written to the same (company_id, date) row. *)
Theorem one_delta_per_row (msgs : list Message) :
  NoDup (map fst (aggregate msgs))
  /\ (forall k a, In (k, a) (aggregate msgs) ->
        k = make_key (companyId a) (date a))
  /\ NoDup (map (fun a => row_key (bind a)) (deltas msgs)).
Proof.
  destruct (aggregate_invariant msgs) as [N W].
  split; [exact N|]. split.
  - intros k a Hin. unfold well_keyed in W. rewrite Forall_forall in W.
    exact (W (k, a) Hin).
  - apply deltas_distinct_rows.
Qed.

(** ** No valid event is lost or counted twice *)

Lemma total_increment (t : EventType) (a : Aggregate) :
  total (increment t a) = total a + 1.
Proof. destruct a, t; unfold total; cbn; lia. Qed.

Lemma total_count_event (ty : Js.value) (a : Aggregate) :
  total (count_event ty a)
  = total a + match classify ty with Some _ => 1 | None => 0 end.
Proof.
  unfold count_event. destruct (classify ty); [apply total_increment | lia].
Qed.

Lemma grand_total_app (l1 l2 : Aggregates) :
  grand_total (l1 ++ l2) = grand_total l1 + grand_total l2.
Proof.
  unfold grand_total. induction l1 as [|p l1 IH]; cbn [app fold_right]; lia.
Qed.

Lemma grand_total_mutate (k : string) (f : Aggregate -> Aggregate)
      (aggs : Aggregates) (a : Aggregate) :
  get k aggs = Some a ->
  grand_total (mutate k f aggs) = grand_total aggs - total a + total (f a).
Proof.
  unfold grand_total.
  induction aggs as [|[k0 a0] rest IH]; cbn [get mutate]; [discriminate|].
  destruct (String.eqb k0 k); cbn [fold_right snd].
  - intros [= ->]. lia.
  - intros G. rewrite (IH G). lia.
Qed.

Lemma grand_total_step (aggs : Aggregates) (msg : Message) :
  grand_total (step aggs msg)
  = grand_total aggs + (if valid msg then 1 else 0).
Proof.
  unfold step, valid. destruct (admitted (body msg)) as [c|]; [|lia].
  cbv zeta.
  set (cid := QueueEvent.companyId (body msg)).
  set (d := Js.slice_to 10 c). set (k := make_key cid d).
  assert (G : exists a,
             get k (ensure k cid d aggs) = Some a
             /\ grand_total (ensure k cid d aggs) = grand_total aggs
             /\ (get k aggs = None -> total a = 0)).
  { rewrite ConsumerFacts.get_ensure. unfold ensure.
    destruct (get k aggs) as [a|] eqn:E.
    - exists a. repeat split. discriminate.
    - rewrite String.eqb_refl. exists (fresh cid d). split; [reflexivity|].
      split; [|reflexivity].
      rewrite grand_total_app. unfold grand_total at 2.
      cbn [fold_right snd]. unfold total. cbn. lia. }
  destruct G as (a & Ga & Gt & _).
  rewrite (grand_total_mutate _ _ _ _ Ga), Gt, total_count_event.
  destruct (classify (QueueEvent.type (body msg))); lia.
Qed.

(** X3.  The counters of all the deltas of a batch add up to the number of
    valid events of the batch: every valid event is counted, once, and
    nothing else is. *)
Theorem valid_events_counted_once (msgs : list Message) :
  grand_total (aggregate msgs) = count_valid msgs.
Proof.
  unfold aggregate, aggregate_from, count_valid.
  assert (G : forall aggs,
             grand_total (fold_left step msgs aggs)
             = grand_total aggs
               + Z.of_nat (List.length (filter valid msgs))).
  { induction msgs as [|m rest IH]; intros aggs; cbn [fold_left filter].
    - cbn. lia.
    - rewrite IH, grand_total_step.
      destruct (valid m); cbn [List.length]; lia. }
  rewrite G. cbn. lia.
Qed.

(** ** Batches without an event to count *)

Lemma aggregate_all_skipped (msgs : list Message) :
  Forall (fun m => passes_guard m = false) msgs -> aggregate msgs = [].
Proof.
  intros H. unfold aggregate.
  rewrite ConsumerFacts.aggregate_from_guard.
  assert (E : filter passes_guard msgs = []).
  { induction H as [|m rest Hm _ IH]; cbn [filter]; [reflexivity|].
    now rewrite Hm. }
  now rewrite E.
Qed.

(** X4.  A batch in which no event passes the required-field guard (an
    empty batch, or a batch object without [messages], included) runs no
    statement at all: whatever the state of the store, the database is left
    as it was, every message is acknowledged and the run resolves. *)
Theorem skipped_batch_touches_no_store (batch : MessageBatch) (db : D1.t) :
  Forall (fun m => passes_guard m = false) (messages_of batch) ->
  db_after (queue batch db) = db
  /\ effects (queue batch db)
     = map (fun m => Acked (id m)) (messages_of batch)
  /\ settled (queue batch db) = inr tt.
Proof.
  intros H. unfold queue. fold (messages_of batch).
  rewrite (aggregate_all_skipped _ H). cbn [write_all db_after effects
    settled app]. repeat split.
Qed.

Lemma skipped_batch_touches_no_store_witness :
  Forall (fun m => passes_guard m = false) [Samples.zero_id]
  /\ db_after (queue {| messages := Some [Samples.zero_id] |}
                 (Samples.empty_db [Some "D1_ERROR"%string]))
     = Samples.empty_db [Some "D1_ERROR"%string]
  /\ settled (queue {| messages := Some [Samples.zero_id] |}
                (Samples.empty_db [Some "D1_ERROR"%string]))
     = inr tt.
Proof.
  assert (H : Forall (fun m => passes_guard m = false)
                (messages_of {| messages := Some [Samples.zero_id] |}))
    by (repeat constructor).
  split; [exact H|].
  pose proof (skipped_batch_touches_no_store
                {| messages := Some [Samples.zero_id] |}
                (Samples.empty_db [Some "D1_ERROR"%string]) H)
    as (D & _ & S).
  split; [exact D | exact S].
Defined.

(** ** The additive upsert and the unique index *)

Lemma value_eqb_eq (a b : Js.value) : D1.value_eqb a b = true <-> a = b.
Proof.
  destruct a as [| |x|[| | |x]|x], b as [| |y|[| | |y]|y];
    cbn [D1.value_eqb]; split; try congruence; try discriminate.
  - intros E. apply Bool.eqb_prop in E. now subst.
  - intros [= ->]. apply Bool.eqb_reflx.
  - intros E. apply Z.eqb_eq in E. now subst.
  - intros [= ->]. apply Z.eqb_refl.
  - intros E. apply String.eqb_eq in E. now subst.
  - intros [= ->]. apply String.eqb_refl.
Qed.

Lemma same_key_iff (r e : D1.StatsRow) :
  D1.same_key r e = true <-> row_key r = row_key e.
Proof.
  unfold D1.same_key, row_key.
  rewrite andb_true_iff, value_eqb_eq, String.eqb_eq.
  split; [intros [-> ->]; reflexivity | intros [= -> ->]; now split].
Qed.

Lemma same_key_trans (r x e : D1.StatsRow) :
  D1.same_key x e = true -> D1.same_key r e = D1.same_key r x.
Proof.
  intros H. apply same_key_iff in H.
  destruct (D1.same_key r e) eqn:A, (D1.same_key r x) eqn:B;
    try reflexivity; exfalso.
  - apply same_key_iff in A.
    assert (C : D1.same_key r x = true) by (apply same_key_iff; congruence).
    congruence.
  - apply same_key_iff in B.
    assert (C : D1.same_key r e = true) by (apply same_key_iff; congruence).
    congruence.
Qed.

Lemma same_key_sym (x e : D1.StatsRow) :
  D1.same_key x e = D1.same_key e x.
Proof.
  destruct (D1.same_key x e) eqn:A, (D1.same_key e x) eqn:B;
    try reflexivity; exfalso.
  - apply same_key_iff in A.
    assert (C : D1.same_key e x = true) by (now apply same_key_iff).
    congruence.
  - apply same_key_iff in B.
    assert (C : D1.same_key x e = true) by (now apply same_key_iff).
    congruence.
Qed.

Lemma sql_add_assoc (a b c : option Z) :
  D1.sql_add (D1.sql_add a b) c = D1.sql_add a (D1.sql_add b c).
Proof.
  destruct a, b, c; cbn [D1.sql_add]; try reflexivity. f_equal. lia.
Qed.

Lemma merge_assoc (r x e : D1.StatsRow) :
  D1.merge (D1.merge r x) e = D1.merge r (D1.merge x e).
Proof.
  unfold D1.merge. cbn. now rewrite !sql_add_assoc.
Qed.

(** Two upserts under one key are one upsert of their sum. *)
Lemma upsert_twice (rows : list D1.StatsRow) (x e : D1.StatsRow) :
  D1.same_key x e = true ->
  D1.upsert (D1.upsert rows x) e = D1.upsert rows (D1.merge x e).
Proof.
  intros K. induction rows as [|r rest IH]; cbn [D1.upsert].
  - now rewrite K.
  - change (D1.same_key r (D1.merge x e)) with (D1.same_key r x).
    destruct (D1.same_key r x) eqn:A; cbn [D1.upsert].
    + change (D1.same_key (D1.merge r x) e) with (D1.same_key r e).
      rewrite (same_key_trans r x e K), A. now rewrite merge_assoc.
    + rewrite (same_key_trans r x e K), A. now rewrite IH.
Qed.

(** Upserts under different keys commute once the row of one of them
    exists. *)
Lemma upsert_comm (rows : list D1.StatsRow) (x e : D1.StatsRow) :
  find_row rows e <> None ->
  D1.same_key x e = false ->
  D1.upsert (D1.upsert rows x) e = D1.upsert (D1.upsert rows e) x.
Proof.
  intros F K. unfold find_row in F.
  induction rows as [|r rest IH]; cbn [find D1.upsert] in *; [congruence|].
  destruct (D1.same_key r e) eqn:A.
  - assert (B : D1.same_key r x = false).
    { destruct (D1.same_key r x) eqn:B; [|reflexivity].
      apply same_key_iff in A. apply same_key_iff in B.
      assert (C : D1.same_key x e = true)
        by (apply same_key_iff; congruence).
      congruence. }
    rewrite B. cbn [D1.upsert]. rewrite A.
    change (D1.same_key (D1.merge r e) x) with (D1.same_key r x).
    now rewrite B.
  - destruct (D1.same_key r x) eqn:B; cbn [D1.upsert].
    + change (D1.same_key (D1.merge r x) e) with (D1.same_key r e).
      now rewrite A, B.
    + rewrite A, B. now rewrite (IH F).
Qed.

Lemma find_row_upsert (rows : list D1.StatsRow) (e probe : D1.StatsRow) :
  find_row (D1.upsert rows e) probe
  = if D1.same_key e probe
    then Some match find_row rows e with
              | Some r => D1.merge r e
              | None => e
              end
    else find_row rows probe.
Proof.
  unfold find_row.
  induction rows as [|r rest IH]; cbn [D1.upsert find].
  - destruct (D1.same_key e probe); reflexivity.
  - destruct (D1.same_key r e) eqn:A; cbn [find].
    + change (D1.same_key (D1.merge r e) probe) with (D1.same_key r probe).
      destruct (D1.same_key e probe) eqn:B.
      * now rewrite (same_key_trans r e probe B), A.
      * destruct (D1.same_key r probe) eqn:C; [|reflexivity].
        apply same_key_iff in A. apply same_key_iff in C.
        assert (D : D1.same_key e probe = true)
          by (apply same_key_iff; congruence).
        congruence.
    + destruct (D1.same_key r probe) eqn:C.
      * destruct (D1.same_key e probe) eqn:B; [|reflexivity].
        rewrite (same_key_trans r e probe B) in C. congruence.
      * exact IH.
Qed.

Lemma map_row_key_upsert (rows : list D1.StatsRow) (e : D1.StatsRow) :
  map row_key (D1.upsert rows e)
  = match find_row rows e with
    | Some _ => map row_key rows
    | None => map row_key rows ++ [row_key e]
    end.
Proof.
  unfold find_row. induction rows as [|r rest IH]; cbn [D1.upsert find map].
  - reflexivity.
  - destruct (D1.same_key r e); cbn [map app]; [reflexivity|].
    rewrite IH. now destruct (find _ rest).
Qed.

Lemma find_row_none (rows : list D1.StatsRow) (e : D1.StatsRow) :
  find_row rows e = None -> ~ In (row_key e) (map row_key rows).
Proof.
  unfold find_row. intros F Hin.
  apply in_map_iff in Hin as (r & Hk & Hr).
  apply (find_none _ _ F) in Hr.
  assert (K : D1.same_key r e = true) by now apply same_key_iff.
  congruence.
Qed.

Lemma upsert_unique (rows : list D1.StatsRow) (e : D1.StatsRow) :
  unique_keys rows -> unique_keys (D1.upsert rows e).
Proof.
  unfold unique_keys. intros N. rewrite map_row_key_upsert.
  destruct (find_row rows e) eqn:F; [exact N|].
  apply NoDup_app; [exact N | repeat constructor; intros [] |].
  intros k Hk [Ek | []]. subst k. exact (find_row_none _ _ F Hk).
Qed.

Lemma table_after_unique (aggs : list Aggregate) :
  forall rows, unique_keys rows -> unique_keys (table_after rows aggs).
Proof.
  unfold table_after.
  induction aggs as [|a rest IH]; intros rows U; cbn [map fold_left].
  - exact U.
  - apply IH. now apply upsert_unique.
Qed.

(** Whatever happens to the statements, the table holds the upserts of a
    prefix of the aggregates. *)
Lemma write_all_table (aggs : Aggregates) :
  forall db,
  exists n,
    D1.company_daily_stats (fst (fst (write_all db aggs)))
    = table_after (D1.company_daily_stats db) (firstn n (map snd aggs)).
Proof.
  induction aggs as [|[k a] rest IH]; intros db.
  - exists 0%nat. reflexivity.
  - cbn [write_all]. unfold D1.run_upsert.
    destruct (D1.pending db) as [|[e|] p].
    + destruct (IH {| D1.companies := D1.companies db;
                      D1.company_daily_stats :=
                        D1.upsert (D1.company_daily_stats db) (bind a);
                      D1.pending := tl [] |}) as [n E].
      destruct (write_all _ rest) as [[db' ef] r]. exists (S n). exact E.
    + exists 0%nat. reflexivity.
    + destruct (IH {| D1.companies := D1.companies db;
                      D1.company_daily_stats :=
                        D1.upsert (D1.company_daily_stats db) (bind a);
                      D1.pending := tl (None :: p) |}) as [n E].
      destruct (write_all _ rest) as [[db' ef] r]. exists (S n). exact E.
Qed.

Lemma queue_table (batch : MessageBatch) (db : D1.t) :
  exists n,
    D1.company_daily_stats (db_after (queue batch db))
    = table_after (D1.company_daily_stats db)
        (firstn n (deltas (messages_of batch))).
Proof.
  unfold queue, deltas. fold (messages_of batch).
  destruct (write_all_table (aggregate (messages_of batch)) db) as [n E].
  exists n. destruct (write_all db _) as [[db' ef] [err|[]]]; exact E.
Qed.

(** X5.  Whether a run resolves or fails part way, it keeps the unique
    index of the table (no two rows under one (company_id, date)) and it
    deletes no row: a key that had a row still has one. *)
Theorem queue_keeps_unique_index (batch : MessageBatch) (db : D1.t) :
  unique_keys (D1.company_daily_stats db) ->
  unique_keys (D1.company_daily_stats (db_after (queue batch db)))
  /\ (forall probe,
         find_row (D1.company_daily_stats db) probe <> None ->
         find_row (D1.company_daily_stats (db_after (queue batch db))) probe
         <> None).
Proof.
  intros U. destruct (queue_table batch db) as [n E]. rewrite E. split.
  - now apply table_after_unique.
  - intros probe F.
    destruct (find_row (D1.company_daily_stats db) probe) as [r|] eqn:G;
      [|congruence].
    unfold find_row in G. apply find_some in G as [Hin Hk].
    destruct (ConsumerFacts.table_after_keeps
                (firstn n (deltas (messages_of batch)))
                (D1.company_daily_stats db) probe)
      as (r' & Hin' & Hk'); [now exists r|].
    unfold find_row.
    destruct (find _ _) eqn:X; [discriminate|].
    apply (find_none _ _ X) in Hin'. congruence.
Qed.

(** ** The rows after a run *)

Lemma table_after_find_other (aggs : list Aggregate) :
  forall rows probe,
    (forall a, In a aggs -> D1.same_key (bind a) probe = false) ->
    find_row (table_after rows aggs) probe = find_row rows probe.
Proof.
  unfold table_after.
  induction aggs as [|a0 rest IH]; intros rows probe H; cbn [map fold_left].
  - reflexivity.
  - rewrite IH by (intros a Ha; apply H; now right).
    rewrite find_row_upsert, (H a0) by now left. reflexivity.
Qed.

Lemma distinct_rows_cons (a0 : Aggregate) (rest : list Aggregate) :
  NoDup (map (fun a => row_key (bind a)) (a0 :: rest)) ->
  forall a, In a rest -> D1.same_key (bind a) (bind a0) = false.
Proof.
  cbn [map]. intros N a Ha. apply NoDup_cons_iff in N as [Hn _].
  destruct (D1.same_key (bind a) (bind a0)) eqn:K; [|reflexivity].
  exfalso. apply Hn. apply same_key_iff in K. rewrite <- K.
  now apply (in_map (fun a => row_key (bind a))).
Qed.

Lemma table_after_find (aggs : list Aggregate) :
  forall rows,
    NoDup (map (fun a => row_key (bind a)) aggs) ->
    forall a, In a aggs ->
      find_row (table_after rows aggs) (bind a)
      = Some match find_row rows (bind a) with
             | Some r => D1.merge r (bind a)
             | None => bind a
             end.
Proof.
  induction aggs as [|a0 rest IH]; intros rows N a Ha; [destruct Ha|].
  pose proof (distinct_rows_cons a0 rest N) as D.
  change (table_after rows (a0 :: rest))
    with (table_after (D1.upsert rows (bind a0)) rest).
  destruct Ha as [<- | Ha].
  - rewrite table_after_find_other by exact D.
    rewrite find_row_upsert, ConsumerFacts.same_key_refl. reflexivity.
  - cbn [map] in N. apply NoDup_cons_iff in N as [_ N].
    rewrite (IH _ N a Ha), find_row_upsert.
    rewrite same_key_sym, (D a Ha). reflexivity.
Qed.

(** X6.  After a run whose statements commit, the row of every delta holds
    the counters it had before plus the delta (the delta itself when the
    key had no row), and the row of any key the batch has no delta for is
    as it was.  The sum is the SQL sum of the statement: a counter that
    held NULL still holds NULL. *)
Theorem committed_batch_rows (batch : MessageBatch) (db : D1.t) :
  writes_commit db (List.length (deltas (messages_of batch))) = true ->
  let before := D1.company_daily_stats db in
  let after := D1.company_daily_stats (db_after (queue batch db)) in
  (forall a, In a (deltas (messages_of batch)) ->
     find_row after (bind a)
     = Some match find_row before (bind a) with
            | Some r => D1.merge r (bind a)
            | None => bind a
            end)
  /\ (forall probe,
        (forall a, In a (deltas (messages_of batch)) ->
                   D1.same_key (bind a) probe = false) ->
        find_row after probe = find_row before probe).
Proof.
  intros W before after. subst before after.
  destruct (ConsumerFacts.queue_commits batch db W) as (_ & _ & _ & T).
  rewrite T. split.
  - intros a Ha. apply table_after_find; [apply deltas_distinct_rows|exact Ha].
  - intros probe H. now apply table_after_find_other.
Qed.

(** ** A batch and its events taken one at a time *)

Lemma mutate_absent (k : string) (f : Aggregate -> Aggregate)
      (aggs : Aggregates) :
  get k aggs = None -> mutate k f aggs = aggs.
Proof.
  induction aggs as [|[k0 a] rest IH]; cbn [get mutate]; [reflexivity|].
  destruct (String.eqb k0 k); [discriminate|].
  intros G. now rewrite IH.
Qed.

Lemma mutate_app (k : string) (f : Aggregate -> Aggregate)
      (l1 l2 : Aggregates) :
  get k l1 = None -> mutate k f (l1 ++ l2) = l1 ++ mutate k f l2.
Proof.
  induction l1 as [|[k0 a] rest IH]; cbn [get mutate app]; [reflexivity|].
  destruct (String.eqb k0 k); [discriminate|].
  intros G. now rewrite IH.
Qed.

Lemma mutate_split (k : string) (f : Aggregate -> Aggregate)
      (aggs : Aggregates) (a0 : Aggregate) :
  get k aggs = Some a0 ->
  exists l1 l2,
    aggs = l1 ++ (k, a0) :: l2
    /\ mutate k f aggs = l1 ++ (k, f a0) :: l2.
Proof.
  induction aggs as [|[k0 a] rest IH]; cbn [get mutate]; [discriminate|].
  destruct (String.eqb_spec k0 k) as [->|N].
  - intros [= ->]. now exists [], rest.
  - intros G. destruct (IH G) as (l1 & l2 & E1 & E2).
    exists ((k0, a) :: l1), l2. cbn [app]. now rewrite <- E1, E2.
Qed.

Lemma bind_count_event (ty : Js.value) (a : Aggregate) :
  D1.merge (bind a) (bind (count_event ty (fresh (companyId a) (date a))))
  = bind (count_event ty a).
Proof.
  unfold count_event.
  destruct (classify ty) as [t|]; destruct a; [destruct t|];
    unfold D1.merge, bind; cbn; repeat f_equal; lia.
Qed.

Lemma table_after_push (l : list Aggregate) :
  forall rows e,
    find_row rows e <> None ->
    (forall a, In a l -> D1.same_key (bind a) e = false) ->
    table_after (D1.upsert rows e) l = D1.upsert (table_after rows l) e.
Proof.
  unfold table_after.
  induction l as [|a rest IH]; intros rows e F H; cbn [map fold_left].
  - reflexivity.
  - rewrite <- upsert_comm by (auto; apply H; now left).
    apply IH.
    + rewrite find_row_upsert. destruct (D1.same_key (bind a) e); congruence.
    + intros x Hx. apply H. now right.
Qed.

Lemma table_after_app (l1 l2 : list Aggregate) (rows : list D1.StatsRow) :
  table_after rows (l1 ++ l2) = table_after (table_after rows l1) l2.
Proof. unfold table_after. now rewrite map_app, fold_left_app. Qed.

Lemma admitted_typed_number (msg : Message) (c : string) :
  typed msg = true ->
  admitted (body msg) = Some c ->
  exists n, QueueEvent.companyId (body msg) = Js.VNumber n.
Proof.
  unfold typed, admitted.
  destruct (QueueEvent.companyId (body msg)) as [| |b|n|s]; intros T A;
    try (apply negb_true_iff in T; rewrite T in A; discriminate).
  now exists n.
Qed.

(** One iteration of the loop changes the table to be written as the
    upsert of the event on its own does. *)
Lemma step_table (rows : list D1.StatsRow) (aggs : Aggregates)
      (msg : Message) :
  NoDup (map fst aggs) -> well_keyed aggs -> numeric_ids aggs ->
  typed msg = true ->
  table_after rows (map snd (step aggs msg))
  = apply_event (table_after rows (map snd aggs)) msg.
Proof.
  intros N W Q T. unfold step, apply_event, unit_delta.
  destruct (admitted (body msg)) as [c|] eqn:A; [|reflexivity].
  cbv zeta.
  destruct (admitted_typed_number msg c T A) as [n Hn].
  set (cid := QueueEvent.companyId (body msg)) in *.
  set (d := Js.slice_to 10 c). set (k := make_key cid d).
  set (ty := QueueEvent.type (body msg)).
  unfold ensure. destruct (get k aggs) as [a0|] eqn:G.
  - destruct (mutate_split k (count_event ty) aggs a0 G)
      as (l1 & l2 & E1 & E2).
    rewrite E2. subst aggs.
    unfold well_keyed, numeric_ids in *.
    rewrite Forall_app in W, Q.
    destruct W as [_ W], Q as [_ Q].
    inversion W as [|? ? Wk Wl2]; subst.
    inversion Q as [|? ? [n0 Qn] _]; subst.
    cbn [fst snd] in Wk, Qn.
    assert (Ea : companyId a0 = cid /\ date a0 = d).
    { unfold k in Wk. rewrite Qn, Hn in Wk.
      apply ConsumerFacts.make_key_number_inj in Wk as [-> ->].
      now rewrite Qn, Hn. }
    destruct Ea as [Ec Ed].
    rewrite !map_app. cbn [map snd]. rewrite !table_after_app.
    set (R1 := table_after rows (map snd l1)).
    change (table_after R1 (count_event ty a0 :: map snd l2))
      with (table_after (D1.upsert R1 (bind (count_event ty a0)))
              (map snd l2)).
    change (table_after R1 (a0 :: map snd l2))
      with (table_after (D1.upsert R1 (bind a0)) (map snd l2)).
    assert (S : D1.same_key (bind a0) (bind (count_event ty (fresh cid d)))
                = true).
    { apply same_key_iff. unfold row_key, bind. cbn.
      now rewrite companyId_count_event, date_count_event, Ec, Ed. }
    rewrite <- bind_count_event, Ec, Ed.
    rewrite <- upsert_twice by exact S.
    apply table_after_push.
    + rewrite find_row_upsert, S. discriminate.
    + intros a Ha. apply in_map_iff in Ha as ([k' a'] & <- & Hin).
      cbn [snd].
      destruct (D1.same_key (bind a')
                  (bind (count_event ty (fresh cid d)))) eqn:K;
        [|reflexivity].
      exfalso. apply same_key_iff in K. unfold row_key, bind in K.
      cbn in K. rewrite companyId_count_event, date_count_event in K.
      cbn in K. injection K as Kc Kd.
      rewrite Forall_forall in Wl2. pose proof (Wl2 _ Hin) as Wa.
      cbn [fst snd] in Wa. rewrite Kc, Kd in Wa. fold k in Wa. subst k'.
      rewrite map_app in N. cbn [map fst] in N.
      apply NoDup_remove_2 in N. apply N, in_or_app. right.
      now apply (in_map fst) in Hin.
  - rewrite (mutate_app _ _ _ _ G). cbn [mutate].
    rewrite String.eqb_refl, map_app. cbn [map snd].
    rewrite table_after_app. reflexivity.
Qed.

Lemma step_numeric (aggs : Aggregates) (msg : Message) :
  typed msg = true -> numeric_ids aggs -> numeric_ids (step aggs msg).
Proof.
  intros T Q. unfold step.
  destruct (admitted (body msg)) as [c|] eqn:A; [|exact Q].
  cbv zeta. apply Forall_mutate.
  - intros k0 a [n H]. exists n. cbn [snd] in *.
    now rewrite companyId_count_event.
  - unfold ensure. destruct (get _ aggs); [exact Q|].
    apply Forall_app. split; [exact Q|].
    constructor; [|constructor].
    exact (admitted_typed_number msg c T A).
Qed.

Lemma table_event_by_event (rows : list D1.StatsRow) (msgs : list Message) :
  Forall (fun m => typed m = true) msgs ->
  table_after rows (deltas msgs) = fold_left apply_event msgs rows.
Proof.
  intros T. unfold deltas, aggregate, aggregate_from.
  assert (G : forall aggs,
             NoDup (map fst aggs) -> well_keyed aggs -> numeric_ids aggs ->
             table_after rows (map snd (fold_left step msgs aggs))
             = fold_left apply_event msgs
                 (table_after rows (map snd aggs))).
  { induction T as [|m rest Tm _ IH]; intros aggs N W Q; cbn [fold_left].
    - reflexivity.
    - destruct (step_invariant aggs m (conj N W)) as [N' W'].
      rewrite (IH _ N' W' (step_numeric aggs m Tm Q)).
      now rewrite (step_table rows aggs m N W Q Tm). }
  apply (G []); constructor.
Qed.

(** X7.  For events whose [companyId] is a number, a run whose statements
    commit leaves the table exactly as upserting the events one at a time
    would, each guard-passing event as a delta of its own, in the order of
    the batch: aggregating first changes no row, no counter and no row
    order. *)
Theorem batch_is_event_by_event (batch : MessageBatch) (db : D1.t) :
  Forall (fun m => typed m = true) (messages_of batch) ->
  writes_commit db (List.length (deltas (messages_of batch))) = true ->
  D1.company_daily_stats (db_after (queue batch db))
  = fold_left apply_event (messages_of batch) (D1.company_daily_stats db).
Proof.
  intros T W.
  destruct (ConsumerFacts.queue_commits batch db W) as (_ & _ & _ & E).
  rewrite E. now apply table_event_by_event.
Qed.

(** X8.  For events whose [companyId] is a number, delivering a batch in
    two runs that both commit leaves the table that one run of the whole
    batch leaves: how the transport cuts the events into batches does not
    show in the store. *)
Theorem split_delivery_same_table (msgs1 msgs2 : list Message) (db : D1.t) :
  Forall (fun m => typed m = true) msgs1 ->
  Forall (fun m => typed m = true) msgs2 ->
  let first := queue {| messages := Some msgs1 |} db in
  let second := queue {| messages := Some msgs2 |} (db_after first) in
  writes_commit db (List.length (deltas msgs1)) = true ->
  writes_commit (db_after first) (List.length (deltas msgs2)) = true ->
  D1.company_daily_stats (db_after second)
  = table_after (D1.company_daily_stats db) (deltas (msgs1 ++ msgs2)).
Proof.
  intros T1 T2 first second W1 W2. subst first second.
  destruct (ConsumerFacts.queue_commits {| messages := Some msgs2 |} _ W2)
    as (_ & _ & _ & E2).
  destruct (ConsumerFacts.queue_commits {| messages := Some msgs1 |} _ W1)
    as (_ & _ & _ & E1).
  unfold messages_of in E1, E2. cbn [messages] in E1, E2. rewrite E2, E1.
  rewrite !table_event_by_event by (try apply Forall_app; auto).
  now rewrite fold_left_app.
Qed.

(** ** Redelivery *)




(** ** The statements on sample batches *)

Lemma queue_keeps_unique_index_witness :
  unique_keys (D1.company_daily_stats Samples.listings_db)
  /\ unique_keys
       (D1.company_daily_stats
          (db_after (queue {| messages := Some Samples.interleaved |}
                       Samples.listings_db))).
Proof.
  assert (U : unique_keys (D1.company_daily_stats Samples.listings_db)).
  { unfold unique_keys. cbn.
    repeat constructor; cbn; intuition discriminate. }
  split; [exact U|].
  exact (proj1 (queue_keeps_unique_index
                  {| messages := Some Samples.interleaved |}
                  Samples.listings_db U)).
Defined.

Lemma committed_batch_rows_witness :
  writes_commit Samples.listings_db
    (List.length (deltas Samples.three_views)) = true
  /\ forall a, In a (deltas Samples.three_views) ->
       find_row
         (D1.company_daily_stats
            (db_after (queue {| messages := Some Samples.three_views |}
                         Samples.listings_db)))
         (bind a)
       = Some match find_row (D1.company_daily_stats Samples.listings_db)
                      (bind a) with
              | Some r => D1.merge r (bind a)
              | None => bind a
              end.
Proof.
  assert (W : writes_commit Samples.listings_db
                (List.length
                   (deltas (messages_of
                              {| messages := Some Samples.three_views |})))
              = true) by reflexivity.
  split; [exact W|].
  exact (proj1 (committed_batch_rows
                  {| messages := Some Samples.three_views |}
                  Samples.listings_db W)).
Defined.

Lemma batch_is_event_by_event_witness :
  Forall (fun m => typed m = true) Samples.interleaved
  /\ writes_commit Samples.listings_db
       (List.length (deltas Samples.interleaved)) = true
  /\ D1.company_daily_stats
       (db_after (queue {| messages := Some Samples.interleaved |}
                    Samples.listings_db))
     = fold_left apply_event Samples.interleaved
         (D1.company_daily_stats Samples.listings_db).
Proof.
  assert (T : Forall (fun m => typed m = true)
                (messages_of {| messages := Some Samples.interleaved |}))
    by (repeat constructor).
  assert (W : writes_commit Samples.listings_db
                (List.length
                   (deltas (messages_of
                              {| messages := Some Samples.interleaved |})))
              = true) by reflexivity.
  split; [exact T|]. split; [exact W|].
  exact (batch_is_event_by_event {| messages := Some Samples.interleaved |}
           Samples.listings_db T W).
Defined.

Lemma split_delivery_same_table_witness :
  Forall (fun m => typed m = true) Samples.others
  /\ Forall (fun m => typed m = true) Samples.interleaved
  /\ D1.company_daily_stats
       (db_after
          (queue {| messages := Some Samples.interleaved |}
             (db_after (queue {| messages := Some Samples.others |}
                          (Samples.empty_db [])))))
     = table_after [] (deltas (Samples.others ++ Samples.interleaved)).
Proof.
  assert (T1 : Forall (fun m => typed m = true) Samples.others)
    by (repeat constructor).
  assert (T2 : Forall (fun m => typed m = true) Samples.interleaved)
    by (repeat constructor).
  split; [exact T1|]. split; [exact T2|].
  exact (split_delivery_same_table Samples.others Samples.interleaved
           (Samples.empty_db []) T1 T2 eq_refl eq_refl).
Defined.


(** The run that failed at its second statement, redelivered: company 7
    has two views for one event, companies 8 and 9 have one. *)
Example redelivered_rows :
  map D1.views_profile
    (D1.company_daily_stats
       (db_after
          (queue {| messages := Some Samples.three_deltas |}
             (db_after
                (queue {| messages := Some Samples.three_deltas |}
                   (Samples.empty_db [None; Some "D1_ERROR"%string]))))))
  = [Some 2; Some 1; Some 1].
Proof. reflexivity. Qed.

End DeliveryFacts.

(** * Batches of events of unrecognized type *)

Module UnrecognizedFacts.
Import EventsConsumer ConsumerSpec DeliverySpec.

Lemma admitted_required (msg : Message) (c : string) :
  has_required_fields msg = true ->
  QueueEvent.createdAt (body msg) = Some c ->
  admitted (body msg) = Some c.
Proof.
  unfold has_required_fields, admitted. intros H E. rewrite E in *.
  apply andb_true_iff in H as [T N]. rewrite T.
  apply negb_true_iff in N. now rewrite N.
Qed.

Lemma classify_unrecognized (msg : Message) :
  unrecognized msg = true -> classify (QueueEvent.type (body msg)) = None.
Proof.
  unfold unrecognized, classify, recognized_names.
  destruct (QueueEvent.type (body msg)) as [| |b|n|t]; try reflexivity.
  cbn [existsb].
  repeat (destruct (String.eqb t _); [cbn [orb negb]; discriminate|]).
  reflexivity.
Qed.

Lemma get_In_pair (k : string) (a : Aggregate) (aggs : Aggregates) :
  get k aggs = Some a -> In (k, a) aggs.
Proof.
  induction aggs as [|[k0 a0] rest IH]; cbn [get].
  - discriminate.
  - destruct (String.eqb_spec k0 k) as [-> | N].
    + intros [= ->]. now left.
    + intros H. right. now apply IH.
Qed.

Lemma aggregate_numeric (msgs : list Message) :
  Forall (fun m => typed m = true) msgs -> numeric_ids (aggregate msgs).
Proof.
  unfold aggregate, aggregate_from.
  assert (I : numeric_ids (@nil (string * Aggregate))) by constructor.
  revert I. generalize (@nil (string * Aggregate)) as aggs.
  induction msgs as [|m rest IH]; intros aggs I T; cbn [fold_left].
  - exact I.
  - apply Forall_cons_iff in T as [Tm T].
    apply IH; [|exact T]. now apply DeliveryFacts.step_numeric.
Qed.

Lemma bind_zero_row (a : Aggregate) :
  zero_counters a -> bind a = zero_row (companyId a) (date a).
Proof.
  unfold zero_counters, bind, zero_row.
  intros (-> & -> & -> & -> & -> & -> & -> & ->). reflexivity.
Qed.

(** C9.  In a batch whose events all have both required fields but a type
    that is none of the eight names, every event still has a delta: one
    filed under the text of its entity id and day, which for ids of the
    declared type is a delta of the event's own (entity, day) pair.  The
    eight counters of that delta are zero.  When the statements commit, the
    delta is upserted, the table then holds a row of that (entity, day),
    and when it held none before, the row is new and its eight counters
    are zero. *)
Theorem unrecognized_batch_writes_zero_rows (batch : MessageBatch)
        (db : D1.t) :
  let msgs := messages_of batch in
  Forall (fun m => has_required_fields m = true /\ unrecognized m = true)
    msgs ->
  writes_commit db (List.length (deltas msgs)) = true ->
  forall m c,
    In m msgs ->
    QueueEvent.createdAt (body m) = Some c ->
    exists a,
      In a (deltas msgs)
      /\ (Js.to_string (companyId a) ++ ":" ++ date a)%string
         = (Js.to_string (QueueEvent.companyId (body m)) ++ ":"
            ++ Js.slice_to 10 c)%string
      /\ (Forall (fun x => typed x = true) msgs ->
          companyId a = QueueEvent.companyId (body m)
          /\ date a = Js.slice_to 10 c)
      /\ zero_counters a
      /\ In (Upserted a) (effects (queue batch db))
      /\ (exists r,
            In r (D1.company_daily_stats (db_after (queue batch db)))
            /\ D1.company_id r = companyId a
            /\ D1.date r = date a)
      /\ (no_row (D1.company_daily_stats db) (companyId a) (date a) ->
          In (zero_row (companyId a) (date a))
             (D1.company_daily_stats (db_after (queue batch db)))).
Proof.
  intros msgs Hall W m c Hin Hc.
  assert (A : admitted (body m) = Some c).
  { rewrite Forall_forall in Hall. destruct (Hall m Hin) as [R _].
    now apply admitted_required. }
  set (k := make_key (QueueEvent.companyId (body m)) (Js.slice_to 10 c)).
  assert (Hk : event_key m = Some k) by (unfold event_key; now rewrite A).
  destruct (get k (aggregate msgs)) as [a|] eqn:G.
  2:{ apply ConsumerFacts.get_aggregate_none in G.
      rewrite (ConsumerFacts.existsb_keyed k m msgs Hin Hk) in G.
      discriminate. }
  assert (Ha : In a (deltas msgs))
    by (unfold deltas; eapply ConsumerFacts.get_In; eauto).
  assert (Key : k = make_key (companyId a) (date a)).
  { destruct (DeliveryFacts.aggregate_invariant msgs) as [_ Wk].
    unfold well_keyed in Wk. rewrite Forall_forall in Wk.
    exact (Wk (k, a) (get_In_pair _ _ _ G)). }
  assert (Zero : zero_counters a).
  { assert (Z0 : forall t, counter t a = 0).
    { intros t. rewrite (ConsumerFacts.counter_tally k t msgs a G).
      apply ConsumerFacts.tally_no_valid.
      eapply Forall_impl; [|exact Hall].
      intros x [_ Hx]. unfold valid.
      rewrite (classify_unrecognized x Hx).
      now destruct (admitted (body x)). }
    unfold zero_counters.
    exact (conj (Z0 PROFILE_VIEW)
             (conj (Z0 SEARCH_IMPRESSION)
                (conj (Z0 MAP_IMPRESSION)
                   (conj (Z0 CLICK_PHONE)
                      (conj (Z0 CLICK_SITE)
                         (conj (Z0 CLICK_EMAIL)
                            (conj (Z0 CLICK_DIRECTIONS)
                               (Z0 FORM_SUBMIT)))))))). }
  destruct (ConsumerFacts.queue_commits batch db W) as (_ & U & _ & T).
  fold msgs in U, T.
  pose proof (DeliveryFacts.table_after_find (deltas msgs)
                (D1.company_daily_stats db)
                (DeliveryFacts.deltas_distinct_rows msgs) a Ha) as F.
  rewrite <- T in F.
  exists a. split; [exact Ha|]. split; [|split; [|split; [exact Zero|]]].
  - symmetry. exact Key.
  - intros Ty.
    pose proof (aggregate_numeric msgs Ty) as Q.
    unfold numeric_ids in Q. rewrite Forall_forall in Q.
    destruct (Q (k, a) (get_In_pair _ _ _ G)) as [n Hn]. cbn [snd] in Hn.
    rewrite Forall_forall in Ty.
    destruct (DeliveryFacts.admitted_typed_number m c (Ty m Hin) A)
      as [n' Hn'].
    unfold k in Key. rewrite Hn, Hn' in Key.
    apply ConsumerFacts.make_key_number_inj in Key as [-> ->].
    now rewrite Hn, Hn'.
  - split; [|split].
    + assert (I : In a (upserted (effects (queue batch db))))
        by (rewrite U; exact Ha).
      unfold upserted in I. apply in_flat_map in I as (e & He & Hae).
      destruct e as [a'|i]; [|destruct Hae].
      destruct Hae as [<- | []]. exact He.
    + unfold find_row in F. apply find_some in F as [Fin Fk].
      eexists. split; [exact Fin|].
      apply DeliveryFacts.same_key_iff in Fk. unfold row_key in Fk.
      cbn [bind D1.company_id D1.date] in Fk.
      injection Fk as Fc Fd. now split.
    + intros Hno.
      assert (Fb : find_row (D1.company_daily_stats db) (bind a) = None).
      { unfold find_row.
        destruct (find _ (D1.company_daily_stats db)) as [r|] eqn:E;
          [|reflexivity].
        apply find_some in E as [Ein Ek].
        apply DeliveryFacts.same_key_iff in Ek. unfold row_key in Ek.
        cbn [bind D1.company_id D1.date] in Ek.
        injection Ek as Ec Ed. now contradiction (Hno r Ein). }
      rewrite Fb in F. unfold find_row in F.
      apply find_some in F as [Fin _].
      now rewrite <- (bind_zero_row a Zero).
Qed.

Lemma unrecognized_batch_writes_zero_rows_witness :
  Forall (fun m => has_required_fields m = true /\ unrecognized m = true)
    Samples.unrecognized
  /\ writes_commit (Samples.empty_db [])
       (List.length (deltas Samples.unrecognized)) = true
  /\ In (zero_row (Js.VNumber (Js.Int 8)) "2024-05-01")
       (D1.company_daily_stats
          (db_after (queue {| messages := Some Samples.unrecognized |}
                       (Samples.empty_db [])))).
Proof.
  assert (U : Forall (fun m => has_required_fields m = true
                               /\ unrecognized m = true)
                Samples.unrecognized)
    by (repeat constructor).
  assert (W : writes_commit (Samples.empty_db [])
                (List.length (deltas Samples.unrecognized)) = true)
    by reflexivity.
  assert (Ty : Forall (fun x => typed x = true) Samples.unrecognized)
    by (repeat constructor).
  split; [exact U|]. split; [exact W|].
  destruct (unrecognized_batch_writes_zero_rows
              {| messages := Some Samples.unrecognized |}
              (Samples.empty_db []) U W
              (Samples.event "m2" (Samples.company 8) "scroll"
                 "2024-05-01T09:00:00.000Z")
              "2024-05-01T09:00:00.000Z"
              (or_intror (or_introl eq_refl)) eq_refl)
    as (a & _ & _ & Own & _ & _ & _ & New).
  destruct (Own Ty) as [Ec Ed]. rewrite Ec, Ed in New.
  apply New. intros r [].
Defined.

(** The rows that run creates in an empty table: one per (entity, day),
    eight zeros each. *)
Example unrecognized_batch_rows :
  D1.company_daily_stats
    (db_after (queue {| messages := Some Samples.unrecognized |}
                 (Samples.empty_db [])))
  = [zero_row (Js.VNumber (Js.Int 7)) "2024-05-01";
     zero_row (Js.VNumber (Js.Int 8)) "2024-05-01"].
Proof. reflexivity. Qed.

End UnrecognizedFacts.

(** * Properties of [POST /track] *)

Module TrackFacts.
Import Track TrackSpec DeliverySpec.

(** ** Columns *)

Lemma column_of_set (c c' : Column) (v : option Z) (r : D1.StatsRow) :
  column_of c' (set_column c v r)
  = if column_eqb c c' then v else column_of c' r.
Proof. destruct r, c, c'; reflexivity. Qed.

Lemma row_key_set (c : Column) (v : option Z) (r : D1.StatsRow) :
  row_key (set_column c v r) = row_key r.
Proof. destruct r, c; reflexivity. Qed.

Lemma same_key_set_l (c : Column) (v : option Z) (r e : D1.StatsRow) :
  D1.same_key (set_column c v r) e = D1.same_key r e.
Proof. destruct r, c; reflexivity. Qed.

Lemma same_key_set_r (c : Column) (v : option Z) (r e : D1.StatsRow) :
  D1.same_key r (set_column c v e) = D1.same_key r e.
Proof. destruct e, c; reflexivity. Qed.

Lemma columnMap_own (key : string) (c : Column) :
  columnMap key = Own c -> key = type_name c.
Proof.
  unfold columnMap.
  repeat match goal with
         | |- context [String.eqb key ?s] =>
             destruct (String.eqb_spec key s) as [->|_];
             [intros [= <-]; reflexivity|]
         end.
  destruct (existsb _ _); discriminate.
Qed.

Lemma columnMap_type_name (c : Column) : columnMap (type_name c) = Own c.
Proof. destruct c; reflexivity. Qed.

(** Only a string selects a column. *)
Lemma own_column_string (v : Js.value) (c : Column) :
  columnMap (Js.to_string v) = Own c -> v = Js.VString (type_name c).
Proof.
  intros H. pose proof (columnMap_own _ _ H) as E.
  destruct v as [| |b|[| | |z]|s]; cbn [Js.to_string Js.number_to_string] in *;
    try (destruct c; discriminate E);
    try (destruct b, c; discriminate E).
  - exfalso. pose proof (ConsumerFacts.integer_to_string_chars z) as D.
    rewrite E in D. destruct c; discriminate D.
  - now subst.
Qed.

(** ** What the endpoint answers and writes *)

Section Schema.
Variable counter_default : option Z.

Lemma find_row_increment (rows : list D1.StatsRow) (companyId : Js.value)
      (dateStr : string) (c : Column) (probe : D1.StatsRow) :
  let key := inserted_row counter_default companyId dateStr c in
  find_row (increment counter_default rows companyId dateStr c) probe
  = if D1.same_key key probe
    then Some match find_row rows key with
              | Some r => bump c r
              | None => key
              end
    else find_row rows probe.
Proof.
  intros key. unfold find_row.
  induction rows as [|r rest IH]; cbn [increment find]; fold key.
  - destruct (D1.same_key key probe); reflexivity.
  - destruct (D1.same_key r key) eqn:A; cbn [find].
    + unfold bump. rewrite same_key_set_l.
      destruct (D1.same_key key probe) eqn:B.
      * now rewrite (DeliveryFacts.same_key_trans r key probe B), A.
      * destruct (D1.same_key r probe) eqn:C; [|reflexivity].
        apply DeliveryFacts.same_key_iff in A.
        apply DeliveryFacts.same_key_iff in C.
        assert (D : D1.same_key key probe = true)
          by (apply DeliveryFacts.same_key_iff; congruence).
        congruence.
    + destruct (D1.same_key r probe) eqn:C.
      * destruct (D1.same_key key probe) eqn:B; [|reflexivity].
        rewrite (DeliveryFacts.same_key_trans r key probe B) in C.
        congruence.
      * exact IH.
Qed.

Lemma run_increment_table (db : D1.t) (companyId : Js.value)
      (dateStr : string) (c : Column) :
  match run_increment counter_default db companyId dateStr c with
  | (db', inl _) =>
      D1.company_daily_stats db' = D1.company_daily_stats db
  | (db', inr _) =>
      D1.company_daily_stats db'
      = increment counter_default (D1.company_daily_stats db) companyId
          dateStr c
  end.
Proof.
  unfold run_increment. destruct (D1.pending db) as [|[e|] p]; reflexivity.
Qed.

(** X10.  Whatever the body, the time and the state of the store, an
    answer of [POST /track] other than 200 comes with the table as it was:
    a rejected or failed request counts nothing. *)
Theorem track_counts_only_on_200 (payload : option TrackBody) (now : Z)
        (db : D1.t) :
  status (snd (fetch_track counter_default payload now db)) <> 200 ->
  D1.company_daily_stats (fst (fetch_track counter_default payload now db))
  = D1.company_daily_stats db.
Proof.
  unfold fetch_track, track_try.
  destruct (trimmed_slug payload) as [t|slug]; [reflexivity|].
  cbv zeta.
  destruct (negb (Js.truthy slug) || negb (Js.truthy (body_type payload)));
    [reflexivity|].
  destruct (columnMap _) as [c| |]; try reflexivity;
    destruct (ReportsWorker.company_by_slug db _) as [row|];
    try reflexivity;
    destruct (Js.toISOString (Some now)) as [e|iso]; try reflexivity.
  pose proof (run_increment_table db (Js.VNumber (Js.Int (D1.id row)))
                (Js.slice_to 10 iso) c) as R.
  destruct (run_increment _ _ _ _ _) as [db' [e|[]]]; cbn [fst snd status].
  - intros _. exact R.
  - intros H. now contradiction H.
Qed.

Lemma toISOString_now (now : Z) :
  Js.toISOString (Some now) = inr
    match Js.toISOString (Some now) with
    | inr iso => iso
    | inl _ => EmptyString
    end.
Proof.
  unfold Js.toISOString.
  now destruct (Js.civil_from_days (Js.Day now)) as [[y m] d].
Qed.

Lemma column_eqb_eq (a b : Column) : column_eqb a b = true <-> a = b.
Proof. destruct a, b; cbn [column_eqb]; split; congruence. Qed.

Lemma same_key_of_key (p q other : D1.StatsRow) :
  row_key p = row_key q -> D1.same_key p other = D1.same_key q other.
Proof.
  unfold row_key, D1.same_key. intros [= Ec Ed]. now rewrite Ec, Ed.
Qed.

Lemma same_key_to_key (r p q : D1.StatsRow) :
  row_key p = row_key q -> D1.same_key r p = D1.same_key r q.
Proof.
  unfold row_key, D1.same_key. intros [= Ec Ed]. now rewrite Ec, Ed.
Qed.

Lemma find_row_of_key (rows : list D1.StatsRow) (p q : D1.StatsRow) :
  row_key p = row_key q -> find_row rows p = find_row rows q.
Proof.
  intros K. unfold find_row.
  induction rows as [|r rest IH]; cbn [find]; [reflexivity|].
  now rewrite (same_key_to_key r p q K), IH.
Qed.

Lemma sql_add_one (x : option Z) :
  D1.sql_add x (Some 1)
  = match x with
    | Some v => Some (v + 1)
    | None => None
    end.
Proof. now destruct x. Qed.

(** X11.  A body whose [slug], once trimmed, is the slug of a company and
    whose [type] is one of the eight names of [columnMap] is answered 200
    when the statement commits.  The table then holds a row of that company
    for the UTC day of the request.  When the table held that row before,
    the column of the type holds one more where it held a number and is
    still NULL where it held NULL, and the other columns are as before;
    when it held no such row, the new row has 1 in the column and the
    column default elsewhere.  The row of any other key is as it was. *)
Theorem track_counts_one (p : TrackBody) (s : string) (c : Column)
        (now : Z) (db : D1.t) (companyRow : D1.CompanyRow) :
  slug p = Js.VString s ->
  columnMap (Js.to_string (type p)) = Own c ->
  ReportsWorker.company_by_slug db (trim s) = Some companyRow ->
  trim s <> ""%string ->
  ConsumerSpec.commits (hd None (D1.pending db)) = true ->
  let result := fetch_track counter_default (Some p) now db in
  let before := D1.company_daily_stats db in
  let after := D1.company_daily_stats (fst result) in
  let probe := row_probe (D1.id companyRow) (date_of now) in
  snd result = {| status := 200; answer := OkTrue |}
  /\ (exists r',
        find_row after probe = Some r'
        /\ D1.company_id r' = Js.VNumber (Js.Int (D1.id companyRow))
        /\ D1.date r' = date_of now
        /\ match find_row before probe with
           | Some r =>
               column_of c r'
               = match column_of c r with
                 | Some v => Some (v + 1)
                 | None => None
                 end
               /\ (forall c', c' <> c -> column_of c' r' = column_of c' r)
           | None =>
               column_of c r' = Some 1
               /\ (forall c', c' <> c -> column_of c' r' = counter_default)
           end)
  /\ (forall other,
         D1.same_key probe other = false ->
         find_row after other = find_row before other).
Proof.
  intros Hs Hc Hrow Hne Hcommit result before after probe.
  subst result before after.
  set (key := inserted_row counter_default
                (Js.VNumber (Js.Int (D1.id companyRow))) (date_of now) c).
  assert (R : fetch_track counter_default (Some p) now db
              = ({| D1.companies := D1.companies db;
                    D1.company_daily_stats :=
                      increment counter_default (D1.company_daily_stats db)
                        (Js.VNumber (Js.Int (D1.id companyRow)))
                        (date_of now) c;
                    D1.pending := tl (D1.pending db) |},
                 {| status := 200; answer := OkTrue |})).
  { unfold fetch_track, track_try, trimmed_slug, body_type. rewrite Hs.
    cbv zeta. cbn [Js.truthy Js.to_string].
    apply String.eqb_neq in Hne. rewrite Hne.
    rewrite (own_column_string _ _ Hc). cbn [Js.truthy Js.to_string].
    assert (T : String.eqb (type_name c) "" = false) by now destruct c.
    rewrite T. cbn [negb orb]. rewrite columnMap_type_name, Hrow.
    unfold date_of. rewrite (toISOString_now now).
    unfold run_increment.
    destruct (D1.pending db) as [|[e|] rest]; try reflexivity.
    discriminate Hcommit. }
  assert (K : row_key key = row_key probe).
  { unfold key, inserted_row. rewrite row_key_set. reflexivity. }
  assert (Own_c : forall c', c' <> c -> column_eqb c c' = false).
  { intros c' N. destruct (column_eqb c c') eqn:E; [|reflexivity].
    apply column_eqb_eq in E. congruence. }
  rewrite R. cbn [fst snd D1.company_daily_stats].
  split; [reflexivity|]. split.
  - rewrite find_row_increment. fold key.
    rewrite (same_key_of_key key probe probe K),
      ConsumerFacts.same_key_refl.
    rewrite (find_row_of_key _ key probe K).
    eexists. split; [reflexivity|].
    destruct (find_row (D1.company_daily_stats db) probe) as [r|] eqn:F.
    + unfold find_row in F. apply find_some in F as [_ Fk].
      apply DeliveryFacts.same_key_iff in Fk.
      assert (Kb : row_key (bump c r) = row_key probe)
        by (unfold bump; now rewrite row_key_set).
      unfold row_key in Kb. cbn [row_probe D1.company_id D1.date] in Kb.
      injection Kb as Kc Kd.
      split; [exact Kc|]. split; [exact Kd|]. split.
      * unfold bump. rewrite column_of_set, sql_add_one.
        assert (E : column_eqb c c = true) by now apply column_eqb_eq.
        now rewrite E.
      * intros c' N. unfold bump. rewrite column_of_set.
        now rewrite (Own_c c' N).
    + unfold row_key in K. cbn [row_probe D1.company_id D1.date] in K.
      injection K as Kc Kd.
      split; [exact Kc|]. split; [exact Kd|]. split.
      * unfold key, inserted_row. rewrite column_of_set.
        assert (E : column_eqb c c = true) by now apply column_eqb_eq.
        now rewrite E.
      * intros c' N. unfold key, inserted_row. rewrite column_of_set.
        rewrite (Own_c c' N). now destruct c'.
  - intros other Ko. rewrite find_row_increment. fold key.
    now rewrite (same_key_of_key key probe other K), Ko.
Qed.

(** X12.  The required-field check of [POST /track] sees the trimmed slug:
    without a JSON object, without a [slug] or with a [slug] of white space
    only, or with a falsy [type], the answer is 400 "Missing slug or type".
    A [slug] that is a number or a boolean, even a falsy one, is not
    answered 400: calling [trim] on it throws and the answer is 500. *)
Theorem track_required_fields (payload : option TrackBody) (now : Z)
        (db : D1.t) :
  (payload = None
   \/ (exists p, payload = Some p
                 /\ (slug p = Js.VUndefined \/ slug p = Js.VNull
                     \/ (exists s, slug p = Js.VString s /\ trim s = ""%string)
                     \/ ((exists s, slug p = Js.VString s)
                         /\ Js.truthy (type p) = false))) ->
   fetch_track counter_default payload now db
   = (db, {| status := 400; answer := Error "Missing slug or type" |}))
  /\ ((exists p, payload = Some p
                 /\ ((exists b, slug p = Js.VBool b)
                     \/ (exists n, slug p = Js.VNumber n))) ->
      fetch_track counter_default payload now db
      = (db, {| status := 500; answer := Error "Internal error" |})).
Proof.
  unfold fetch_track, track_try, trimmed_slug, body_type. split.
  - intros [-> | (p & -> & [H | [H | [(s & H & E) | [(s & H) T]]]])];
      try rewrite H; try reflexivity.
    + rewrite E. reflexivity.
    + cbv zeta. rewrite T. now rewrite orb_true_r.
  - intros (p & -> & [(b & H) | (n & H)]); rewrite H; reflexivity.
Qed.

(** X13.  A [type] that names a property [columnMap] inherits from
    [Object.prototype] passes the unknown-type check: such a request is
    never answered 400 "Unknown event type".  With a slug of no company it
    is answered 404; with the slug of a company it reaches the statement,
    whose column is not a column, and is answered 500 with the store
    untouched. *)
Theorem track_inherited_type (p : TrackBody) (s t : string) (now : Z)
        (db : D1.t) :
  slug p = Js.VString s ->
  trim s <> ""%string ->
  type p = Js.VString t ->
  In t object_prototype_names ->
  fetch_track counter_default (Some p) now db
  = (db, match ReportsWorker.company_by_slug db (trim s) with
         | None => {| status := 404; answer := Error "Company not found" |}
         | Some _ => {| status := 500; answer := Error "Internal error" |}
         end).
Proof.
  intros Hs Hne Ht Hin.
  unfold fetch_track, track_try, trimmed_slug, body_type. rewrite Hs, Ht.
  cbv zeta. cbn [Js.truthy Js.to_string].
  apply String.eqb_neq in Hne. rewrite Hne.
  assert (C : String.eqb t "" = false /\ columnMap t = Inherited).
  { cbn [object_prototype_names In] in Hin.
    repeat (destruct Hin as [<- | Hin]; [split; reflexivity|]).
    destruct Hin. }
  destruct C as [T C]. rewrite T, C. cbn [negb orb].
  destruct (ReportsWorker.company_by_slug db (trim s)); [|reflexivity].
  now rewrite (toISOString_now now).
Qed.

(** X14.  The two ingestion paths name the event types differently: a
    [type] the consumer counts is unknown to [columnMap], and a [type] that
    selects a column of [columnMap] is one the consumer counts nothing
    for. *)
Theorem ingestion_type_names_disjoint (v : Js.value) :
  (EventsConsumer.classify v <> None ->
   columnMap (Js.to_string v) = Undefined)
  /\ (forall c, columnMap (Js.to_string v) = Own c ->
                EventsConsumer.classify v = None).
Proof.
  split.
  - unfold EventsConsumer.classify. destruct v as [| |b|n|s]; try congruence.
    repeat match goal with
           | |- context [String.eqb s ?x] =>
               destruct (String.eqb_spec s x) as [->|_];
               [intros _; reflexivity|]
           end.
    congruence.
  - intros c H. rewrite (own_column_string _ _ H). now destruct c.
Qed.

End Schema.

(** ** The endpoint and the consumer *)

Lemma sql_add_zero (x : option Z) : D1.sql_add x (Some 0) = x.
Proof. destruct x; cbn [D1.sql_add]; [f_equal; lia | reflexivity]. Qed.

Lemma inserted_row_unit (companyId : Js.value) (dateStr : string)
      (c : Column) :
  inserted_row (Some 0) companyId dateStr c
  = EventsConsumer.bind
      (EventsConsumer.increment (event_type_of c)
         (EventsConsumer.fresh companyId dateStr)).
Proof. destruct c; reflexivity. Qed.

Lemma bump_merge (companyId : Js.value) (dateStr : string) (c : Column)
      (r : D1.StatsRow) :
  bump c r = D1.merge r (inserted_row (Some 0) companyId dateStr c).
Proof.
  destruct r, c; unfold bump, D1.merge; cbn;
    rewrite !sql_add_zero; reflexivity.
Qed.

(** With counter columns that default to 0, the statement of the endpoint
    is the upsert of the consumer for the delta of one event. *)
Lemma increment_upsert (rows : list D1.StatsRow) (companyId : Js.value)
      (dateStr : string) (c : Column) :
  increment (Some 0) rows companyId dateStr c
  = D1.upsert rows (inserted_row (Some 0) companyId dateStr c).
Proof.
  induction rows as [|r rest IH]; cbn [increment D1.upsert].
  - reflexivity.
  - destruct (D1.same_key r _).
    + now rewrite <- bump_merge.
    + now rewrite IH.
Qed.

Lemma classify_label (t : EventsConsumer.EventType) :
  EventsConsumer.classify (Js.VString (consumer_label t)) = Some t.
Proof. destruct t; reflexivity. Qed.

Lemma iso_of_not_empty (now : Z) : iso_of now <> ""%string.
Proof.
  unfold iso_of, Js.toISOString.
  destruct (Js.civil_from_days (Js.Day now)) as [[y m] d].
  destruct (Js.iso_year y); discriminate.
Qed.

Lemma aggregate_queued_event (companyId : Z) (c : Column) (now : Z) :
  companyId <> 0 ->
  EventsConsumer.aggregate [queued_event companyId c now]
  = [(EventsConsumer.make_key (Js.VNumber (Js.Int companyId)) (date_of now),
      EventsConsumer.increment (event_type_of c)
        (EventsConsumer.fresh (Js.VNumber (Js.Int companyId))
           (date_of now)))].
Proof.
  intros Hid.
  apply (ConsumerFacts.step_uniform_absent
           (Js.VNumber (Js.Int companyId)) (date_of now) (event_type_of c)).
  unfold ConsumerSpec.uniform, ConsumerSpec.event_day,
    EventsConsumer.admitted, queued_event.
  cbn [EventsConsumer.body EventsConsumer.QueueEvent.companyId
       EventsConsumer.QueueEvent.type EventsConsumer.QueueEvent.createdAt
       Js.truthy].
  apply Z.eqb_neq in Hid. rewrite Hid. cbn [negb].
  pose proof (iso_of_not_empty now) as N. apply String.eqb_neq in N.
  rewrite N. cbn [option_map].
  split; [reflexivity|]. split; [|apply classify_label].
  unfold date_of, iso_of. now rewrite (toISOString_now now).
Qed.

(** X15.  When the counter columns default to 0, a [POST /track] answered
    200 for a company whose id is not 0 leaves the table exactly as the
    consumer leaves it after a committed batch of the one corresponding
    event (same company, the event type of the column, [createdAt] the
    time of the request): the two ingestion paths apply the same merge. *)
Theorem track_is_batch_of_one (p : TrackBody) (s : string) (c : Column)
        (now : Z) (db : D1.t) (companyRow : D1.CompanyRow) :
  slug p = Js.VString s ->
  columnMap (Js.to_string (type p)) = Own c ->
  ReportsWorker.company_by_slug db (trim s) = Some companyRow ->
  trim s <> ""%string ->
  ConsumerSpec.commits (hd None (D1.pending db)) = true ->
  D1.id companyRow <> 0 ->
  D1.company_daily_stats (fst (fetch_track (Some 0) (Some p) now db))
  = D1.company_daily_stats
      (EventsConsumer.db_after
         (EventsConsumer.queue
            {| EventsConsumer.messages :=
                 Some [queued_event (D1.id companyRow) c now] |}
            db)).
Proof.
  intros Hs Hc Hrow Hne Hcommit Hid.
  assert (R : fetch_track (Some 0) (Some p) now db
              = ({| D1.companies := D1.companies db;
                    D1.company_daily_stats :=
                      increment (Some 0) (D1.company_daily_stats db)
                        (Js.VNumber (Js.Int (D1.id companyRow)))
                        (date_of now) c;
                    D1.pending := tl (D1.pending db) |},
                 {| status := 200; answer := OkTrue |})).
  { unfold fetch_track, track_try, trimmed_slug, body_type. rewrite Hs.
    cbv zeta. cbn [Js.truthy Js.to_string].
    pose proof Hne as Hne'. apply String.eqb_neq in Hne'. rewrite Hne'.
    rewrite (own_column_string _ _ Hc). cbn [Js.truthy Js.to_string].
    assert (T : String.eqb (type_name c) "" = false) by now destruct c.
    rewrite T. cbn [negb orb]. rewrite columnMap_type_name, Hrow.
    unfold date_of. rewrite (toISOString_now now).
    unfold run_increment.
    destruct (D1.pending db) as [|[e|] rest]; try reflexivity.
    discriminate Hcommit. }
  rewrite R. cbn [fst D1.company_daily_stats].
  unfold EventsConsumer.queue. cbn [EventsConsumer.messages].
  rewrite (aggregate_queued_event _ c now Hid).
  cbn [EventsConsumer.write_all]. unfold D1.run_upsert.
  rewrite increment_upsert, inserted_row_unit.
  destruct (D1.pending db) as [|[e|] rest]; try reflexivity.
  discriminate Hcommit.
Qed.

(** ** The statements on sample requests *)

Lemma track_counts_only_on_200_witness :
  status (snd (fetch_track (Some 0) (Some TrackSamples.consumer_type_of_a)
                 Samples.now Samples.listings_db)) <> 200
  /\ D1.company_daily_stats
       (fst (fetch_track (Some 0) (Some TrackSamples.consumer_type_of_a)
               Samples.now Samples.listings_db))
     = D1.company_daily_stats Samples.listings_db.
Proof.
  assert (H : status (snd (fetch_track (Some 0)
                             (Some TrackSamples.consumer_type_of_a)
                             Samples.now Samples.listings_db)) <> 200)
    by discriminate.
  split; [exact H|].
  exact (track_counts_only_on_200 (Some 0) _ _ _ H).
Defined.

Lemma track_counts_one_witness :
  trim " a " <> ""%string
  /\ snd (fetch_track (Some 0) (Some TrackSamples.view_of_a) Samples.now
            Samples.listings_db)
     = {| status := 200; answer := OkTrue |}
  /\ exists r',
       find_row
         (D1.company_daily_stats
            (fst (fetch_track (Some 0) (Some TrackSamples.view_of_a)
                    Samples.now Samples.listings_db)))
         (row_probe 1 "2026-11-02")
       = Some r'
       /\ column_of col_views_profile r' = Some 1
       /\ column_of col_clicks_phone r' = Some 0.
Proof.
  assert (N : trim " a " <> ""%string) by discriminate.
  split; [exact N|].
  destruct (track_counts_one (Some 0) TrackSamples.view_of_a " a "
              col_views_profile Samples.now Samples.listings_db
              TrackSamples.company_a eq_refl eq_refl eq_refl N eq_refl)
    as (A & (r' & F & _ & _ & V & O) & _).
  split; [exact A|].
  exists r'. split; [exact F|]. split; [exact V|].
  apply O. discriminate.
Defined.

Lemma track_inherited_type_witness :
  In "constructor"%string object_prototype_names
  /\ fetch_track (Some 0) (Some TrackSamples.constructor_of_a) Samples.now
       Samples.listings_db
     = (Samples.listings_db,
        {| status := 500; answer := Error "Internal error" |}).
Proof.
  assert (I : In "constructor"%string object_prototype_names)
    by (left; reflexivity).
  split; [exact I|].
  assert (N : trim "a" <> ""%string) by discriminate.
  exact (track_inherited_type (Some 0) TrackSamples.constructor_of_a "a"
           "constructor" Samples.now Samples.listings_db eq_refl N eq_refl I).
Defined.

Lemma track_required_fields_witness :
  fetch_track (Some 0) None Samples.now Samples.listings_db
  = (Samples.listings_db,
     {| status := 400; answer := Error "Missing slug or type" |})
  /\ fetch_track (Some 0)
       (Some {| slug := Js.VNumber (Js.Int 0);
                type := Js.VString "view_profile" |})
       Samples.now Samples.listings_db
     = (Samples.listings_db,
        {| status := 500; answer := Error "Internal error" |}).
Proof.
  split.
  - apply (proj1 (track_required_fields (Some 0) None Samples.now
                    Samples.listings_db)).
    now left.
  - apply (proj2 (track_required_fields (Some 0) _ Samples.now
                    Samples.listings_db)).
    eexists. split; [reflexivity|]. right. now eexists.
Defined.

Lemma ingestion_type_names_disjoint_witness :
  columnMap "PROFILE_VIEW" = Undefined
  /\ EventsConsumer.classify (Js.VString "view_profile") = None.
Proof.
  split.
  - apply (proj1 (ingestion_type_names_disjoint (Js.VString "PROFILE_VIEW"))).
    discriminate.
  - apply (proj2 (ingestion_type_names_disjoint (Js.VString "view_profile"))
             col_views_profile).
    reflexivity.
Defined.

Lemma track_is_batch_of_one_witness :
  D1.id TrackSamples.company_a <> 0
  /\ D1.company_daily_stats
       (fst (fetch_track (Some 0) (Some TrackSamples.view_of_a) Samples.now
               Samples.listings_db))
     = D1.company_daily_stats
         (EventsConsumer.db_after
            (EventsConsumer.queue
               {| EventsConsumer.messages :=
                    Some [queued_event 1 col_views_profile Samples.now] |}
               Samples.listings_db)).
Proof.
  assert (I : D1.id TrackSamples.company_a <> 0) by discriminate.
  assert (N : trim " a " <> ""%string) by discriminate.
  split; [exact I|].
  exact (track_is_batch_of_one TrackSamples.view_of_a " a " col_views_profile
           Samples.now Samples.listings_db TrackSamples.company_a
           eq_refl eq_refl eq_refl N eq_refl I).
Defined.


End TrackFacts.

(** * From ingestion to the reports *)

Module PipelineFacts.
Import ReportsWorker ReportSpec DeliverySpec PipelineSpec.

Lemma column_sum_perm (f : CompanyReportTotals -> Z)
      (l l' : list CompanyReportTotals) :
  Permutation l l' -> column_sum f l = column_sum f l'.
Proof.
  unfold column_sum.
  induction 1; cbn [fold_right]; lia.
Qed.

Lemma sum_totals_perm (l l' : list CompanyReportTotals) :
  Permutation l l' -> sum_totals l = sum_totals l'.
Proof.
  intros P. unfold sum_totals.
  now rewrite !(column_sum_perm _ l l' P).
Qed.

(** The totals of a company report are the sums of the stored rows it
    reads, in whatever order the table holds them. *)
Lemma report_totals_stored (db : D1.t) (r : Range)
      (companyRow : D1.CompanyRow) :
  totals (last_30_days (company_report db r companyRow))
  = sum_totals
      (map counts
         (map daily_item
            (stored_rows db (D1.id companyRow) (from r) (to r)))).
Proof.
  unfold company_report. cbn [last_30_days].
  rewrite (proj2 (ReportFacts.last30_rows _)).
  apply sum_totals_perm. do 2 apply Permutation_map.
  apply ReportFacts.order_by_perm.
Qed.

Lemma totals_of_sum (c : Track.Column) (l : list CompanyReportTotals) :
  totals_of c (sum_totals l) = column_sum (totals_of c) l.
Proof. destruct c; reflexivity. Qed.

Lemma report_total_stored (c : Track.Column) (db : D1.t) (r : Range)
      (companyRow : D1.CompanyRow) :
  report_total c db r companyRow
  = nullable_sum
      (map (Track.column_of c)
         (filter (in_report (D1.id companyRow) (from r) (to r))
            (D1.company_daily_stats db))).
Proof.
  unfold report_total. rewrite report_totals_stored, totals_of_sum.
  symmetry. apply ReportFacts.nullable_sum_column.
  intros row. destruct c; reflexivity.
Qed.

Lemma in_report_same_key (companyId : Z) (f t : string)
      (x y : D1.StatsRow) :
  D1.same_key x y = true ->
  in_report companyId f t x = in_report companyId f t y.
Proof.
  intros K. apply DeliveryFacts.same_key_iff in K.
  unfold row_key in K. injection K as Kc Kd.
  unfold in_report, in_range. now rewrite Kc, Kd.
Qed.

Lemma column_of_merge (c : Track.Column) (r e : D1.StatsRow) :
  Track.column_of c (D1.merge r e)
  = D1.sql_add (Track.column_of c r) (Track.column_of c e).
Proof. destruct c; reflexivity. Qed.

Lemma column_of_bind (c : Track.Column) (a : EventsConsumer.Aggregate) :
  Track.column_of c (EventsConsumer.bind a)
  = Some (EventsConsumer.counter (TrackSpec.event_type_of c) a).
Proof. destruct c; reflexivity. Qed.

(** What an upsert adds to the sum of a column over the rows a report
    reads. *)
Lemma report_sum_upsert (c : Track.Column) (companyId : Z) (f t : string)
      (rows : list D1.StatsRow) (a : EventsConsumer.Aggregate) :
  no_nulls c rows ->
  nullable_sum
    (map (Track.column_of c)
       (filter (in_report companyId f t)
          (D1.upsert rows (EventsConsumer.bind a))))
  = nullable_sum
      (map (Track.column_of c) (filter (in_report companyId f t) rows))
    + (if in_report companyId f t (EventsConsumer.bind a)
       then EventsConsumer.counter (TrackSpec.event_type_of c) a
       else 0).
Proof.
  unfold nullable_sum.
  induction 1 as [|r rest Hr _ IH]; cbn [D1.upsert filter].
  - destruct (in_report _ _ _ _); cbn [map fold_right];
      [rewrite column_of_bind; cbn [number_or_zero]|]; lia.
  - destruct (D1.same_key r (EventsConsumer.bind a)) eqn:K; cbn [filter].
    + rewrite <- (in_report_same_key companyId f t r _ K).
      replace (in_report companyId f t (D1.merge r (EventsConsumer.bind a)))
        with (in_report companyId f t r) by reflexivity.
      destruct (in_report companyId f t r); cbn [map fold_right]; [|lia].
      rewrite column_of_merge, column_of_bind.
      destruct (Track.column_of c r) as [x|] eqn:X;
        [|now contradiction Hr].
      cbn [D1.sql_add number_or_zero]. lia.
    + destruct (in_report companyId f t r); cbn [map fold_right];
        rewrite IH; lia.
Qed.

Lemma upsert_no_nulls (c : Track.Column) (rows : list D1.StatsRow)
      (a : EventsConsumer.Aggregate) :
  no_nulls c rows -> no_nulls c (D1.upsert rows (EventsConsumer.bind a)).
Proof.
  unfold no_nulls.
  induction 1 as [|r rest Hr Hrest IH]; cbn [D1.upsert].
  - constructor; [|constructor]. now rewrite column_of_bind.
  - destruct (D1.same_key r _); constructor; auto.
    rewrite column_of_merge, column_of_bind.
    destruct (Track.column_of c r) eqn:X; [discriminate|].
    now contradiction Hr.
Qed.

Lemma report_sum_table_after (c : Track.Column) (companyId : Z)
      (f t : string) (ds : list EventsConsumer.Aggregate) :
  forall rows,
    no_nulls c rows ->
    nullable_sum
      (map (Track.column_of c)
         (filter (in_report companyId f t)
            (ConsumerSpec.table_after rows ds)))
    = nullable_sum
        (map (Track.column_of c) (filter (in_report companyId f t) rows))
      + delta_total c companyId f t ds.
Proof.
  unfold ConsumerSpec.table_after, delta_total.
  induction ds as [|a rest IH]; intros rows N; cbn [map fold_left fold_right].
  - lia.
  - rewrite (IH _ (upsert_no_nulls c rows a N)),
      (report_sum_upsert c _ _ _ _ a N).
    lia.
Qed.

(** X16.  When no row holds NULL in a column, the report of a company over
    a range, read after a run whose statements commit, has in that column
    the total it had before the run plus what the deltas of the batch hold
    for that company on the days of the range: what the consumer writes is
    what the report adds up. *)
Theorem committed_batch_shows_in_report (batch : EventsConsumer.MessageBatch)
        (db : D1.t) (r : Range) (companyRow : D1.CompanyRow)
        (c : Track.Column) :
  ConsumerSpec.writes_commit db
    (List.length (ConsumerSpec.deltas (ConsumerSpec.messages_of batch)))
  = true ->
  no_nulls c (D1.company_daily_stats db) ->
  report_total c (EventsConsumer.db_after (EventsConsumer.queue batch db))
    r companyRow
  = report_total c db r companyRow
    + delta_total c (D1.id companyRow) (from r) (to r)
        (ConsumerSpec.deltas (ConsumerSpec.messages_of batch)).
Proof.
  intros W N. rewrite !report_total_stored.
  destruct (ConsumerFacts.queue_commits batch db W) as (_ & _ & _ & T).
  rewrite T. now apply report_sum_table_after.
Qed.

(** X17.  With distinct company ids, the totals the summary lists for a
    company are the totals of the report of that company over the same
    range: the two endpoints agree. *)
Theorem summary_agrees_with_reports (db : D1.t) (r : Range) :
  NoDup (map D1.id (D1.companies db)) ->
  forall companyRow, In companyRow (D1.companies db) ->
    exists item,
      In item (items (summary db r))
      /\ item_company item = company_meta companyRow
      /\ item_totals item
         = totals (last_30_days (company_report db r companyRow)).
Proof.
  intros N companyRow Hin.
  exists (summary_item
            (summary_row (left_join db (from r) (to r)) companyRow)).
  split.
  - unfold summary. cbn [items]. apply in_map.
    rewrite (ReportFacts.select_summary_rows db _ _ N).
    eapply Permutation_in;
      [apply Permutation_sym, ReportFacts.order_by_perm|].
    now apply in_map.
  - rewrite (ReportFacts.summary_item_of_company db _ _ companyRow N Hin).
    cbn [item_company item_totals]. split; [reflexivity|].
    now rewrite report_totals_stored.
Qed.

Lemma committed_batch_shows_in_report_witness :
  no_nulls Track.col_views_profile
    (D1.company_daily_stats Samples.listings_db)
  /\ report_total Track.col_views_profile
       (EventsConsumer.db_after
          (EventsConsumer.queue
             {| EventsConsumer.messages := Some Samples.three_views |}
             Samples.listings_db))
       {| from := "2024-05-01"; to := "2024-05-31"; days := Js.Int 31 |}
       (Samples.listing 7 "g")
     = 0 + 3.
Proof.
  assert (N : no_nulls Track.col_views_profile
                (D1.company_daily_stats Samples.listings_db))
    by (repeat constructor; discriminate).
  split; [exact N|].
  exact (committed_batch_shows_in_report
           {| EventsConsumer.messages := Some Samples.three_views |}
           Samples.listings_db
           {| from := "2024-05-01"; to := "2024-05-31"; days := Js.Int 31 |}
           (Samples.listing 7 "g") Track.col_views_profile eq_refl N).
Defined.

Lemma summary_agrees_with_reports_witness :
  NoDup (map D1.id (D1.companies Samples.listings_db))
  /\ exists item,
       In item
          (items (summary Samples.listings_db
                    {| from := "2026-10-29"; to := "2026-11-02";
                       days := Js.Int 5 |}))
       /\ item_totals item
          = totals
              (last_30_days
                 (company_report Samples.listings_db
                    {| from := "2026-10-29"; to := "2026-11-02";
                       days := Js.Int 5 |}
                    (Samples.listing 2 "b"))).
Proof.
  assert (N : NoDup (map D1.id (D1.companies Samples.listings_db))).
  { cbn. repeat constructor; cbn; intuition discriminate. }
  split; [exact N|].
  destruct (summary_agrees_with_reports Samples.listings_db
              {| from := "2026-10-29"; to := "2026-11-02";
                 days := Js.Int 5 |} N (Samples.listing 2 "b"))
    as (item & Hin & _ & Ht).
  - right. now left.
  - exists item. now split.
Defined.

End PipelineFacts.

(** * Dates and the range of a report *)

Module CalendarFacts.
Import CalendarSpec.

Lemma civil_from_days_eq (k : Z) :
  Js.civil_from_days k
  = civil_of ((k + 719468) / 146097) ((k + 719468) mod 146097).
Proof. reflexivity. Qed.

Lemma year_of_era_range (doe : Z) :
  0 <= doe <= 146096 ->
  0 <= year_of_era doe <= 399 /\ 0 <= day_of_year doe <= 365.
Proof.
  intros H. unfold day_of_year, year_of_era. cbv zeta.
  Z.div_mod_to_equations. lia.
Qed.

Lemma year_of_era_mono (a b : Z) :
  0 <= a <= b -> b <= 146096 -> year_of_era a <= year_of_era b.
Proof.
  intros H H'. unfold year_of_era. Z.div_mod_to_equations. lia.
Qed.

Lemma month_index_range (doy : Z) :
  0 <= doy <= 365 ->
  0 <= month_index doy <= 11 /\ 1 <= day_of_month doy <= 31.
Proof.
  intros H. unfold day_of_month, month_index.
  Z.div_mod_to_equations. lia.
Qed.

Lemma month_index_mono (a b : Z) :
  0 <= a <= b -> month_index a <= month_index b.
Proof.
  intros H. unfold month_index. Z.div_mod_to_equations. lia.
Qed.

Lemma lex3_lt (y1 m1 d1 y2 m2 d2 : Z) :
  y1 < y2 \/ (y1 = y2 /\ (m1 < m2 \/ (m1 = m2 /\ d1 < d2))) ->
  lex3 (y1, m1, d1) (y2, m2, d2) = Lt.
Proof.
  intros H. unfold lex3.
  destruct (Z.compare_spec y1 y2); try lia; try reflexivity.
  destruct (Z.compare_spec m1 m2); try lia; try reflexivity.
  apply Z.compare_lt_iff. lia.
Qed.

(** Within an era and across eras, a later day has a later date. *)
Lemma civil_of_lt (era1 doe1 era2 doe2 : Z) :
  0 <= doe1 <= 146096 -> 0 <= doe2 <= 146096 ->
  era1 < era2 \/ (era1 = era2 /\ doe1 < doe2) ->
  lex3 (civil_of era1 doe1) (civil_of era2 doe2) = Lt.
Proof.
  intros H1 H2 Hlt. unfold civil_of. cbv zeta.
  destruct (year_of_era_range doe1 H1) as [Y1 D1].
  destruct (year_of_era_range doe2 H2) as [Y2 D2].
  destruct (month_index_range _ D1) as [M1 N1].
  destruct (month_index_range _ D2) as [M2 N2].
  assert (Hy : era1 = era2 -> year_of_era doe1 <= year_of_era doe2).
  { intros E. apply year_of_era_mono; lia. }
  assert (Hd : era1 = era2 -> year_of_era doe1 = year_of_era doe2 ->
               day_of_year doe1 < day_of_year doe2).
  { intros E1 E2. unfold day_of_year. cbv zeta. rewrite E2. lia. }
  assert (Hm : day_of_year doe1 <= day_of_year doe2 ->
               month_index (day_of_year doe1)
               <= month_index (day_of_year doe2)).
  { intros L. apply month_index_mono. lia. }
  assert (Hdd : month_index (day_of_year doe1)
                = month_index (day_of_year doe2) ->
                day_of_month (day_of_year doe1)
                - day_of_month (day_of_year doe2)
                = day_of_year doe1 - day_of_year doe2).
  { intros E. unfold day_of_month. rewrite E. lia. }
  revert Y1 D1 Y2 D2 M1 N1 M2 N2 Hy Hd Hm Hdd.
  generalize (day_of_month (day_of_year doe1)) as dd1.
  generalize (day_of_month (day_of_year doe2)) as dd2.
  generalize (month_index (day_of_year doe1)) as mp1.
  generalize (month_index (day_of_year doe2)) as mp2.
  generalize (day_of_year doe1) as doy1.
  generalize (day_of_year doe2) as doy2.
  generalize (year_of_era doe1) as yoe1.
  generalize (year_of_era doe2) as yoe2.
  intros yoe2 yoe1 doy2 doy1 mp2 mp1 dd2 dd1 Y1 D1 Y2 D2 M1 N1 M2 N2 Hy Hd
         Hm Hdd.
  apply lex3_lt.
  destruct (Z.ltb_spec mp1 10), (Z.ltb_spec mp2 10);
    repeat match goal with
           | |- context [?a <=? ?b] => destruct (Z.leb_spec a b)
           end; lia.
Qed.

Lemma civil_from_days_lt (k1 k2 : Z) :
  k1 < k2 ->
  lex3 (Js.civil_from_days k1) (Js.civil_from_days k2) = Lt.
Proof.
  intros H. rewrite !civil_from_days_eq.
  apply civil_of_lt.
  - pose proof (Z.mod_pos_bound (k1 + 719468) 146097 ltac:(lia)). lia.
  - pose proof (Z.mod_pos_bound (k2 + 719468) 146097 ltac:(lia)). lia.
  - Z.div_mod_to_equations. lia.
Qed.


(** *** The order of strings *)

Lemma ascii_compare_refl (c : ascii) : Ascii.compare c c = Eq.
Proof. unfold Ascii.compare. apply N.compare_refl. Qed.

Lemma string_compare_refl (s : string) : String.compare s s = Eq.
Proof.
  induction s as [|c s IH]; cbn [String.compare]; [reflexivity|].
  now rewrite ascii_compare_refl.
Qed.

Lemma string_compare_lt_trans (a b c : string) :
  String.compare a b = Lt -> String.compare b c = Lt ->
  String.compare a c = Lt.
Proof.
  revert b c.
  induction a as [|x a IH]; intros [|y b] [|z c]; cbn [String.compare];
    try congruence.
  destruct (Ascii.compare x y) eqn:A; try discriminate;
    destruct (Ascii.compare y z) eqn:B; try discriminate; intros H1 H2.
  - apply Ascii.compare_eq_iff in A, B. subst.
    rewrite ascii_compare_refl. eauto.
  - apply Ascii.compare_eq_iff in A. subst. now rewrite B.
  - apply Ascii.compare_eq_iff in B. subst. now rewrite A.
  - unfold Ascii.compare in *. rewrite N.compare_lt_iff in *.
    assert (L : (N_of_ascii x < N_of_ascii z)%N) by lia.
    apply N.compare_lt_iff in L. now rewrite L.
Qed.

(** Strings of the same length in front decide the comparison. *)
Lemma string_compare_app (a a' b b' : string) :
  String.length a = String.length a' ->
  String.compare (a ++ b) (a' ++ b')
  = match String.compare a a' with
    | Eq => String.compare b b'
    | c => c
    end.
Proof.
  revert a'.
  induction a as [|x a IH]; intros [|y a']; cbn [String.length];
    try discriminate; intros L.
  - reflexivity.
  - cbn [String.append String.compare].
    destruct (Ascii.compare x y); try reflexivity.
    apply IH. congruence.
Qed.

Lemma slice_to_app (a b : string) (n m : nat) :
  String.length a = n ->
  Js.slice_to (n + m) (a ++ b) = (a ++ Js.slice_to m b)%string.
Proof.
  intros <-.
  induction a as [|x a IH]; cbn [String.length String.append Nat.add].
  - reflexivity.
  - cbn [Js.slice_to]. now rewrite IH.
Qed.

Lemma slice_to_cons (n : nat) (c : ascii) (s : string) :
  Js.slice_to (S n) (String c s) = String c (Js.slice_to n s).
Proof. reflexivity. Qed.

Lemma slice_to_all (a b : string) (n : nat) :
  String.length a = n -> Js.slice_to n (a ++ b) = a.
Proof.
  intros <-.
  induction a as [|x a IH]; cbn [String.length String.append Js.slice_to].
  - now destruct b.
  - now rewrite IH.
Qed.

(** *** Padded numbers *)

Lemma increasing_spec (width : nat) (n : nat) :
  forall prev from,
    increasing width prev from n = true ->
    (forall a, from <= a < from + Z.of_nat n ->
       String.length (Js.pad width a) = width
       /\ String.compare prev (Js.pad width a) = Lt)
    /\ (forall a b, from <= a < b -> b < from + Z.of_nat n ->
          String.compare (Js.pad width a) (Js.pad width b) = Lt).
Proof.
  induction n as [|n IH]; intros prev from H.
  - split; intros; lia.
  - cbn [increasing] in H. cbv zeta in H.
    apply andb_prop in H. destruct H as [H Hrest].
    apply andb_prop in H. destruct H as [Hlen Hprev].
    apply Nat.eqb_eq in Hlen.
    assert (P : String.compare prev (Js.pad width from) = Lt)
      by now destruct (String.compare prev (Js.pad width from)).
    destruct (IH _ _ Hrest) as [I1 I2]. split.
    + intros a Ha. destruct (Z.eq_dec a from) as [-> | Hne].
      * now split.
      * destruct (I1 a ltac:(lia)) as [L C]. split; [exact L|].
        exact (string_compare_lt_trans _ _ _ P C).
    + intros a b Hab Hb. destruct (Z.eq_dec a from) as [-> | Hne].
      * apply I1. lia.
      * apply I2; lia.
Qed.

Lemma pad4_increasing : increasing 4 "" 0 (Z.to_nat 10000) = true.
Proof. vm_compute. reflexivity. Qed.

Lemma pad2_increasing : increasing 2 "" 0 (Z.to_nat 100) = true.
Proof. vm_compute. reflexivity. Qed.

Lemma pad_compare (width : nat) (bound : Z) :
  increasing width "" 0 (Z.to_nat bound) = true ->
  forall a b, 0 <= a < bound -> 0 <= b < bound ->
    String.length (Js.pad width a) = width
    /\ String.compare (Js.pad width a) (Js.pad width b) = (a ?= b).
Proof.
  intros F a b Ha Hb.
  destruct (increasing_spec _ _ _ _ F) as [I1 I2].
  rewrite Z2Nat.id in I1, I2 by lia. split; [now apply I1|].
  destruct (Z.compare_spec a b) as [E | Hlt | Hgt].
  - subst. apply string_compare_refl.
  - apply I2; lia.
  - rewrite String.compare_antisym, I2 by lia. reflexivity.
Qed.

(** *** Date strings *)

Lemma date_string_compare (y1 m1 d1 y2 m2 d2 : Z) :
  0 <= y1 <= 9999 -> 0 <= y2 <= 9999 ->
  0 <= m1 <= 99 -> 0 <= m2 <= 99 ->
  0 <= d1 <= 99 -> 0 <= d2 <= 99 ->
  String.compare (date_string (y1, m1, d1)) (date_string (y2, m2, d2))
  = lex3 (y1, m1, d1) (y2, m2, d2).
Proof.
  intros Y1 Y2 M1 M2 D1 D2. unfold date_string, lex3.
  destruct (pad_compare 4 10000 pad4_increasing y1 y2 ltac:(lia) ltac:(lia))
    as [Ly Cy].
  destruct (pad_compare 4 10000 pad4_increasing y2 y1 ltac:(lia) ltac:(lia))
    as [Ly' _].
  destruct (pad_compare 2 100 pad2_increasing m1 m2 ltac:(lia) ltac:(lia))
    as [Lm Cm].
  destruct (pad_compare 2 100 pad2_increasing m2 m1 ltac:(lia) ltac:(lia))
    as [Lm' _].
  destruct (pad_compare 2 100 pad2_increasing d1 d2 ltac:(lia) ltac:(lia))
    as [_ Cd].
  rewrite string_compare_app by congruence. rewrite Cy.
  destruct (y1 ?= y2); try reflexivity.
  cbn [String.append String.compare]. rewrite ascii_compare_refl.
  rewrite string_compare_app by congruence. rewrite Cm.
  destruct (m1 ?= m2); try reflexivity.
  cbn [String.append String.compare]. rewrite ascii_compare_refl.
  exact Cd.
Qed.


Lemma lex3_refl (a : Z * Z * Z) : lex3 a a = Eq.
Proof.
  destruct a as [[y m] d]. unfold lex3. now rewrite !Z.compare_refl.
Qed.

Lemma lex3_antisym (a b : Z * Z * Z) : lex3 a b = CompOpp (lex3 b a).
Proof.
  destruct a as [[y1 m1] d1], b as [[y2 m2] d2]. unfold lex3.
  rewrite (Z.compare_antisym y2 y1), (Z.compare_antisym m2 m1),
    (Z.compare_antisym d2 d1).
  destruct (y2 ?= y1), (m2 ?= m1), (d2 ?= d1); reflexivity.
Qed.

(** The dates are in the order of the days. *)
Lemma civil_from_days_compare (k1 k2 : Z) :
  lex3 (Js.civil_from_days k1) (Js.civil_from_days k2) = (k1 ?= k2).
Proof.
  destruct (Z.compare_spec k1 k2) as [E | Hlt | Hgt].
  - subst. apply lex3_refl.
  - now apply civil_from_days_lt.
  - rewrite lex3_antisym, (civil_from_days_lt _ _ Hgt). reflexivity.
Qed.

(** From 0000-01-01 to 9999-12-31 the year has four digits. *)
Lemma civil_from_days_range (k : Z) :
  first_day <= k <= last_day ->
  let '(y, m, d) := Js.civil_from_days k in
  0 <= y <= 9999 /\ 1 <= m <= 12 /\ 1 <= d <= 31.
Proof.
  intros H.
  pose proof (civil_from_days_compare first_day k) as A.
  pose proof (civil_from_days_compare k last_day) as B.
  assert (R : let '(y, m, d) := Js.civil_from_days k in
              1 <= m <= 12 /\ 1 <= d <= 31).
  { rewrite civil_from_days_eq. unfold civil_of. cbv zeta.
    pose proof (Z.mod_pos_bound (k + 719468) 146097 ltac:(lia)) as Hm.
    destruct (year_of_era_range ((k + 719468) mod 146097) ltac:(lia))
      as [_ D].
    destruct (month_index_range _ D) as [M N].
    split; [|exact N].
    destruct (Z.ltb_spec (month_index
                            (day_of_year ((k + 719468) mod 146097))) 10);
      lia. }
  change (Js.civil_from_days first_day) with (0, 1, 1) in A.
  change (Js.civil_from_days last_day) with (9999, 12, 31) in B.
  destruct (Js.civil_from_days k) as [[y m] d]. unfold lex3 in A, B.
  split; [|exact R]. split.
  - destruct (Z.compare_spec 0 y); try lia.
    destruct (Z.compare_spec first_day k); try lia; discriminate.
  - destruct (Z.compare_spec y 9999); try lia.
    destruct (Z.compare_spec k last_day); try lia; discriminate.
Qed.

(** The date of a time value from year 0 to year 9999. *)
Lemma date_of_string (t : Z) :
  first_day <= Js.Day t <= last_day ->
  TrackSpec.date_of t = date_string (Js.civil_from_days (Js.Day t)).
Proof.
  intros H. pose proof (civil_from_days_range _ H) as R.
  unfold TrackSpec.date_of, Js.toISOString, date_string.
  destruct (Js.civil_from_days (Js.Day t)) as [[y m] d].
  destruct R as (Y & M & D).
  assert (I : Js.iso_year y = Js.pad 4 y).
  { unfold Js.iso_year.
    destruct (Z.leb_spec 0 y), (Z.leb_spec y 9999); try lia. reflexivity. }
  rewrite I.
  destruct (pad_compare 4 10000 pad4_increasing y y ltac:(lia) ltac:(lia))
    as [Ly _].
  destruct (pad_compare 2 100 pad2_increasing m m ltac:(lia) ltac:(lia))
    as [Lm _].
  destruct (pad_compare 2 100 pad2_increasing d d ltac:(lia) ltac:(lia))
    as [Ld _].
  rewrite (slice_to_app _ _ 4 6 Ly). f_equal.
  cbn [String.append]. rewrite (slice_to_cons 5). f_equal.
  rewrite (slice_to_app _ _ 2 3 Lm). f_equal.
  rewrite (slice_to_cons 2). f_equal.
  apply (slice_to_all _ _ 2 Ld).
Qed.

(** Date strings of years 0 to 9999 compare as their days do. *)
Lemma date_of_compare (t1 t2 : Z) :
  first_day <= Js.Day t1 <= last_day ->
  first_day <= Js.Day t2 <= last_day ->
  String.compare (TrackSpec.date_of t1) (TrackSpec.date_of t2)
  = (Js.Day t1 ?= Js.Day t2).
Proof.
  intros H1 H2. rewrite !date_of_string by assumption.
  pose proof (civil_from_days_range _ H1) as R1.
  pose proof (civil_from_days_range _ H2) as R2.
  rewrite <- civil_from_days_compare.
  destruct (Js.civil_from_days (Js.Day t1)) as [[y1 m1] d1].
  destruct (Js.civil_from_days (Js.Day t2)) as [[y2 m2] d2].
  apply date_string_compare; lia.
Qed.

Lemma date_of_leb (t1 t2 : Z) :
  first_day <= Js.Day t1 <= last_day ->
  first_day <= Js.Day t2 <= last_day ->
  String.leb (TrackSpec.date_of t1) (TrackSpec.date_of t2)
  = (Js.Day t1 <=? Js.Day t2).
Proof.
  intros H1 H2. unfold String.leb. rewrite (date_of_compare _ _ H1 H2).
  unfold Z.leb. reflexivity.
Qed.

(** *** The range of a report *)

Lemma Day_of_midnight (k : Z) : Js.Day (k * Js.msPerDay) = k.
Proof. unfold Js.Day, Js.msPerDay. now apply Z.div_mul. Qed.

(** The two dates of the range are the date of today and the date of the
    day [d - 1] days earlier. *)
Lemma compute_range_dates (now d : Z) :
  0 <= now ->
  first_day <= Js.Day now - (d - 1) <= last_day ->
  Js.Day now <= last_day ->
  ReportsWorker.compute_range now (Js.Int d)
  = inr {| ReportsWorker.from :=
             TrackSpec.date_of ((Js.Day now - (d - 1)) * Js.msPerDay);
           ReportsWorker.to := TrackSpec.date_of now;
           ReportsWorker.days := Js.Int d |}.
Proof.
  intros Hnow Hfrom Hto.
  assert (Hmax : 0 <= now <= ReportSpec.max_time).
  { unfold ReportSpec.max_time, last_day, Js.Day, Js.msPerDay in *.
    Z.div_mod_to_equations. lia. }
  assert (Hd : - 100000000 <= Js.Day now - (d - 1) <= 100000000)
    by (unfold first_day, last_day in *; lia).
  destruct (ReportFacts.compute_range_days_earlier now d Hmax Hd)
    as (_ & _ & fromIso & toIso & F & T & R).
  rewrite R. f_equal.
  assert (Dnow : first_day <= Js.Day now <= last_day).
  { split; [|exact Hto].
    apply Z.le_trans with 0; [unfold first_day; lia|].
    unfold Js.Day, Js.msPerDay. now apply Z.div_pos. }
  f_equal.
  - unfold TrackSpec.date_of. now rewrite F.
  - transitivity (TrackSpec.date_of (Js.Day now * Js.msPerDay)).
    + unfold TrackSpec.date_of. now rewrite T.
    + rewrite !date_of_string; rewrite ?Day_of_midnight; auto.
Qed.

(** The rows a range selects among rows dated from year 0 to year 9999. *)
Lemma in_range_days (now d t : Z) (row : D1.StatsRow) :
  first_day <= Js.Day now - (d - 1) <= last_day ->
  first_day <= Js.Day now <= last_day ->
  first_day <= Js.Day t <= last_day ->
  D1.date row = TrackSpec.date_of t ->
  ReportsWorker.in_range
    (TrackSpec.date_of ((Js.Day now - (d - 1)) * Js.msPerDay))
    (TrackSpec.date_of now) row
  = (Js.Day now - (d - 1) <=? Js.Day t) && (Js.Day t <=? Js.Day now).
Proof.
  intros Hfrom Hnow Ht E. unfold ReportsWorker.in_range. rewrite E.
  rewrite !date_of_leb; rewrite ?Day_of_midnight; auto.
Qed.

(** X18.  For a time from 1970 to the year 9999 and a whole number of days
    that does not reach before the year 0, the range is built, it ends on
    the UTC date of the request, and among rows dated with the UTC date of
    a time of the years 0 to 9999 it selects exactly those of the last
    [days] days, today included: the comparison of the date texts is the
    comparison of the days. *)
Theorem report_range_is_last_days (now d t : Z) :
  0 <= now ->
  1 <= d ->
  first_day <= Js.Day now - (d - 1) ->
  Js.Day now <= last_day ->
  first_day <= Js.Day t <= last_day ->
  exists r,
    ReportsWorker.compute_range now (Js.Int d) = inr r
    /\ ReportsWorker.to r = TrackSpec.date_of now
    /\ forall row,
         D1.date row = TrackSpec.date_of t ->
         ReportsWorker.in_range (ReportsWorker.from r) (ReportsWorker.to r)
           row
         = (Js.Day now - (d - 1) <=? Js.Day t) && (Js.Day t <=? Js.Day now).
Proof.
  intros Hnow Hd Hfrom Hto Ht.
  assert (Dnow : 0 <= Js.Day now)
    by (unfold Js.Day, Js.msPerDay; now apply Z.div_pos).
  eexists. split; [apply compute_range_dates; lia|].
  cbn [ReportsWorker.from ReportsWorker.to]. split; [reflexivity|].
  intros row E. apply in_range_days; auto; unfold first_day in *; lia.
Qed.

(** What a committed [POST /track] leaves in the table, with counters that
    default to 0. *)
Lemma track_success_table (p : Track.TrackBody) (s : string)
      (c : Track.Column) (now : Z) (db : D1.t)
      (companyRow : D1.CompanyRow) :
  Track.slug p = Js.VString s ->
  Track.columnMap (Js.to_string (Track.type p)) = Track.Own c ->
  ReportsWorker.company_by_slug db (Track.trim s) = Some companyRow ->
  Track.trim s <> ""%string ->
  ConsumerSpec.commits (hd None (D1.pending db)) = true ->
  D1.company_daily_stats
    (fst (Track.fetch_track (Some 0) (Some p) now db))
  = D1.upsert (D1.company_daily_stats db)
      (EventsConsumer.bind
         (EventsConsumer.increment (TrackSpec.event_type_of c)
            (EventsConsumer.fresh (Js.VNumber (Js.Int (D1.id companyRow)))
               (TrackSpec.date_of now)))).
Proof.
  intros Hs Hc Hrow Hne Hcommit.
  rewrite <- TrackFacts.inserted_row_unit, <- TrackFacts.increment_upsert.
  unfold Track.fetch_track, Track.track_try, Track.trimmed_slug,
    Track.body_type.
  rewrite Hs. cbv zeta. cbn [Js.truthy Js.to_string].
  pose proof Hne as Hne'. apply String.eqb_neq in Hne'. rewrite Hne'.
  rewrite (TrackFacts.own_column_string _ _ Hc).
  cbn [Js.truthy Js.to_string].
  assert (T : String.eqb (TrackSpec.type_name c) "" = false)
    by now destruct c.
  rewrite T. cbn [negb orb].
  rewrite TrackFacts.columnMap_type_name, Hrow.
  unfold TrackSpec.date_of. rewrite (TrackFacts.toISOString_now now).
  unfold Track.run_increment.
  destruct (D1.pending db) as [|[e|] rest]; try reflexivity.
  discriminate Hcommit.
Qed.

(** X19.  With counters that default to 0 and no NULL in the column, a
    [POST /track] answered 200 at time [sent] adds exactly one to the total
    of that column in every report of the company whose range, built at a
    later time [now] for [d] days, contains the UTC day of [sent], and
    nothing to a report whose range does not. *)
Theorem tracked_event_shows_in_report (p : Track.TrackBody) (s : string)
        (c : Track.Column) (sent now d : Z) (db : D1.t)
        (companyRow : D1.CompanyRow) :
  Track.slug p = Js.VString s ->
  Track.columnMap (Js.to_string (Track.type p)) = Track.Own c ->
  ReportsWorker.company_by_slug db (Track.trim s) = Some companyRow ->
  Track.trim s <> ""%string ->
  ConsumerSpec.commits (hd None (D1.pending db)) = true ->
  PipelineSpec.no_nulls c (D1.company_daily_stats db) ->
  0 <= sent <= now ->
  1 <= d ->
  first_day <= Js.Day now - (d - 1) ->
  Js.Day now <= last_day ->
  exists r,
    ReportsWorker.compute_range now (Js.Int d) = inr r
    /\ PipelineSpec.report_total c
         (fst (Track.fetch_track (Some 0) (Some p) sent db)) r companyRow
       = PipelineSpec.report_total c db r companyRow
         + (if Js.Day now - (d - 1) <=? Js.Day sent then 1 else 0).
Proof.
  intros Hs Hc Hrow Hne Hcommit N Hsent Hd Hfrom Hto.
  assert (Dsent : 0 <= Js.Day sent <= Js.Day now).
  { unfold Js.Day, Js.msPerDay. split.
    - apply Z.div_pos; lia.
    - apply Z.div_le_mono; lia. }
  eexists. split; [apply compute_range_dates; lia|].
  rewrite !PipelineFacts.report_total_stored.
  cbn [ReportsWorker.from ReportsWorker.to].
  rewrite (track_success_table p s c sent db companyRow Hs Hc Hrow Hne
             Hcommit).
  rewrite (PipelineFacts.report_sum_upsert c _ _ _ _ _ N).
  f_equal. unfold PipelineSpec.in_report.
  assert (K : D1.company_id
                (EventsConsumer.bind
                   (EventsConsumer.increment (TrackSpec.event_type_of c)
                      (EventsConsumer.fresh
                         (Js.VNumber (Js.Int (D1.id companyRow)))
                         (TrackSpec.date_of sent))))
              = Js.VNumber (Js.Int (D1.id companyRow)))
    by now destruct c.
  rewrite K, ConsumerFacts.value_eqb_refl. cbn [andb].
  rewrite (in_range_days now d sent);
    [| unfold first_day in *; lia ..| now destruct c].
  assert (One : EventsConsumer.counter (TrackSpec.event_type_of c)
                  (EventsConsumer.increment (TrackSpec.event_type_of c)
                     (EventsConsumer.fresh
                        (Js.VNumber (Js.Int (D1.id companyRow)))
                        (TrackSpec.date_of sent))) = 1)
    by now destruct c.
  rewrite One.
  destruct (Z.leb_spec (Js.Day sent) (Js.Day now)); [|lia].
  now rewrite andb_true_r.
Qed.

Lemma report_range_is_last_days_witness :
  (0 <= Samples.now
   /\ 1 <= 5
   /\ first_day <= Js.Day Samples.now - (5 - 1)
   /\ Js.Day Samples.now <= last_day
   /\ first_day <= Js.Day 1793318400000 <= last_day)
  /\ exists r,
       ReportsWorker.compute_range Samples.now (Js.Int 5) = inr r
       /\ ReportsWorker.to r = TrackSpec.date_of Samples.now
       /\ forall row,
            D1.date row = TrackSpec.date_of 1793318400000 ->
            ReportsWorker.in_range (ReportsWorker.from r)
              (ReportsWorker.to r) row
            = (Js.Day Samples.now - (5 - 1) <=? Js.Day 1793318400000)
              && (Js.Day 1793318400000 <=? Js.Day Samples.now).
Proof.
  assert (H1 : 0 <= Samples.now) by (unfold Samples.now; lia).
  assert (H2 : 1 <= 5) by lia.
  assert (H3 : first_day <= Js.Day Samples.now - (5 - 1))
    by (vm_compute; discriminate).
  assert (H4 : Js.Day Samples.now <= last_day)
    by (vm_compute; discriminate).
  assert (H5 : first_day <= Js.Day 1793318400000 <= last_day)
    by (split; vm_compute; discriminate).
  split; [now repeat split|].
  exact (report_range_is_last_days Samples.now 5 1793318400000
           H1 H2 H3 H4 H5).
Defined.

Lemma tracked_event_shows_in_report_witness :
  PipelineSpec.no_nulls Track.col_views_profile
    (D1.company_daily_stats Samples.listings_db)
  /\ exists r,
       ReportsWorker.compute_range (Samples.now + 3600000) (Js.Int 5)
       = inr r
       /\ PipelineSpec.report_total Track.col_views_profile
            (fst (Track.fetch_track (Some 0) (Some TrackSamples.view_of_a)
                    Samples.now Samples.listings_db))
            r TrackSamples.company_a
          = PipelineSpec.report_total Track.col_views_profile
              Samples.listings_db r TrackSamples.company_a
            + 1.
Proof.
  assert (N : PipelineSpec.no_nulls Track.col_views_profile
                (D1.company_daily_stats Samples.listings_db))
    by (repeat constructor; discriminate).
  assert (T : Track.trim " a " <> ""%string) by discriminate.
  assert (S : 0 <= Samples.now <= Samples.now + 3600000)
    by (unfold Samples.now; lia).
  assert (D : 1 <= 5) by lia.
  assert (F : first_day <= Js.Day (Samples.now + 3600000) - (5 - 1))
    by (vm_compute; discriminate).
  assert (L : Js.Day (Samples.now + 3600000) <= last_day)
    by (vm_compute; discriminate).
  split; [exact N|].
  exact (tracked_event_shows_in_report TrackSamples.view_of_a " a "
           Track.col_views_profile Samples.now (Samples.now + 3600000) 5
           Samples.listings_db TrackSamples.company_a
           eq_refl eq_refl eq_refl T eq_refl N S D F L).
Defined.


End CalendarFacts.

(** * Routes, the router and the metrics query *)

Module RouteFacts.
Import ReportsWorker RouteSpec CalendarSpec.

(** ** Plain path segments *)

Lemma uri_tokens_literal (c : ascii) (rest : string) :
  Ascii.eqb c "%" = false ->
  Js.uri_tokens (String c rest)
  = match Js.uri_tokens rest with
    | Some ts => Some (Js.Literal c :: ts)
    | None => None
    end.
Proof.
  destruct c as [[] [] [] [] [] [] [] []]; intros H;
    try reflexivity; discriminate H.
Qed.

Lemma plain_cons (c : ascii) (s : string) :
  plain (String c s) = true ->
  Ascii.eqb c "%" = false /\ Js.is_white_space c = false /\ plain s = true.
Proof.
  unfold plain, plain_char. cbn [ConsumerSpec.forall_chars].
  intros H. apply andb_prop in H. destruct H as [H P].
  apply andb_prop in H. destruct H as [A B].
  now rewrite negb_true_iff in A, B.
Qed.

Lemma decode_plain (s : string) :
  plain s = true -> Js.decodeURIComponent s = inr s.
Proof.
  intros P.
  assert (T : exists ts, Js.uri_tokens s = Some ts
                         /\ Js.uri_decode ts = Some s).
  { induction s as [|c s IH].
    - exists []. now split.
    - destruct (plain_cons _ _ P) as (A & _ & P').
      destruct (IH P') as (ts & T1 & T2).
      exists (Js.Literal c :: ts). rewrite (uri_tokens_literal _ _ A), T1.
      split; [reflexivity|]. cbn [Js.uri_decode]. now rewrite T2. }
  destruct T as (ts & T1 & T2).
  unfold Js.decodeURIComponent. now rewrite T1, T2.
Qed.

Lemma trim_plain (s : string) : plain s = true -> Js.trim s = s.
Proof.
  intros P. unfold Js.trim.
  assert (S : Js.trimStart s = s).
  { destruct s as [|c s]; [reflexivity|].
    destruct (plain_cons _ _ P) as (_ & W & _).
    cbn [Js.trimStart]. now rewrite W. }
  rewrite S. clear S.
  induction s as [|c s IH]; [reflexivity|].
  destruct (plain_cons _ _ P) as (_ & W & P').
  cbn [Js.trimEnd]. cbv zeta. rewrite W, (IH P'). reflexivity.
Qed.

(** The route of a report, with or without the prefix of the API. *)
Lemma route_path_company (slug : string) :
  route_path ("/company/" ++ slug) = ("/company/" ++ slug)%string
  /\ route_path ("/api/reports" ++ "/company/" ++ slug)
     = ("/company/" ++ slug)%string.
Proof. split; reflexivity. Qed.

Lemma replace_company (slug : string) :
  Js.replace "/company/" "" ("/company/" ++ slug) = slug.
Proof. destruct slug; reflexivity. Qed.

(** X20.  A GET of [/company/<slug>] or [/api/reports/company/<slug>],
    for a slug that is not empty and has no [%] and no white space, is
    answered 200 with the report of the company of that slug over the
    range of the request, and 404 when no company has that slug: the slug
    reaches the lookup unchanged through the route, [trim] and
    [decodeURIComponent]. *)
Theorem company_route_serves_report (Number : string -> Js.number)
        (prefix slug : string) (days : option string) (now : Z) (db : D1.t)
        (r : Range) :
  prefix = ""%string \/ prefix = "/api/reports"%string ->
  plain slug = true ->
  slug <> ""%string ->
  compute_range now (resolve_days (days_number Number days)) = inr r ->
  fetch_get Number (company_request prefix slug days) now db
  = match company_by_slug db slug with
    | Some companyRow =>
        inr (jsonResponse (ReportBody (company_report db r companyRow))
               None)
    | None => inr (jsonResponse (ErrorBody "Company not found") (Some 404))
    end.
Proof.
  intros Hp P Hne R.
  assert (Route : route_path (pathname (company_request prefix slug days))
                  = ("/company/" ++ slug)%string).
  { unfold company_request. cbn [pathname].
    destruct Hp as [-> | ->]; apply route_path_company. }
  rewrite (ReportFacts.fetch_company Number _ now db r slug).
  - apply String.eqb_neq in Hne. now rewrite Hne.
  - exact R.
  - rewrite Route. now destruct slug.
  - rewrite Route, replace_company, (trim_plain _ P). now apply decode_plain.
Qed.

(** ** The router *)

Lemma fetch_get_route (Number : string -> Js.number) (r1 r2 : Request)
      (now : Z) (db : D1.t) :
  route_path (pathname r1) = route_path (pathname r2) ->
  days_param r1 = days_param r2 ->
  fetch_get Number r1 now db = fetch_get Number r2 now db.
Proof.
  intros P D. unfold fetch_get. cbv zeta. now rewrite P, D.
Qed.

Lemma route_path_prefixed (p : string) :
  Js.startsWith "/" p = true ->
  Js.startsWith "/api/reports/" ("/api/reports" ++ p) = true
  /\ route_path ("/api/reports" ++ p) = p.
Proof.
  destruct p as [|c p]; [discriminate|].
  unfold Js.startsWith. cbn [String.prefix].
  destruct (ascii_dec "/" c) as [<- | ]; [|discriminate].
  intros _. split.
  - cbn. now destruct p.
  - now destruct p.
Qed.

Lemma route_path_unprefixed (p : string) :
  Js.startsWith "/" p = true ->
  Js.startsWith "/api/reports" p = false ->
  route_path p = p.
Proof.
  intros S A. unfold route_path. now rewrite A, S.
Qed.

(** X21.  Through the router, a GET of [/api/reports<p>] on
    [api.firmlocator.com] is answered as the GET of [<p>] on
    [reports.firmlocator.com], for every path [<p>] that starts with [/]
    and not again with [/api/reports]; on the reports host the prefixed
    path is answered the same way too. *)
Theorem api_prefix_is_transparent (Number : string -> Js.number)
        (p : string) (days : option string) (now : Z) (db : D1.t)
        (kv : MetricsWorker.KV) :
  Js.startsWith "/" p = true ->
  Js.startsWith "/api/reports" p = false ->
  let direct := {| pathname := p; days_param := days |} in
  let prefixed :=
    {| pathname := ("/api/reports" ++ p)%string; days_param := days |} in
  Router.fetch_get Number "api.firmlocator.com" prefixed now db kv
  = Router.fetch_get Number "reports.firmlocator.com" direct now db kv
  /\ Router.fetch_get Number "reports.firmlocator.com" prefixed now db kv
     = Router.fetch_get Number "reports.firmlocator.com" direct now db kv.
Proof.
  intros S A direct prefixed.
  destruct (route_path_prefixed p S) as [Pre Route].
  assert (E : fetch_get Number prefixed now db
              = fetch_get Number direct now db).
  { apply fetch_get_route; [|reflexivity].
    unfold prefixed, direct. cbn [pathname].
    now rewrite Route, (route_path_unprefixed p S A). }
  unfold Router.fetch_get.
  change (String.eqb "api.firmlocator.com" "metrics.firmlocator.com")
    with false.
  change (String.eqb "api.firmlocator.com" "reports.firmlocator.com")
    with false.
  change (String.eqb "api.firmlocator.com" "api.firmlocator.com") with true.
  change (String.eqb "reports.firmlocator.com" "metrics.firmlocator.com")
    with false.
  change (String.eqb "reports.firmlocator.com" "reports.firmlocator.com")
    with true.
  cbn [andb]. unfold prefixed at 1. cbn [pathname]. rewrite Pre.
  now rewrite E.
Qed.

(** ** The dates of the metrics query *)

(** X22.  For a time from 1970 to the year 9999, the metrics query is
    built, and among UTC dates of the years 0 to 9999 its filter (date at
    or after [from], before [to]) holds exactly for the thirty days before
    the UTC day of the run: today is left out. *)
Theorem metrics_query_is_thirty_days (now t : Z) :
  0 <= now ->
  Js.Day now <= last_day ->
  first_day <= Js.Day t <= last_day ->
  exists fromStr toStr,
    MetricsWorker.query_dates now = inr (fromStr, toStr)
    /\ String.leb fromStr (TrackSpec.date_of t)
       = (Js.Day now - 30 <=? Js.Day t)
    /\ String.ltb (TrackSpec.date_of t) toStr = (Js.Day t <? Js.Day now).
Proof.
  intros Hnow Hlast Ht.
  assert (Dnow : 0 <= Js.Day now)
    by (unfold Js.Day, Js.msPerDay; now apply Z.div_pos).
  assert (Dfrom : Js.Day (now - 30 * 24 * 60 * 60 * 1000) = Js.Day now - 30).
  { unfold Js.Day, Js.msPerDay.
    replace (now - 30 * 24 * 60 * 60 * 1000)
      with (now + (- 30) * 86400000) by lia.
    rewrite Z.div_add by lia. lia. }
  assert (Clip : Js.TimeClip (now - 30 * 24 * 60 * 60 * 1000)
                 = Some (now - 30 * 24 * 60 * 60 * 1000)).
  { unfold Js.TimeClip.
    destruct (Z.leb_spec (Z.abs (now - 30 * 24 * 60 * 60 * 1000))
                8640000000000000); [reflexivity|].
    unfold last_day, Js.Day, Js.msPerDay in *.
    Z.div_mod_to_equations. lia. }
  exists (TrackSpec.date_of (now - 30 * 24 * 60 * 60 * 1000)).
  exists (TrackSpec.date_of now).
  split; [|split].
  - unfold MetricsWorker.query_dates. cbv zeta. rewrite Clip.
    unfold TrackSpec.date_of.
    rewrite (TrackFacts.toISOString_now now),
      (TrackFacts.toISOString_now (now - 30 * 24 * 60 * 60 * 1000)).
    reflexivity.
  - assert (Rfrom : first_day
                    <= Js.Day (now - 30 * 24 * 60 * 60 * 1000) <= last_day)
      by (rewrite Dfrom; unfold first_day, last_day in *; lia).
    now rewrite (CalendarFacts.date_of_leb _ _ Rfrom Ht), Dfrom.
  - assert (Rnow : first_day <= Js.Day now <= last_day)
      by (unfold first_day in *; lia).
    unfold String.ltb.
    now rewrite (CalendarFacts.date_of_compare _ _ Ht Rnow).
Qed.

Lemma company_route_serves_report_witness :
  (RouteSpec.plain "b" = true
   /\ "b"%string <> ""%string
   /\ compute_range Samples.now
        (resolve_days
           (days_number Samples.Number_on_digits (Some "5"%string)))
      = inr {| from := "2026-10-29"; to := "2026-11-02";
               days := Js.Int 5 |})
  /\ fetch_get Samples.Number_on_digits
       (company_request "/api/reports" "b" (Some "5"%string))
       Samples.now Samples.listings_db
     = inr (jsonResponse
              (ReportBody
                 (company_report Samples.listings_db
                    {| from := "2026-10-29"; to := "2026-11-02";
                       days := Js.Int 5 |}
                    (Samples.listing 2 "b")))
              None).
Proof.
  assert (H1 : RouteSpec.plain "b" = true) by reflexivity.
  assert (H2 : "b"%string <> ""%string) by discriminate.
  assert (H3 : compute_range Samples.now
                 (resolve_days
                    (days_number Samples.Number_on_digits
                       (Some "5"%string)))
               = inr {| from := "2026-10-29"; to := "2026-11-02";
                        days := Js.Int 5 |}) by reflexivity.
  split; [exact (conj H1 (conj H2 H3))|].
  exact (company_route_serves_report Samples.Number_on_digits
           "/api/reports" "b" (Some "5"%string) Samples.now
           Samples.listings_db _ (or_intror eq_refl) H1 H2 H3).
Defined.

Lemma api_prefix_is_transparent_witness :
  (Js.startsWith "/" "/summary" = true
   /\ Js.startsWith "/api/reports" "/summary" = false)
  /\ Router.fetch_get Samples.Number_on_digits "api.firmlocator.com"
       (Samples.get_request "/api/reports/summary" (Some "5"%string))
       Samples.now Samples.listings_db []
     = Router.fetch_get Samples.Number_on_digits "reports.firmlocator.com"
         (Samples.get_request "/summary" (Some "5"%string))
         Samples.now Samples.listings_db [].
Proof.
  assert (H1 : Js.startsWith "/" "/summary" = true) by reflexivity.
  assert (H2 : Js.startsWith "/api/reports" "/summary" = false)
    by reflexivity.
  split; [exact (conj H1 H2)|].
  exact (proj1 (api_prefix_is_transparent Samples.Number_on_digits
                  "/summary" (Some "5"%string) Samples.now
                  Samples.listings_db [] H1 H2)).
Defined.

Lemma metrics_query_is_thirty_days_witness :
  (0 <= Samples.now
   /\ Js.Day Samples.now <= last_day
   /\ first_day <= Js.Day 1791072000000 <= last_day)
  /\ exists fromStr toStr,
       MetricsWorker.query_dates Samples.now = inr (fromStr, toStr)
       /\ String.leb fromStr (TrackSpec.date_of 1791072000000)
          = (Js.Day Samples.now - 30 <=? Js.Day 1791072000000)
       /\ String.ltb (TrackSpec.date_of 1791072000000) toStr
          = (Js.Day 1791072000000 <? Js.Day Samples.now).
Proof.
  assert (H1 : 0 <= Samples.now) by (unfold Samples.now; lia).
  assert (H2 : Js.Day Samples.now <= last_day)
    by (vm_compute; discriminate).
  assert (H3 : first_day <= Js.Day 1791072000000 <= last_day)
    by (split; vm_compute; discriminate).
  split; [exact (conj H1 (conj H2 H3))|].
  exact (metrics_query_is_thirty_days Samples.now 1791072000000 H1 H2 H3).
Defined.

(** The metrics query of 2026-11-02 asks for 2026-10-03 up to, and not
    including, 2026-11-02. *)
Example query_dates_of_sample :
  MetricsWorker.query_dates Samples.now
  = inr ("2026-10-03"%string, "2026-11-02"%string).
Proof. reflexivity. Qed.

End RouteFacts.
